(** * CMP query portal: query lifecycle and additive schema migration

    A shallow embedding of the request handlers of [app.py]
    ([submit_query], [update_status], [student_dashboard], [toggle_faq])
    and of the start-up routine [migrate_additive_schema], over the
    entity model of [models.py]; then of the administration handlers
    ([toggle_block_student], [toggle_block_guest], [admin_faq],
    [edit_faq], [mark_query_as_faq], [admin_reply] with
    [send_guest_response_email], the totals of [admin_dashboard_data])
    and of the account handlers ([register], [student_login]).

    Conventions of the embedding.
    - Text is a [string] whose characters stand for the code points
      U+0000..U+00FF; [Py.strip] and [Py.lower] are Python's [str.strip]
      and [str.lower] on that range.
    - A table is the list of its rows in rowid order; a new row receives
      the key [1 + max] of the keys in use, as SQLite assigns rowids.
    - The SQLAlchemy session is a pending copy of the tables next to the
      committed ones; [commit] publishes the pending copy, [rollback]
      discards it.
    - Every storage or mail call the source guards with [try] can raise;
      which ones do is given by a fault assignment [site -> bool].
    - SQLite matches the names of columns without regard to the case of
      the letters A-Z; Python's [in] on the column list compares the
      spelling.
    - Timestamps ([datetime.utcnow()]) are integers supplied by the caller. *)

From Stdlib Require Import ZArith List String Ascii Bool Lia.
From Stdlib Require Import Decimal DecimalNat DecimalString.
From stdpp Require Import gmap strings list fin_maps.
Import ListNotations.
Local Open Scope string_scope.
Local Open Scope Z_scope.
Local Open Scope list_scope.

(** ** Python text primitives *)

Module Py.

(** [str.isspace] for one code point below 256. *)
Definition isspace (c : ascii) : bool :=
  let n := N_of_ascii c in
  (((9 <=? n) && (n <=? 13)) || ((28 <=? n) && (n <=? 32))
   || (n =? 133) || (n =? 160))%N.

Fixpoint lstrip (s : string) : string :=
  match s with
  | EmptyString => EmptyString
  | String c t => if isspace c then lstrip t else s
  end.

Fixpoint rstrip (s : string) : string :=
  match s with
  | EmptyString => EmptyString
  | String c t =>
      match rstrip t with
      | EmptyString => if isspace c then EmptyString else String c EmptyString
      | r => String c r
      end
  end.

(** [s.strip()] *)
Definition strip (s : string) : string := rstrip (lstrip s).

(** [str.lower] for one code point below 256: A-Z and the Latin-1
    capitals U+00C0..U+00DE (the multiplication sign excepted). *)
Definition lower_char (c : ascii) : ascii :=
  let n := N_of_ascii c in
  if (((65 <=? n) && (n <=? 90))
      || ((192 <=? n) && (n <=? 222) && negb (n =? 215)))%N
  then ascii_of_N (n + 32) else c.

Fixpoint lower (s : string) : string :=
  match s with
  | EmptyString => EmptyString
  | String c t => String (lower_char c) (lower t)
  end.

(** Truth value of an optional text: [None] and [''] are falsy. *)
Definition truthy (o : option string) : bool :=
  match o with
  | Some (String _ _) => true
  | _ => false
  end.

(** [a or b] on optional texts. *)
Definition or_ (a b : option string) : option string :=
  if truthy a then a else b.

(** The text behind a value already known to be truthy. *)
Definition text (o : option string) : string :=
  match o with
  | Some s => s
  | None => EmptyString
  end.

End Py.

(** ** Entity model ([models.py]) *)

Record Query := mkQuery {
  q_id : Z;
  q_name : string;
  q_email : string;
  q_message : string;
  q_category : option string;
  q_status : option string;
  q_response : option string;
  q_admin_response : option string;
  q_admin_reply_text : option string;
  q_admin_reply_at : option Z;
  q_admin_reply_seen : bool;
  q_student_id : option Z;
  q_created_at : Z
}.

Record Student := mkStudent {
  s_id : Z;
  s_student_id : string;
  s_name : string;
  s_email : string;
  s_password : string;
  s_is_blocked : bool
}.

Record BlockedEmail := mkBlockedEmail {
  b_id : Z;
  b_email : string;
  b_is_active : bool;
  b_created_at : Z
}.

Record FAQ := mkFAQ {
  f_id : Z;
  f_question : string;
  f_answer : option string;
  f_frequency : Z;
  f_category : option string;
  f_from_query_id : option Z;
  f_is_active : bool;
  f_created_at : Z
}.

(** The tables the lifecycle handlers read and write. *)
Record DB := mkDB {
  queries : list Query;
  students : list Student;
  blocked_emails : list BlockedEmail;
  faqs : list FAQ
}.

(** Key of the next inserted row. *)
Definition next_id (ids : list Z) : Z := 1 + fold_right Z.max 0 ids.

(** Field updates used by the handlers. *)
Definition set_responses (st r ar : option string) (q : Query) : Query :=
  mkQuery (q_id q) (q_name q) (q_email q) (q_message q) (q_category q)
          st r ar
          (q_admin_reply_text q) (q_admin_reply_at q) (q_admin_reply_seen q)
          (q_student_id q) (q_created_at q).

Definition set_reply (txt : option string) (at_ : option Z) (seen : bool)
    (q : Query) : Query :=
  mkQuery (q_id q) (q_name q) (q_email q) (q_message q) (q_category q)
          (q_status q) (q_response q) (q_admin_response q)
          txt at_ seen
          (q_student_id q) (q_created_at q).

Definition set_seen (seen : bool) (q : Query) : Query :=
  set_reply (q_admin_reply_text q) (q_admin_reply_at q) seen q.

Definition set_frequency (n : Z) (f : FAQ) : FAQ :=
  mkFAQ (f_id f) (f_question f) (f_answer f) n (f_category f)
        (f_from_query_id f) (f_is_active f) (f_created_at f).

Definition set_active (b : bool) (f : FAQ) : FAQ :=
  mkFAQ (f_id f) (f_question f) (f_answer f) (f_frequency f) (f_category f)
        (f_from_query_id f) b (f_created_at f).

Definition with_queries (qs : list Query) (d : DB) : DB :=
  mkDB qs (students d) (blocked_emails d) (faqs d).

Definition with_faqs (fs : list FAQ) (d : DB) : DB :=
  mkDB (queries d) (students d) (blocked_emails d) fs.

(** [Model.query.get(k)] *)
Definition get_query (k : Z) (d : DB) : option Query :=
  find (fun q => q_id q =? k) (queries d).

Definition get_student (k : Z) (d : DB) : option Student :=
  find (fun s => s_id s =? k) (students d).

Definition get_faq (k : Z) (d : DB) : option FAQ :=
  find (fun f => f_id f =? k) (faqs d).

(** Writing an attribute of a loaded row: the row with that key changes. *)
Definition update_query (k : Z) (g : Query -> Query) (d : DB) : DB :=
  with_queries (map (fun q => if q_id q =? k then g q else q) (queries d)) d.

Definition update_faq (k : Z) (g : FAQ -> FAQ) (d : DB) : DB :=
  with_faqs (map (fun f => if f_id f =? k then g f else f) (faqs d)) d.

(** ** Requests, responses and observable effects *)

(** What the cookie session holds under ['student_id']: the numeric key
    stored by [student_login], or a textual handle from older sessions. *)
Inductive session_value :=
| SInt (n : Z)
| SText (s : string).

Record session := mkSession {
  sess_student_logged_in : bool;
  sess_student_id : option session_value;
  sess_admin_logged_in : bool
}.

(** Truth value of [session.get('student_id')]. *)
Definition session_value_truthy (v : option session_value) : bool :=
  match v with
  | Some (SInt n) => negb (n =? 0)
  | Some (SText s) => Py.truthy (Some s)
  | None => false
  end.

(** Truth value of an optional integer ([if student_fk:]). *)
Definition fk_truthy (k : option Z) : bool :=
  match k with
  | Some n => negb (n =? 0)
  | None => false
  end.

(** Fields of the submission form ([request.form.get]). *)
Record submit_form := mkSubmitForm {
  form_name : option string;
  form_guest_name : option string;
  form_email : option string;
  form_guest_email : option string;
  form_category : option string;
  form_message : option string;
  form_guest_query : option string
}.

(** Fields of the status form. [uf_query_id] is the form's [query_id] as
    the storage engine reads it as a primary key. *)
Record status_form := mkStatusForm {
  uf_query_id : option Z;
  uf_status : option string;
  uf_response : option string
}.

(** [app.config] entries read by [update_status]. *)
Record mail_config := mkMailConfig {
  MAIL_USERNAME : option string;
  MAIL_PASSWORD : option string;
  MAIL_DEFAULT_SENDER : string
}.

Inductive endpoint :=
| Home
| StudentDashboard
| AdminDashboard
| AdminLogin
| StudentLogin
| AdminFaq
| Referrer (url : string).

Inductive response :=
| Redirect (e : endpoint)
| Render (template : string)
| NotFound404.

(** The values interpolated into the status mail of [update_status]. *)
Record Message := mkMessage {
  msg_subject_status : option string;
  msg_sender : string;
  msg_recipients : list string;
  msg_name : string;
  msg_category : option string;
  msg_message : string;
  msg_admin_response : option string;
  msg_status : option string
}.

Inductive event :=
| EvCommit (ok : bool)
| EvRollback
| EvFlash (msg category : string)
| EvLogError (msg : string)
| EvLogInfo (msg : string)
| EvMail (m : Message) (ok : bool).

(** Calls that may raise. *)
Inductive site :=
| StudentResolve
| StudentGet
| BlockedLookup
| QueryCommit
| FaqLookup
| FaqCommit
| StatusCommit
| MailSend
| ReplyCommit
| DashResolve
| SeenCommit
| ToggleCommit.

Definition faults := site -> bool.

Definition no_faults : faults := fun _ => false.

(** ** The request monad: session state, exceptions and early [return] *)

Record world := mkWorld {
  committed : DB;
  pending : DB;
  trace : list event
}.

Inductive outcome (A : Type) :=
| Val (a : A)
| Exc
| Ret (r : response).
Arguments Val {A} a.
Arguments Exc {A}.
Arguments Ret {A} r.

Definition M (A : Type) : Type := world -> outcome A * world.

Definition ret {A} (a : A) : M A := fun w => (Val a, w).

Definition bind {A B} (m : M A) (k : A -> M B) : M B :=
  fun w =>
    match m w with
    | (Val a, w') => k a w'
    | (Exc, w') => (Exc, w')
    | (Ret r, w') => (Ret r, w')
    end.

(** [return r] leaves the handler at once, also from inside a [try]. *)
Definition return_ {A} (r : response) : M A := fun w => (Ret r, w).

Definition raise {A} : M A := fun w => (Exc, w).

(** [try: m  except Exception: h] *)
Definition try_except {A} (m h : M A) : M A :=
  fun w =>
    match m w with
    | (Exc, w') => h w'
    | other => other
    end.

Declare Scope view_scope.
Delimit Scope view_scope with view.
Notation "x ← y ; z" := (bind y (fun x => z))
  (at level 20, y at level 100, z at level 200, only parsing) : view_scope.
Notation "x ;; z" := (bind x (fun _ => z))
  (at level 100, z at level 200, only parsing, right associativity) : view_scope.

Definition emit (e : event) : M unit :=
  fun w => (Val tt, mkWorld (committed w) (pending w) (trace w ++ [e])).

Definition flash (msg category : string) : M unit := emit (EvFlash msg category).

(** The session's view of the tables. *)
Definition session_db : M DB := fun w => (Val (pending w), w).

(** [db.session.add] and attribute writes on loaded rows. *)
Definition modify (g : DB -> DB) : M unit :=
  fun w => (Val tt, mkWorld (committed w) (g (pending w)) (trace w)).

(** [db.session.rollback()] *)
Definition rollback : M unit :=
  fun w => (Val tt, mkWorld (committed w) (committed w) (trace w ++ [EvRollback])).

Section Handlers.

(** Which calls raise during this request. *)
Variable fl : faults.

(** Python's [int] on a text: [None] stands for [ValueError]. *)
Variable py_int : string -> option Z.

(** A storage read at site [s]. *)
Definition db_call (s : site) : M unit :=
  fun w => if fl s then (Exc, w) else (Val tt, w).

(** [db.session.commit()] at site [s]. *)
Definition commit (s : site) : M unit :=
  fun w =>
    if fl s
    then (Exc, mkWorld (committed w) (pending w) (trace w ++ [EvCommit false]))
    else (Val tt, mkWorld (pending w) (pending w) (trace w ++ [EvCommit true])).

(** [mail.send(msg)] *)
Definition mail_send (m : Message) : M unit :=
  fun w =>
    if fl MailSend
    then (Exc, mkWorld (committed w) (pending w) (trace w ++ [EvMail m false]))
    else (Val tt, mkWorld (committed w) (pending w) (trace w ++ [EvMail m true])).

Local Open Scope view_scope.

(** The numeric student key behind the session value: [int(...)], and
    for a text that is no number the row with that handle. *)
Definition resolve_student_fk (s : site) (sid : option session_value)
    : M (option Z) :=
  match sid with
  | None => ret None
  | Some (SInt n) => ret (Some n)
  | Some (SText t) =>
      match py_int t with
      | Some n => ret (Some n)
      | None =>
          try_except
            (db_call s ;;
             d ← session_db ;
             match find (fun st => String.eqb (s_student_id st) t) (students d) with
             | Some st => ret (Some (s_id st))
             | None => ret None
             end)
            (ret None)
      end
  end.

(** *** [submit_query] *)

(** The FAQ auto-update block of [submit_query]. *)
Definition faq_auto_update (now : Z) (message category : option string)
    : M unit :=
  try_except
    (db_call FaqLookup ;;
     d ← session_db ;
     match find (fun f => String.eqb (f_question f) (Py.strip (Py.text message))
                          && f_is_active f) (faqs d) with
     | Some existing_faq =>
         modify (update_faq (f_id existing_faq)
                   (fun f => set_frequency (f_frequency f + 1) f)) ;;
         commit FaqCommit
     | None =>
         modify (fun d =>
           with_faqs (faqs d ++
             [mkFAQ (next_id (map f_id (faqs d)))
                    (Py.strip (Py.text message))
                    None
                    1
                    (if Py.truthy category
                     then Some (Py.strip (Py.text category)) else None)
                    None
                    true
                    now]) d) ;;
         commit FaqCommit
     end)
    (emit (EvLogError "Error updating FAQ: %s") ;; rollback).

(** The blocked-user gate of [submit_query]. *)
Definition reject_blocked (student_fk : option Z) (email : option string)
    : M unit :=
  match (if fk_truthy student_fk then student_fk else None) with
  | Some k =>
      try_except
        (db_call StudentGet ;;
         d ← session_db ;
         match get_student k d with
         | Some s_obj =>
             if s_is_blocked s_obj then
               flash "Your account has been blocked" "error" ;;
               return_ (Redirect StudentDashboard)
             else ret tt
         | None => ret tt
         end)
        (ret tt)
  | None =>
      try_except
        (if Py.truthy email then
           db_call BlockedLookup ;;
           d ← session_db ;
           match find (fun b => String.eqb (b_email b)
                                  (Py.lower (Py.strip (Py.text email)))
                                && b_is_active b) (blocked_emails d) with
           | Some _ =>
               flash "This email is blocked from submitting queries" "error" ;;
               return_ (Redirect Home)
           | None => ret tt
           end
         else ret tt)
        (ret tt)
  end.

Definition submit_query (now : Z) (sess : session) (referrer : option string)
    (form : submit_form) : M response :=
  let name := Py.or_ (form_name form) (form_guest_name form) in
  let email := Py.or_ (form_email form) (form_guest_email form) in
  let category := Py.or_ (form_category form) (Some "other") in
  let message := Py.or_ (form_message form) (form_guest_query form) in
  let student_id := sess_student_id sess in
  if negb (Py.truthy name) || negb (Py.truthy email) || negb (Py.truthy message)
  then
    flash "All fields are required" "error" ;;
    return_ (Redirect (if Py.truthy referrer
                       then Referrer (Py.text referrer) else Home))
  else
    student_fk ← resolve_student_fk StudentResolve student_id ;
    reject_blocked student_fk email ;;
    modify (fun d =>
      with_queries (queries d ++
        [mkQuery (next_id (map q_id (queries d)))
                 (Py.strip (Py.text name))
                 (Py.strip (Py.text email))
                 (Py.strip (Py.text message))
                 (if Py.truthy category
                  then Some (Py.strip (Py.text category)) else None)
                 (Some "Pending")
                 None None None None false
                 student_fk
                 now]) d) ;;
    commit QueryCommit ;;
    faq_auto_update now message category ;;
    flash "Your query has been submitted successfully." "success" ;;
    if session_value_truthy student_id
    then return_ (Redirect StudentDashboard)
    else return_ (Redirect Home).

(** *** [update_status] *)

Definition status_mail (cfg : mail_config) (status : option string)
    (q : Query) : Message :=
  mkMessage status (MAIL_DEFAULT_SENDER cfg) [q_email q]
            (q_name q) (q_category q) (q_message q) (q_admin_response q)
            status.

(** The reply text stored for a student:
    [(q.admin_response or response_text or '').strip()]. *)
Definition reply_text (admin_response response_text : option string) : string :=
  Py.strip (Py.text (Py.or_ admin_response (Py.or_ response_text (Some "")))).

Definition update_status (cfg : mail_config) (now : Z) (sess : session)
    (form : status_form) : M response :=
  if negb (sess_admin_logged_in sess) then
    flash "Please log in as admin" "error" ;;
    return_ (Redirect AdminLogin)
  else
    let status := uf_status form in
    let response_text := uf_response form in
    d ← session_db ;
    match match uf_query_id form with
          | Some qid => get_query qid d
          | None => None
          end with
    | None =>
        flash "Query not found" "error" ;;
        return_ (Redirect AdminDashboard)
    | Some q0 =>
        let q := set_responses (Py.or_ status (q_status q0))
                               (Py.or_ response_text (q_response q0))
                               (Py.or_ response_text (q_admin_response q0))
                               q0 in
        modify (update_query (q_id q0) (fun _ => q)) ;;
        commit StatusCommit ;;
        match q_student_id q with
        | None =>
            if Py.truthy (Some (q_email q)) && Py.truthy (MAIL_USERNAME cfg)
               && Py.truthy (MAIL_PASSWORD cfg)
            then
              try_except
                (mail_send (status_mail cfg status q) ;;
                 emit (EvLogInfo "Status update email sent to %s"))
                (emit (EvLogError "Status update email failed to %s: %s"))
            else ret tt
        | Some _ =>
            try_except
              (modify (update_query (q_id q0)
                         (set_reply
                            (Some (reply_text (q_admin_response q) response_text))
                            (Some now) false)) ;;
               commit ReplyCommit)
              rollback
        end ;;
        flash "Query updated" "success" ;;
        return_ (Redirect AdminDashboard)
    end.

(** *** [student_dashboard] *)

(** The rows [Query.query.filter_by(student_id=sid_int)] loads; the
    order in which the page lists them is not part of the model. *)
Definition owned_by (sid_int : option Z) (q : Query) : bool :=
  match sid_int, q_student_id q with
  | Some k, Some j => j =? k
  | _, _ => false
  end.

Definition mark_if_unseen (q : Query) : Query :=
  if Py.truthy (q_admin_reply_text q) && negb (q_admin_reply_seen q)
  then set_seen true q else q.

Definition student_dashboard (sess : session) : M response :=
  if negb (sess_student_logged_in sess) then
    flash "Please log in as a student" "error" ;;
    return_ (Redirect StudentLogin)
  else
    sid_int ← resolve_student_fk DashResolve (sess_student_id sess) ;
    try_except
      (modify (fun d =>
         with_queries
           (map (fun q => if owned_by sid_int q then mark_if_unseen q else q)
                (queries d)) d) ;;
       commit SeenCommit)
      rollback ;;
    return_ (Render "student_dashboard.html").

(** *** [toggle_faq] *)

Definition toggle_faq (sess : session) (fid : Z) : M response :=
  if negb (sess_admin_logged_in sess) then
    flash "Please log in as admin" "error" ;;
    return_ (Redirect AdminLogin)
  else
    d ← session_db ;
    match get_faq fid d with
    | None => return_ NotFound404
    | Some _ =>
        modify (update_faq fid (fun f => set_active (negb (f_is_active f)) f)) ;;
        commit ToggleCommit ;;
        return_ (Redirect AdminFaq)
    end.

End Handlers.

(** One request against the stored tables: the handler starts from a
    clean session, and the request teardown drops whatever it left
    uncommitted. [None] is an uncaught exception (HTTP 500). *)
Definition run (m : M response) (d : DB) : option response * DB * list event :=
  match m (mkWorld d d []) with
  | (Val r, w) => (Some r, committed w, trace w)
  | (Ret r, w) => (Some r, committed w, trace w)
  | (Exc, w) => (None, committed w, trace w)
  end.

Definition db_of (x : option response * DB * list event) := snd (fst x).
Definition trace_of (x : option response * DB * list event) := snd x.

(** ** Additive schema migration ([migrate_additive_schema]) *)

Module Reconciler.

(** The live schema: the column names of every existing table, as
    [PRAGMA table_info] lists them, in the spelling they were created
    with. SQLite finds a table under any spelling of its name, so a
    table is filed here under its name in lower case. Rows are not part
    of this model. *)
Abbreviation schema := (gmap string (list string)).

(** SQLite compares identifiers without regard to the case of the
    letters A-Z. *)
Definition fold_char (c : ascii) : ascii :=
  let n := N_of_ascii c in
  if ((65 <=? n) && (n <=? 90))%N then ascii_of_N (n + 32) else c.

Fixpoint fold_case (s : string) : string :=
  match s with
  | EmptyString => EmptyString
  | String c t => String (fold_char c) (fold_case t)
  end.

Definition same_name (a b : string) : bool :=
  String.eqb (fold_case a) (fold_case b).

(** The table with the columns [live] has a column called [col], in
    whatever spelling. *)
Definition names (live : list string) (col : string) : bool :=
  existsb (same_name col) live.

(** The tables [models.py] declares; [db.create_all()] creates the
    missing ones with these columns. *)
Definition declared_tables : list (string * list string) :=
  [ ("queries",
     ["id"; "name"; "email"; "message"; "category"; "status"; "response";
      "admin_response"; "admin_reply_text"; "admin_reply_at";
      "admin_reply_seen"; "student_id"; "created_at"]);
    ("admins",
     ["id"; "username"; "password_hash"; "name"; "full_name"; "email";
      "is_active"; "is_blocked"; "created_at"]);
    ("students",
     ["id"; "student_id"; "name"; "email"; "password"; "is_blocked"]);
    ("blocked_emails", ["id"; "email"; "is_active"; "created_at"]);
    ("faqs",
     ["id"; "question"; "answer"; "frequency"; "category"; "from_query_id";
      "is_active"; "created_at"]) ]%string.

Definition declared_schema : schema := list_to_map declared_tables.

(** Statements sent to the storage engine. *)
Inductive stmt :=
| TableInfo (tbl : string)
| AddColumn (tbl col : string)
| BackfillCategory
| SessionCommit (tbl : string)
| CreateAll.

(** Which statements the engine refuses for reasons of its own (I/O
    error, locked file, ...). *)
Definition engine_faults := stmt -> bool.

Definition healthy : engine_faults := fun _ => false.

(** A block of statements: it may raise, and what it changed before
    raising stays (SQLite applies each [ALTER TABLE] at once). *)
Definition B (A : Type) : Type := schema -> option A * schema.

Definition bret {A} (a : A) : B A := fun s => (Some a, s).

Definition bbind {A C} (m : B A) (k : A -> B C) : B C :=
  fun s =>
    match m s with
    | (Some a, s') => k a s'
    | (None, s') => (None, s')
    end.

Declare Scope block_scope.
Delimit Scope block_scope with block.
Notation "x ← y ; z" := (bbind y (fun x => z))
  (at level 20, y at level 100, z at level 200, only parsing) : block_scope.
Notation "x ;; z" := (bbind x (fun _ => z))
  (at level 100, z at level 200, only parsing, right associativity) : block_scope.

Section Engine.

Variable ef : engine_faults.

Local Open Scope block_scope.

(** [[r[1] for r in conn.execute("PRAGMA table_info(tbl)")]]: no rows
    for a table that does not exist. *)
Definition table_info (tbl : string) : B (list string) :=
  fun s =>
    if ef (TableInfo tbl) then (None, s)
    else (Some (default [] (s !! tbl)), s).

(** [ALTER TABLE tbl ADD COLUMN col ...]: refused for a missing table
    and for a column name already in use, in whatever spelling
    ("duplicate column name"). *)
Definition add_column (tbl col : string) : B unit :=
  fun s =>
    if ef (AddColumn tbl col) then (None, s)
    else match s !! tbl with
         | None => (None, s)
         | Some live =>
             if names live col then (None, s)
             else (Some tt, <[tbl := (live ++ [col])%list]> s)
         end.

(** [UPDATE queries SET category = 'other' WHERE category IS NULL] *)
Definition backfill_category : B unit :=
  fun s =>
    if ef BackfillCategory then (None, s)
    else match s !! "queries"%string with
         | None => (None, s)
         | Some live =>
             if names live "category" then (Some tt, s) else (None, s)
         end.

Definition session_commit (tbl : string) : B unit :=
  fun s => if ef (SessionCommit tbl) then (None, s) else (Some tt, s).

(** [db.create_all()]: existing tables are left as they are. *)
Definition create_all : B unit :=
  fun s => if ef CreateAll then (None, s) else (Some tt, s ∪ declared_schema).

(** [if col not in cols: ALTER TABLE tbl ADD COLUMN col]; Python's
    [in] compares the spelling. *)
Definition ensure_column (cols : list string) (tbl col : string) : B unit :=
  if bool_decide (col ∈ cols) then bret tt else add_column tbl col.

Definition queries_block : B unit :=
  cols ← table_info "queries" ;
  ensure_column cols "queries" "admin_reply_text" ;;
  ensure_column cols "queries" "admin_reply_at" ;;
  ensure_column cols "queries" "admin_reply_seen" ;;
  (if bool_decide ("category"%string ∈ cols) then bret tt
   else add_column "queries" "category" ;; backfill_category) ;;
  session_commit "queries".

Definition students_block : B unit :=
  cols ← table_info "students" ;
  if bool_decide ("is_blocked"%string ∈ cols) then bret tt
  else add_column "students" "is_blocked" ;; session_commit "students".

Definition admins_block : B unit :=
  cols ← table_info "admins" ;
  ensure_column cols "admins" "name" ;;
  ensure_column cols "admins" "email" ;;
  ensure_column cols "admins" "is_active" ;;
  ensure_column cols "admins" "is_blocked" ;;
  ensure_column cols "admins" "created_at" ;;
  session_commit "admins".

(** [try: block  except Exception: app.logger.exception(msg)] *)
Definition try_block (b : B unit) (msg : string)
    (st : schema * list string) : schema * list string :=
  match b st.1 with
  | (Some _, s') => (s', st.2)
  | (None, s') => (s', (st.2 ++ [msg])%list)
  end.

(** The live schema and the error log after one run. *)
Definition migrate_additive_schema (s : schema) : schema * list string :=
  try_block create_all "Error ensuring new tables exist"
    (try_block admins_block "Migration error for admins columns"
       (try_block students_block "Migration error for students.is_blocked"
          (try_block queries_block "Migration error for queries columns"
             (s, [])))).

End Engine.

(** The columns this routine adds, per table, in the order it adds them. *)
Definition migrated_columns (tbl : string) : list string :=
  if String.eqb tbl "queries" then
    ["admin_reply_text"; "admin_reply_at"; "admin_reply_seen"; "category"]%string
  else if String.eqb tbl "students" then ["is_blocked"]%string
  else if String.eqb tbl "admins" then
    ["name"; "email"; "is_active"; "is_blocked"; "created_at"]%string
  else [].

(** The table lists the column under this spelling. *)
Definition has_column (s : schema) (tbl col : string) : Prop :=
  ∃ live, s !! tbl = Some live ∧ col ∈ live.

(** The addition of [col] to a table with the columns [live] is
    refused: by the engine for reasons of its own, or because the table
    has a column of that name. *)
Definition refused (ef : engine_faults) (tbl : string) (live : list string)
    (col : string) : bool :=
  ef (AddColumn tbl col) || names live col.

(** A table holds, for a column this routine adds, a column of the same
    name in another spelling: the routine misses it and SQLite refuses
    the addition. *)
Definition clashes (s : schema) : Prop :=
  ∃ tbl live c, s !! tbl = Some live ∧ c ∈ migrated_columns tbl
                ∧ (c ∉ live) ∧ names live c = true.

(** Nothing was dropped: every table is still there with at least its
    former columns, in their former order. *)
Definition extends (s s' : schema) : Prop :=
  ∀ tbl live, s !! tbl = Some live →
    ∃ added, s' !! tbl = Some (live ++ added)%list.

(** The [ensure_column] steps of a block as one loop over the column
    names. *)
Fixpoint ensure_columns (ef : engine_faults) (cols : list string)
    (tbl : string) (cs : list string) : B unit :=
  match cs with
  | [] => bret tt
  | c :: cs' =>
      bbind (ensure_column ef cols tbl c)
            (fun _ => ensure_columns ef cols tbl cs')
  end.

(** What that loop does to the column list [live] of the table, and
    whether it ran to its end; [cols] is what [table_info] had read. *)
Fixpoint run_columns (ef : engine_faults) (cols : list string)
    (tbl : string) (cs live : list string) : bool * list string :=
  match cs with
  | [] => (true, live)
  | c :: cs' =>
      if bool_decide (c ∈ cols) then run_columns ef cols tbl cs' live
      else if refused ef tbl live c then (false, live)
      else run_columns ef cols tbl cs' (live ++ [c])
  end.

(** The columns of a table that exists after the block for it ran. *)
Definition table_after (ef : engine_faults) (tbl : string)
    (live : list string) : list string :=
  if ef (TableInfo tbl) then live
  else (run_columns ef live tbl (migrated_columns tbl) live).2.

(** The invariant of that loop: the table holds what [table_info] read
    and the columns added since, none of which has the name of a column
    still to come. *)
Definition loop_inv (cols cs live : list string) : Prop :=
  ∃ added, live = cols ++ added
           ∧ (∀ a x, a ∈ added → x ∈ cs → same_name x a = false).

(** An engine that refuses one column addition and nothing else. *)
Definition fails_on (tbl col : string) : engine_faults :=
  fun st =>
    match st with
    | AddColumn t c => String.eqb t tbl && String.eqb c col
    | _ => false
    end.

(** A schema from before the reply triple, the block flag and the
    categories were introduced. *)
Definition old_schema : schema :=
  list_to_map
    [ ("queries",
       ["id"; "name"; "email"; "message"; "status"; "response";
        "admin_response"; "student_id"; "created_at"]);
      ("students", ["id"; "student_id"; "name"; "email"; "password"]);
      ("admins",
       ["id"; "username"; "password_hash"; "name"; "full_name"; "email";
        "is_active"; "is_blocked"; "created_at"]) ]%string.

(** A schema whose [queries] table was created with a capitalised
    [Category] column. *)
Definition cased_schema : schema :=
  list_to_map
    [ ("queries",
       ["id"; "name"; "email"; "message"; "Category"; "status"; "response";
        "admin_response"; "admin_reply_text"; "admin_reply_at";
        "admin_reply_seen"; "student_id"; "created_at"]);
      ("students", ["id"; "student_id"; "name"; "email"; "password"; "is_blocked"]);
      ("admins",
       ["id"; "username"; "password_hash"; "name"; "full_name"; "email";
        "is_active"; "is_blocked"; "created_at"]) ]%string.

(** The message a block logs when it raises. *)
Definition block_message (tbl : string) : string :=
  if String.eqb tbl "queries" then "Migration error for queries columns"
  else if String.eqb tbl "students" then "Migration error for students.is_blocked"
  else "Migration error for admins columns".

End Reconciler.

(** ** What a run stores, in closed form *)

(** The values [submit_query] works with, read from the form. *)
Definition sub_name (form : submit_form) : option string :=
  Py.or_ (form_name form) (form_guest_name form).
Definition sub_email (form : submit_form) : option string :=
  Py.or_ (form_email form) (form_guest_email form).
Definition sub_category (form : submit_form) : option string :=
  Py.or_ (form_category form) (Some "other").
Definition sub_message (form : submit_form) : option string :=
  Py.or_ (form_message form) (form_guest_query form).

(** The question text under which a submission is counted. *)
Definition question_of (form : submit_form) : string :=
  Py.strip (Py.text (sub_message form)).

Definition stored_category (form : submit_form) : option string :=
  if Py.truthy (sub_category form)
  then Some (Py.strip (Py.text (sub_category form))) else None.

(** The row [submit_query] inserts. *)
Definition submitted_query (now : Z) (form : submit_form) (fk : option Z)
    (qs : list Query) : Query :=
  mkQuery (next_id (map q_id qs))
          (Py.strip (Py.text (sub_name form)))
          (Py.strip (Py.text (sub_email form)))
          (question_of form)
          (stored_category form)
          (Some "Pending")
          None None None None false fk now.

Definition new_faq (now : Z) (t : string) (cat : option string)
    (fs : list FAQ) : FAQ :=
  mkFAQ (next_id (map f_id fs)) t None 1 cat None true now.

(** The FAQ table after one successful auto-update for question [t]. *)
Definition aggregate (now : Z) (t : string) (cat : option string)
    (fs : list FAQ) : list FAQ :=
  match find (fun f => String.eqb (f_question f) t && f_is_active f) fs with
  | Some f =>
      map (fun g => if f_id g =? f_id f
                    then set_frequency (f_frequency g + 1) g else g) fs
  | None => fs ++ [new_faq now t cat fs]
  end.

(** The tables after the FAQ block, started from a clean session;
    a failing block leaves them as they were. *)
Definition after_faq (fl : faults) (now : Z) (form : submit_form) (d : DB) : DB :=
  if fl FaqLookup || fl FaqCommit then d
  else with_faqs (aggregate now (question_of form) (stored_category form) (faqs d)) d.

(** The FAQ rows that carry question text [t]. *)
Definition rows_for (t : string) (fs : list FAQ) : list FAQ :=
  filter (fun f => f_question f = t) fs.

Definition success_flash : event :=
  EvFlash "Your query has been submitted successfully." "success".

(** A submission was accepted when the handler reached its success flash. *)
Definition accepted (x : option response * DB * list event) : Prop :=
  In success_flash (trace_of x).

(** A submission was rejected when all the handler did was flash one
    error; [rejected_with msg] names the message. *)
Definition rejected_with (msg : string) (x : option response * DB * list event)
    : Prop :=
  trace_of x = [EvFlash msg "error"].

Definition rejected (x : option response * DB * list event) : Prop :=
  ∃ msg, rejected_with msg x.

(** The row [update_status] commits first. *)
Definition responded_query (form : status_form) (q0 : Query) : Query :=
  set_responses (Py.or_ (uf_status form) (q_status q0))
                (Py.or_ (uf_response form) (q_response q0))
                (Py.or_ (uf_response form) (q_admin_response q0))
                q0.

(** The row after the in-app notification of a student was stored. *)
Definition notified_query (now : Z) (form : status_form) (q0 : Query) : Query :=
  set_reply
    (Some (reply_text (q_admin_response (responded_query form q0))
                      (uf_response form)))
    (Some now) false (responded_query form q0).

(** The row [update_status] leaves stored: a guest's row after the first
    commit, a student's row with the reply triple unless its commit
    failed and was rolled back. *)
Definition stored_row (fl : faults) (now : Z) (form : status_form)
    (q0 : Query) : Query :=
  match q_student_id q0 with
  | None => responded_query form q0
  | Some _ =>
      if fl ReplyCommit then responded_query form q0
      else notified_query now form q0
  end.

(** Two fault assignments that differ at most in the best-effort steps:
    the FAQ block, the mail, the in-app reply. *)
Definition same_primary_faults (fl fl' : faults) : Prop :=
  ∀ s, s ≠ FaqLookup → s ≠ FaqCommit → s ≠ MailSend → s ≠ ReplyCommit →
       fl' s = fl s.

Definition is_mail (e : event) : bool :=
  match e with
  | EvMail _ _ => true
  | _ => false
  end.


(** ** Administration handlers *)

Definition set_blocked (b : bool) (s : Student) : Student :=
  mkStudent (s_id s) (s_student_id s) (s_name s) (s_email s) (s_password s) b.

Definition set_entry_active (a : bool) (b : BlockedEmail) : BlockedEmail :=
  mkBlockedEmail (b_id b) (b_email b) a (b_created_at b).


Definition with_students (ss : list Student) (d : DB) : DB :=
  mkDB (queries d) ss (blocked_emails d) (faqs d).

Definition with_blocked_emails (bs : list BlockedEmail) (d : DB) : DB :=
  mkDB (queries d) (students d) bs (faqs d).

Definition update_student (k : Z) (g : Student -> Student) (d : DB) : DB :=
  with_students (map (fun s => if s_id s =? k then g s else s) (students d)) d.

Definition update_blocked_email (k : Z) (g : BlockedEmail -> BlockedEmail)
    (d : DB) : DB :=
  with_blocked_emails
    (map (fun b => if b_id b =? k then g b else b) (blocked_emails d)) d.

(** The commits of the administration and account handlers, and the
    lookup inside the [try] of [student_login]. *)
Inductive op_site :=
| BlockStudentCommit
| BlockGuestCommit
| AddFaqCommit
| EditFaqCommit
| PromoteCommit
| AdminReplyCommit
| DefaultStudentLookup
| DefaultStudentCommit
| RegisterCommit.

Definition op_faults := op_site -> bool.

Definition no_op_faults : op_faults := fun _ => false.

Inductive http_method := GET | POST.

(** Status totals of [admin_dashboard_data]. *)
Record status_counts := mkCounts {
  c_total : Z;
  c_pending : Z;
  c_in_progress : Z;
  c_resolved : Z
}.

Section Administration.

(** Which commits fail during this request. *)
Variable xf : op_faults.

Local Open Scope view_scope.

Definition op_commit (s : op_site) : M unit :=
  fun w =>
    if xf s
    then (Exc, mkWorld (committed w) (pending w) (trace w ++ [EvCommit false]))
    else (Val tt, mkWorld (pending w) (pending w) (trace w ++ [EvCommit true])).

(** The decorator [admin_required]. *)
Definition admin_required (sess : session) (view : M response) : M response :=
  if negb (sess_admin_logged_in sess) then
    flash "Please log in as admin" "error" ;;
    return_ (Redirect AdminLogin)
  else view.

(** *** [toggle_block_student] *)

Definition toggle_block_student (sess : session) (sid : Z) : M response :=
  admin_required sess
    (d ← session_db ;
     match get_student sid d with
     | None => return_ NotFound404
     | Some _ =>
         modify (update_student sid
                   (fun s => set_blocked (negb (s_is_blocked s)) s)) ;;
         op_commit BlockStudentCommit ;;
         flash "Student block status updated" "success" ;;
         return_ (Redirect AdminDashboard)
     end).

(** *** [toggle_block_guest] *)

(** The key under which an address is blocked:
    [(request.form.get('email') or '').strip().lower()]. *)
Definition blocked_key (email : option string) : string :=
  Py.lower (Py.strip (Py.text (Py.or_ email (Some "")))).

Definition toggle_block_guest (now : Z) (sess : session)
    (form_email_field : option string) : M response :=
  admin_required sess
    (let email := blocked_key form_email_field in
     if negb (Py.truthy (Some email)) then
       flash "Email required" "error" ;;
       return_ (Redirect AdminDashboard)
     else
       d ← session_db ;
       match find (fun b => String.eqb (b_email b) email) (blocked_emails d) with
       | None =>
           modify (fun d =>
             with_blocked_emails
               (blocked_emails d ++
                  [mkBlockedEmail (next_id (map b_id (blocked_emails d)))
                                  email true now]) d)
       | Some b =>
           modify (update_blocked_email (b_id b)
                     (fun b => set_entry_active (negb (b_is_active b)) b))
       end ;;
       op_commit BlockGuestCommit ;;
       flash "Guest email block status updated" "success" ;;
       return_ (Redirect AdminDashboard)).

(** *** [admin_faq], [edit_faq], [mark_query_as_faq] *)

(** [(x or '').strip()] *)
Definition stripped (x : option string) : string :=
  Py.strip (Py.text (Py.or_ x (Some ""))).

(** The page lists the rows by falling frequency; the listing is not
    part of the model. *)
Definition admin_faq (now : Z) (sess : session) (method : http_method)
    (question answer : option string) : M response :=
  admin_required sess
    (match method with
     | POST =>
         let q_text := stripped question in
         let a_text := stripped answer in
         if negb (Py.truthy (Some q_text)) then
           flash "Question is required" "error"
         else
           modify (fun d =>
             with_faqs (faqs d ++
               [mkFAQ (next_id (map f_id (faqs d))) q_text
                      (Py.or_ (Some a_text) None) 1 None None true now]) d) ;;
           op_commit AddFaqCommit ;;
           flash "FAQ added" "success"
     | GET => ret tt
     end ;;
     return_ (Render "admin_faq.html")).


(** The row [mark_query_as_faq] builds from a query:
    question [(q.message or '').strip()[:1000]], answer
    [q.admin_response or q.response or None]. *)
Definition promoted_faq (now : Z) (q : Query) (fs : list FAQ) : FAQ :=
  mkFAQ (next_id (map f_id fs))
        (substring 0 1000 (stripped (Some (q_message q))))
        (Py.or_ (q_admin_response q) (Py.or_ (q_response q) None))
        1 None (Some (q_id q)) true now.

Definition mark_query_as_faq (now : Z) (sess : session) (qid : Z) : M response :=
  admin_required sess
    (d ← session_db ;
     match get_query qid d with
     | None => return_ NotFound404
     | Some q =>
         modify (fun d => with_faqs (faqs d ++ [promoted_faq now q (faqs d)]) d) ;;
         op_commit PromoteCommit ;;
         flash "Query added to FAQs" "success" ;;
         return_ (Redirect AdminDashboard)
     end).

(** *** [admin_reply] and [send_guest_response_email] *)

(** For a guest query with an address the function goes on to build the
    mail, and the subject line reads [query.subject]; the class [Query]
    of [models.py] has no such attribute, so Python raises
    [AttributeError] there, outside the [try] around [mail.send]. *)
Definition send_guest_response_email (query_id : Z)
    (response_text : option string) : M unit :=
  d ← session_db ;
  match get_query query_id d with
  | Some query =>
      match q_student_id query with
      | None => if Py.truthy (Some (q_email query)) then raise else ret tt
      | Some _ => ret tt
      end
  | None => ret tt
  end.

Definition admin_reply (sess : session) (query_id : Z)
    (response_text : option string) : M response :=
  admin_required sess
    (d ← session_db ;
     match get_query query_id d with
     | Some query =>
         modify (update_query (q_id query)
                   (fun q => set_responses (Some "responded") response_text
                                           (q_admin_response q) q)) ;;
         op_commit AdminReplyCommit ;;
         match q_student_id query with
         | None => send_guest_response_email query_id response_text
         | Some _ => ret tt
         end
     | None => ret tt
     end ;;
     flash "Response sent successfully!" "message" ;;
     return_ (Redirect AdminDashboard)).

End Administration.

(** *** [admin_dashboard_data]: the status totals *)

(** [(q.status or '').lower()] *)
Definition status_lower (q : Query) : string :=
  Py.lower (Py.text (Py.or_ (q_status q) (Some ""))).

(** [sum(1 for q in queries if p(q))] *)
Definition count_if (p : Query -> bool) (qs : list Query) : Z :=
  fold_right (fun q acc => if p q then 1 + acc else acc) 0 qs.

Definition is_pending (q : Query) : bool := String.eqb (status_lower q) "pending".

Definition is_in_progress (q : Query) : bool :=
  String.eqb (status_lower q) "in-progress"
  || String.eqb (status_lower q) "in_progress"
  || String.eqb (status_lower q) "in progress".

Definition is_resolved (q : Query) : bool := String.eqb (status_lower q) "resolved".

Definition dashboard_counts (d : DB) : status_counts :=
  mkCounts (Z.of_nat (length (queries d)))
           (count_if is_pending (queries d))
           (count_if is_in_progress (queries d))
           (count_if is_resolved (queries d)).

(** The blocked addresses are well kept: one entry per address, every
    address in the form the lookups use. *)
Definition blocked_table_ok (bs : list BlockedEmail) : Prop :=
  NoDup (map b_email bs)
  ∧ ∀ b, In b bs → blocked_key (Some (b_email b)) = b_email b.

(** The entry [toggle_block_guest] creates for an address. *)
Definition new_block_entry (now : Z) (key : string) (bs : list BlockedEmail)
    : BlockedEmail :=
  mkBlockedEmail (next_id (map b_id bs)) key true now.

Definition toggle_entry (b : BlockedEmail) : BlockedEmail :=
  set_entry_active (negb (b_is_active b)) b.

(** *** Comparing tables before and after a request *)

(** One old FAQ row next to what became of it: everything but the
    frequency is as before, and the frequency went up by one at most. *)
Definition faq_kept (f f' : FAQ) : Prop :=
  f' = set_frequency (f_frequency f') f
  ∧ f_frequency f <= f_frequency f' <= f_frequency f + 1.

(** What [admin_reply] writes into the row. *)
Definition quick_reply (resp : option string) (q : Query) : Query :=
  set_responses (Some "responded") resp (q_admin_response q) q.


(** The unique columns of the table [students]: the key, the handle and
    the address. *)
Definition accounts_unique (ss : list Student) : Prop :=
  NoDup (map s_id ss) ∧ NoDup (map s_student_id ss) ∧ NoDup (map s_email ss).

(** ** Accounts: [register] and [student_login] *)

Record register_form := mkRegisterForm {
  rf_name : option string;
  rf_email : option string;
  rf_password : option string
}.

Record login_form := mkLoginForm {
  lf_email : option string;
  lf_password : option string
}.

(** What a login request leaves behind: the cookie session, the response
    and its HTTP status. *)
Record login_result := mkLoginResult {
  lr_session : session;
  lr_response : response;
  lr_status : Z
}.

(** [s.split()[0]] after the leading blanks: the first run of non-blank
    characters. *)
Fixpoint until_space (s : string) : string :=
  match s with
  | EmptyString => EmptyString
  | String c t => if Py.isspace c then EmptyString else String c (until_space t)
  end.

(** [s.split()[0]]; [None] stands for the [IndexError] of a text that
    holds blanks only. *)
Definition first_word (s : string) : option string :=
  match Py.lstrip s with
  | EmptyString => None
  | t => Some (until_space t)
  end.

(** [s.split('@')[0]] *)
Fixpoint before_at (s : string) : string :=
  match s with
  | EmptyString => EmptyString
  | String c t => if Ascii.eqb c "@" then EmptyString else String c (before_at t)
  end.

Definition is_handle_char (c : ascii) : bool :=
  let n := N_of_ascii c in
  (((97 <=? n) && (n <=? 122)) || ((48 <=? n) && (n <=? 57)))%N.

(** [re.sub(r'[^a-z0-9]', '', s)] *)
Fixpoint keep_handle_chars (s : string) : string :=
  match s with
  | EmptyString => EmptyString
  | String c t =>
      if is_handle_char c then String c (keep_handle_chars t)
      else keep_handle_chars t
  end.

(** The decimal numeral behind [f"{suffix}"]. *)
Definition decimal (n : nat) : string := NilEmpty.string_of_uint (Nat.to_uint n).

(** [Student.query.filter_by(student_id=candidate).count() > 0] *)
Definition handle_taken (candidate : string) (taken : list string) : bool :=
  existsb (String.eqb candidate) taken.

(** The [while] loop that looks for a free handle, entered with the
    current [suffix] and [candidate]; [fuel] bounds the number of tests,
    and [None] says that the loop is still running when it is used up. *)
Fixpoint handle_search (fuel : nat) (taken : list string) (base : string)
    (suffix : nat) (candidate : string) : option string :=
  match fuel with
  | O => None
  | S fuel' =>
      if handle_taken candidate taken
      then handle_search fuel' taken base (S suffix) (base ++ decimal (S suffix))
      else Some candidate
  end.

(** [base], from the first word of the name or else from the local part
    of the address. *)
Definition handle_base (word email : string) : string :=
  let base := keep_handle_chars (Py.lower word) in
  if Py.truthy (Some base) then base
  else keep_handle_chars (Py.lower (before_at email)).

(** [Student.query.filter_by(email=x).first() or
     Student.query.filter_by(student_id=x).first()] *)
Definition find_student_by (x : string) (d : DB) : option Student :=
  match find (fun s => String.eqb (s_email s) x) (students d) with
  | Some s => Some s
  | None => find (fun s => String.eqb (s_student_id s) x) (students d)
  end.

(** The account [student_login] creates for the handle ['student']. *)
Definition default_student (default_hash : string) (ss : list Student) : Student :=
  mkStudent (next_id (map s_id ss)) "student" "Default Student" "student@local"
            default_hash false.

Definition registered_student (handle name email hashed : string)
    (ss : list Student) : Student :=
  mkStudent (next_id (map s_id ss)) handle name email hashed false.

Section Accounts.

Variable xf : op_faults.

(** [werkzeug.security.check_password_hash] on a stored hash and the
    form's password; [None] stands for an exception. *)
Variable check_password_hash : string -> option string -> option bool.

Local Open Scope view_scope.

(** A storage read at site [s]. *)
Definition op_call (s : op_site) : M unit :=
  fun w => if xf s then (Exc, w) else (Val tt, w).

(** *** [register]; [hashed] is what [generate_password_hash] returns
    for the password of this request. *)
Definition register (hashed : string) (method : http_method)
    (form : register_form) : M response :=
  match method with
  | GET => ret (Render "register.html")
  | POST =>
      let name := stripped (rf_name form) in
      let email := Py.lower (stripped (rf_email form)) in
      let password := Py.text (Py.or_ (rf_password form) (Some "")) in
      if negb (Py.truthy (Some name)) || negb (Py.truthy (Some email))
         || negb (Py.truthy (Some password)) then
        flash "All fields are required" "error" ;;
        ret (Render "register.html")
      else
        d ← session_db ;
        match find (fun s => String.eqb (s_email s) email) (students d) with
        | Some _ =>
            flash "Email already registered" "error" ;;
            ret (Render "register.html")
        | None =>
            match first_word name with
            | None => raise
            | Some word =>
                let base := handle_base word email in
                match handle_search (length (students d) + 2)
                        (map s_student_id (students d)) base 0
                        (Py.text (Py.or_ (Some base) (Some "student"))) with
                | None => raise
                | Some candidate =>
                    modify (fun d =>
                      with_students
                        (students d ++
                           [registered_student candidate name email hashed
                                               (students d)]) d) ;;
                    op_commit xf RegisterCommit ;;
                    flash "Registration successful. Please log in." "success" ;;
                    ret (Redirect StudentLogin)
                end
            end
        end
  end.

(** *** [student_login]; [default_hash] is what [generate_password_hash]
    returns for ['student123'] in this request. *)

(** [request.form.get('email', '').strip().lower()] *)
Definition identifier_of (x : option string) : string :=
  Py.lower (Py.strip (Py.text x)).

(** The [try] block that makes sure the default account exists. *)
Definition ensure_default_student (default_hash : string) : M (option Student) :=
  try_except
    (op_call DefaultStudentLookup ;;
     d ← session_db ;
     match find (fun s => String.eqb (s_student_id s) "student") (students d) with
     | Some s => ret (Some s)
     | None =>
         modify (fun d =>
           with_students (students d ++ [default_student default_hash (students d)])
                         d) ;;
         op_commit xf DefaultStudentCommit ;;
         ret (Some (default_student default_hash (students d)))
     end)
    (emit (EvLogError "Error ensuring default student exists") ;; ret None).

Definition invalid_login (sess : session) : M login_result :=
  flash "Invalid email or student ID or password" "error" ;;
  ret (mkLoginResult sess (Render "student_login.html") 401).

Definition student_login (default_hash : string) (sess : session)
    (method : http_method) (form : login_form) : M login_result :=
  match method with
  | GET => ret (mkLoginResult sess (Render "student_login.html") 200)
  | POST =>
      let identifier := identifier_of (lf_email form) in
      d ← session_db ;
      student ← match find_student_by identifier d with
                | Some s => ret (Some s)
                | None =>
                    if String.eqb identifier "student"
                    then ensure_default_student default_hash
                    else ret None
                end ;
      match student with
      | None => invalid_login sess
      | Some s =>
          match check_password_hash (s_password s) (lf_password form) with
          | None => raise
          | Some false => invalid_login sess
          | Some true =>
              if s_is_blocked s then
                flash "Your account has been blocked" "error" ;;
                ret (mkLoginResult sess (Render "student_login.html") 403)
              else
                flash "Logged in successfully" "success" ;;
                ret (mkLoginResult
                       (mkSession true (Some (SInt (s_id s)))
                                  (sess_admin_logged_in sess))
                       (Redirect StudentDashboard) 302)
          end
      end
  end.

End Accounts.

(** One login request against the stored tables; the handler leaves
    through its last statement only, [None] is an uncaught exception. *)
Definition run_login (m : M login_result) (d : DB)
    : option login_result * DB * list event :=
  match m (mkWorld d d []) with
  | (Val r, w) => (Some r, committed w, trace w)
  | (_, w) => (None, committed w, trace w)
  end.

(** The answer of [student_login] once it holds the row [s], with the
    tables [d] and the events [tr] so far. *)
Definition login_answer (check_password_hash : string -> option string -> option bool)
    (sess : session) (form : login_form) (s : Student) (d : DB)
    (tr : list event) : option login_result * DB * list event :=
  match check_password_hash (s_password s) (lf_password form) with
  | None => (None, d, tr)
  | Some false =>
      (Some (mkLoginResult sess (Render "student_login.html") 401), d,
       tr ++ [EvFlash "Invalid email or student ID or password" "error"])
  | Some true =>
      if s_is_blocked s then
        (Some (mkLoginResult sess (Render "student_login.html") 403), d,
         tr ++ [EvFlash "Your account has been blocked" "error"])
      else
        (Some (mkLoginResult
                 (mkSession true (Some (SInt (s_id s))) (sess_admin_logged_in sess))
                 (Redirect StudentDashboard) 302), d,
         tr ++ [EvFlash "Logged in successfully" "success"])
  end.

(** The session a browser holds after a login request. *)
Definition session_after (sess : session)
    (x : option login_result * DB * list event) : session :=
  match fst (fst x) with
  | Some r => lr_session r
  | None => sess
  end.

(** ** Sample data *)

Module Sample.

(** No session text parses as a number. *)
Definition no_int : string -> option Z := fun _ => None.

Definition guest_row : Query :=
  mkQuery 1 "Alice" "alice@x.com" "What time does the library open?"
          (Some "facilities") (Some "Pending")
          (Some "Opens at nine.") (Some "Opens at nine.")
          None None false None 10.

Definition student_row : Query :=
  mkQuery 2 "Bob" "bob@x.com" "Where is the exam hall?"
          (Some "exams") (Some "Pending")
          None None None None false (Some 7) 20.

(** A student row with an answer the student has not seen yet. *)
Definition replied_row : Query :=
  mkQuery 3 "Bob" "bob@x.com" "Is the canteen open?"
          (Some "other") (Some "Resolved")
          (Some "Yes, until five.") (Some "Yes, until five.")
          (Some "Yes, until five.") (Some 30) false (Some 7) 25.

Definition bob : Student := mkStudent 7 "bob" "Bob" "bob@x.com" "hash" false.
Definition eve : Student := mkStudent 8 "eve" "Eve" "eve@x.com" "hash" true.

Definition db : DB :=
  mkDB [guest_row; student_row; replied_row]
       [bob; eve]
       [mkBlockedEmail 1 "x@example.com" true 0]
       [].

Definition anonymous : session := mkSession false None false.
Definition as_student (k : Z) : session := mkSession true (Some (SInt k)) false.
Definition as_admin : session := mkSession false None true.

Definition cfg : mail_config :=
  mkMailConfig (Some "portal") (Some "secret") "noreply@local".

(** The commit of the FAQ block fails, everything else works. *)
Definition faq_commit_fails : faults :=
  fun s => match s with FaqCommit => true | _ => false end.

(** The lookup of blocked addresses raises, everything else works. *)
Definition blocked_lookup_fails : faults :=
  fun s => match s with BlockedLookup => true | _ => false end.

(** The lookup of the student row in the gate raises, everything else
    works. *)
Definition student_get_fails : faults :=
  fun s => match s with StudentGet => true | _ => false end.

Definition guest_form (email message : string) : submit_form :=
  mkSubmitForm (Some "Alice") None (Some email) None (Some "facilities")
               (Some message) None.

End Sample.

(** A second sample: the same tables with one FAQ row. *)
Module Desk.

Definition fee_faq : FAQ :=
  mkFAQ 1 "When is the fee due?" (Some "On the first.") 3 (Some "fees") None
        true 5.

Definition tables : DB := with_faqs [fee_faq] Sample.db.

End Desk.

(** * Properties *)

(** ** Running the handlers *)

(** Membership of an event in an evaluated trace. *)
Ltac in_trace := repeat first [left; reflexivity | right].

Lemma resolve_student_fk_pure fl py_int s sid w :
  ∃ fk, resolve_student_fk fl py_int s sid w = (Val fk, w).
Proof.
  unfold resolve_student_fk.
  destruct sid as [[n|t]|]; [eexists; reflexivity| |eexists; reflexivity].
  destruct (py_int t); [eexists; reflexivity|].
  unfold try_except, bind, db_call, session_db.
  destruct (fl s); [eexists; reflexivity|].
  destruct (find _ _); eexists; reflexivity.
Qed.

(** The gate either lets the request through untouched or leaves with
    one error flash. *)
Lemma reject_blocked_cases fl fk email w :
  reject_blocked fl fk email w = (Val tt, w)
  ∨ ∃ e msg, reject_blocked fl fk email w
             = (Ret (Redirect e),
                mkWorld (committed w) (pending w) (trace w ++ [EvFlash msg "error"])).
Proof.
  unfold reject_blocked, try_except, bind, db_call, session_db, flash, emit, return_, ret.
  destruct (if fk_truthy fk then fk else None) as [k|].
  - destruct (fl StudentGet); [left; reflexivity|].
    destruct (get_student _ _) as [s|]; [|left; reflexivity].
    destruct (s_is_blocked s); [right; eexists _, _; reflexivity | left; reflexivity].
  - destruct (Py.truthy email); [|left; reflexivity].
    destruct (fl BlockedLookup); [left; reflexivity|].
    destruct (find _ _); [right; eexists _, _; reflexivity | left; reflexivity].
Qed.

Lemma faq_auto_update_run fl now form d tr :
  ∃ evs,
    faq_auto_update fl now (sub_message form) (sub_category form) (mkWorld d d tr)
    = (Val tt, mkWorld (after_faq fl now form d) (after_faq fl now form d) (tr ++ evs))
    ∧ ¬ In success_flash evs.
Proof.
  unfold faq_auto_update, after_faq, aggregate, try_except, bind, db_call,
    session_db, modify, commit, rollback, emit, ret.
  destruct (fl FaqLookup); simpl.
  { eexists [_; _]. rewrite <- app_assoc. split; [reflexivity|].
    intros [H|[H|[]]]; discriminate H. }
  fold (question_of form). fold (stored_category form).
  destruct (find _ (faqs d)) as [f|]; simpl.
  - destruct (fl FaqCommit); simpl.
    + eexists [_; _; _]. rewrite <- !app_assoc. split; [reflexivity|].
      intros [H|[H|[H|[]]]]; discriminate H.
    + eexists [_]. split; [reflexivity|]. intros [H|[]]; discriminate H.
  - destruct (fl FaqCommit); simpl.
    + eexists [_; _; _]. rewrite <- !app_assoc. split; [reflexivity|].
      intros [H|[H|[H|[]]]]; discriminate H.
    + eexists [_]. split; [reflexivity|]. intros [H|[]]; discriminate H.
Qed.

Lemma not_success_error msg : success_flash ≠ EvFlash msg "error".
Proof. unfold success_flash. intros H. injection H as _ H. discriminate H. Qed.

Lemma bind_val {A C} (m : M A) (k : A -> M C) w a w' :
  m w = (Val a, w') → bind m k w = k a w'.
Proof. unfold bind. intros ->. reflexivity. Qed.

Lemma bind_ret {A C} (m : M A) (k : A -> M C) w r w' :
  m w = (Ret r, w') → bind m k w = (Ret r, w').
Proof. unfold bind. intros ->. reflexivity. Qed.

Lemma bind_exc {A C} (m : M A) (k : A -> M C) w w' :
  m w = (Exc, w') → bind m k w = (Exc, w').
Proof. unfold bind. intros ->. reflexivity. Qed.

Lemma modify_run g w :
  modify g w = (Val tt, mkWorld (committed w) (g (pending w)) (trace w)).
Proof. reflexivity. Qed.

Lemma emit_run e w :
  emit e w = (Val tt, mkWorld (committed w) (pending w) (trace w ++ [e])).
Proof. reflexivity. Qed.

Lemma commit_ok fl s w :
  fl s = false →
  commit fl s w = (Val tt, mkWorld (pending w) (pending w) (trace w ++ [EvCommit true])).
Proof. unfold commit. intros ->. reflexivity. Qed.

Lemma commit_fail fl s w :
  fl s = true →
  commit fl s w = (Exc, mkWorld (committed w) (pending w) (trace w ++ [EvCommit false])).
Proof. unfold commit. intros ->. reflexivity. Qed.

Lemma submit_query_accepted fl py_int now sess referrer form d :
  accepted (run (submit_query fl py_int now sess referrer form) d) →
  ∃ fk evs,
    run (submit_query fl py_int now sess referrer form) d
    = (Some (Redirect (if session_value_truthy (sess_student_id sess)
                       then StudentDashboard else Home)),
       after_faq fl now form
         (with_queries (queries d ++ [submitted_query now form fk (queries d)]) d),
       EvCommit true :: evs)
    ∧ resolve_student_fk fl py_int StudentResolve (sess_student_id sess)
        (mkWorld d d []) = (Val fk, mkWorld d d [])
    ∧ reject_blocked fl fk (sub_email form) (mkWorld d d [])
      = (Val tt, mkWorld d d [])
    ∧ fl QueryCommit = false
    ∧ Py.truthy (sub_name form) = true
    ∧ Py.truthy (sub_email form) = true
    ∧ Py.truthy (sub_message form) = true.
Proof.
  unfold accepted, run, submit_query.
  fold (sub_name form) (sub_email form) (sub_category form) (sub_message form).
  destruct (Py.truthy (sub_name form)); cbn [negb orb];
    [|intros [H|[]]; symmetry in H; destruct (not_success_error _ H)].
  destruct (Py.truthy (sub_email form)); cbn [negb orb];
    [|intros [H|[]]; symmetry in H; destruct (not_success_error _ H)].
  destruct (Py.truthy (sub_message form)); cbn [negb orb];
    [|intros [H|[]]; symmetry in H; destruct (not_success_error _ H)].
  destruct (resolve_student_fk_pure fl py_int StudentResolve
              (sess_student_id sess) (mkWorld d d [])) as [fk Hfk].
  rewrite (bind_val _ _ _ _ _ Hfk).
  destruct (reject_blocked_cases fl fk (sub_email form) (mkWorld d d []))
    as [Hrb|(e & msg & Hrb)].
  2:{ rewrite (bind_ret _ _ _ _ _ Hrb). cbn.
      intros [H|[]]; symmetry in H; destruct (not_success_error _ H). }
  rewrite (bind_val _ _ _ _ _ Hrb).
  rewrite (bind_val _ _ _ _ _ (modify_run _ _)). cbn [pending committed trace].
  fold (question_of form) (stored_category form).
  fold (submitted_query now form fk (queries d)).
  fold (with_queries (queries d ++ [submitted_query now form fk (queries d)]) d).
  destruct (fl QueryCommit) eqn:Hc.
  { rewrite (bind_exc _ _ _ _ (commit_fail _ _ _ Hc)). cbn.
    intros [H|[]]; discriminate H. }
  rewrite (bind_val _ _ _ _ _ (commit_ok _ _ _ Hc)). cbn [pending committed trace].
  destruct (faq_auto_update_run fl now form
              (with_queries (queries d ++ [submitted_query now form fk (queries d)]) d)
              ([] ++ [EvCommit true])) as (evs & Hrun & Hevs).
  rewrite (bind_val _ _ _ _ _ Hrun). unfold flash.
  rewrite (bind_val _ _ _ _ _ (emit_run _ _)). cbn [pending committed trace].
  intros _. exists fk.
  destruct (session_value_truthy (sess_student_id sess)); cbn;
    eexists; repeat split; try reflexivity; assumption.
Qed.

(** ** Blocked senders *)

Lemma reject_blocked_email fl email d tr :
  Py.truthy email = true →
  fl BlockedLookup = false →
  (∃ b, In b (blocked_emails d) ∧ b_is_active b = true
        ∧ b_email b = Py.lower (Py.strip (Py.text email))) →
  reject_blocked fl None email (mkWorld d d tr)
  = (Ret (Redirect Home),
     mkWorld d d (tr ++ [EvFlash "This email is blocked from submitting queries" "error"])).
Proof.
  intros He Hf (b & Hin & Hact & Hb).
  unfold reject_blocked. cbn [fk_truthy]. rewrite He.
  unfold try_except, bind, db_call, session_db. rewrite Hf. cbn [pending].
  destruct (find _ (blocked_emails d)) eqn:Hfind; [reflexivity|].
  pose proof (find_none _ _ Hfind b Hin) as Hn. cbn in Hn.
  rewrite Hb, String.eqb_refl, Hact in Hn. discriminate Hn.
Qed.

Lemma reject_blocked_student fl k s email d tr :
  k ≠ 0 →
  fl StudentGet = false →
  get_student k d = Some s →
  s_is_blocked s = true →
  reject_blocked fl (Some k) email (mkWorld d d tr)
  = (Ret (Redirect StudentDashboard),
     mkWorld d d (tr ++ [EvFlash "Your account has been blocked" "error"])).
Proof.
  intros Hk Hf Hs Hb.
  unfold reject_blocked. cbn [fk_truthy].
  destruct (Z.eqb_spec k 0) as [|_]; [contradiction|]. cbn [negb].
  unfold try_except, bind, db_call, session_db. rewrite Hf. cbn [pending].
  rewrite Hs, Hb. reflexivity.
Qed.

(** C2. While the lookups of the gate answer, blocked senders are
    rejected. A submission without student key in the session, whose
    address, trimmed and lower-cased, is the address of an active
    [BlockedEmail] entry, is rejected and stores nothing, provided the
    lookup of blocked addresses does not raise; so is a submission
    under a session that holds the numeric key, not zero, of a student
    whose [is_blocked] flag is set, provided the lookup of that student
    does not raise. Rejected means: the one thing the handler does is
    flash "All fields are required" or the message of the gate. *)
Theorem submit_query_rejects_blocked fl py_int now sess referrer form d :
  let R := run (submit_query fl py_int now sess referrer form) d in
  (sess_student_id sess = None →
   fl BlockedLookup = false →
   (∃ b, In b (blocked_emails d) ∧ b_is_active b = true
         ∧ b_email b = Py.lower (Py.strip (Py.text (sub_email form)))) →
   (rejected_with "All fields are required" R
    ∨ rejected_with "This email is blocked from submitting queries" R)
   ∧ ¬ accepted R ∧ db_of R = d)
  ∧
  (∀ k s,
     sess_student_id sess = Some (SInt k) →
     k ≠ 0 →
     fl StudentGet = false →
     get_student k d = Some s →
     s_is_blocked s = true →
     (rejected_with "All fields are required" R
      ∨ rejected_with "Your account has been blocked" R)
     ∧ ¬ accepted R ∧ db_of R = d).
Proof.
  cbn zeta. unfold accepted, rejected_with, run, submit_query.
  fold (sub_name form) (sub_email form) (sub_category form) (sub_message form).
  destruct (Py.truthy (sub_name form) && Py.truthy (sub_email form)
            && Py.truthy (sub_message form)) eqn:Hv.
  - apply andb_prop in Hv as [Hv Hm]. apply andb_prop in Hv as [Hn He].
    rewrite Hn, He, Hm. cbn [negb orb].
    split.
    + intros Hs Hf Hb. rewrite Hs.
      rewrite (bind_val _ _ _ _ _ (eq_refl : resolve_student_fk fl py_int _ None _ = _)).
      rewrite (bind_ret _ _ _ _ _ (reject_blocked_email fl _ d [] He Hf Hb)).
      cbn. repeat split; [right; reflexivity|].
      intros [H|[]]. symmetry in H. destruct (not_success_error _ H).
    + intros k s Hs Hk Hf Hget Hb. rewrite Hs.
      rewrite (bind_val _ _ _ _ _
                 (eq_refl : resolve_student_fk fl py_int _ (Some (SInt k)) _ = _)).
      rewrite (bind_ret _ _ _ _ _ (reject_blocked_student fl k s _ d [] Hk Hf Hget Hb)).
      cbn. repeat split; [right; reflexivity|].
      intros [H|[]]. symmetry in H. destruct (not_success_error _ H).
  - assert (negb (Py.truthy (sub_name form)) || negb (Py.truthy (sub_email form))
            || negb (Py.truthy (sub_message form)) = true) as ->.
    { destruct (Py.truthy (sub_name form)), (Py.truthy (sub_email form)),
        (Py.truthy (sub_message form)); try reflexivity; discriminate Hv. }
    cbn. split; intros; (repeat split; [left; reflexivity|]);
      intros [Hin|[]]; symmetry in Hin; destruct (not_success_error _ Hin).
Qed.

(** The sample: a guest writing from a blocked address in another
    spelling, and the blocked student Eve. *)
Lemma submit_query_rejects_blocked_witness :
  let form := Sample.guest_form " X@Example.com " "May I enrol?" in
  let R := run (submit_query no_faults Sample.no_int 50 Sample.anonymous None form)
               Sample.db in
  let form' := Sample.guest_form "eve@x.com" "May I enrol?" in
  let R' := run (submit_query no_faults Sample.no_int 50 (Sample.as_student 8) None
                   form') Sample.db in
  ((∃ b, In b (blocked_emails Sample.db) ∧ b_is_active b = true
         ∧ b_email b = Py.lower (Py.strip (Py.text (sub_email form))))
   ∧ (rejected_with "All fields are required" R
      ∨ rejected_with "This email is blocked from submitting queries" R)
   ∧ ¬ accepted R ∧ db_of R = Sample.db)
  ∧ (get_student 8 Sample.db = Some Sample.eve
     ∧ s_is_blocked Sample.eve = true
     ∧ (rejected_with "All fields are required" R'
        ∨ rejected_with "Your account has been blocked" R')
     ∧ ¬ accepted R' ∧ db_of R' = Sample.db).
Proof.
  cbn zeta. split.
  - assert (∃ b, In b (blocked_emails Sample.db) ∧ b_is_active b = true
                 ∧ b_email b
                   = Py.lower (Py.strip (Py.text
                       (sub_email (Sample.guest_form " X@Example.com " "May I enrol?")))))
      as Hb.
    { exists (mkBlockedEmail 1 "x@example.com" true 0).
      split; [left; reflexivity|]. split; reflexivity. }
    split; [exact Hb|].
    exact (proj1 (submit_query_rejects_blocked no_faults Sample.no_int 50
                    Sample.anonymous None
                    (Sample.guest_form " X@Example.com " "May I enrol?") Sample.db)
                 eq_refl eq_refl Hb).
  - split; [reflexivity|]. split; [reflexivity|].
    apply (proj2 (submit_query_rejects_blocked no_faults Sample.no_int 50
                    (Sample.as_student 8) None
                    (Sample.guest_form "eve@x.com" "May I enrol?") Sample.db)
                 8 Sample.eve); [reflexivity|discriminate|reflexivity..].
Defined.

(** The gate fails open. Each lookup of the gate sits in a [try] whose
    handler is [pass]: when the lookup raises, the submission of a
    blocked sender is accepted and its row is stored. *)
Lemma blocked_sender_accepted_when_lookup_raises :
  let form := Sample.guest_form "x@example.com" "May I enrol?" in
  let R := run (submit_query Sample.blocked_lookup_fails Sample.no_int 50
                  Sample.anonymous None form) Sample.db in
  let form' := Sample.guest_form "eve@x.com" "May I enrol?" in
  let R' := run (submit_query Sample.student_get_fails Sample.no_int 50
                   (Sample.as_student 8) None form') Sample.db in
  ((∃ b, In b (blocked_emails Sample.db) ∧ b_is_active b = true
         ∧ b_email b = "x@example.com")
   ∧ accepted R
   ∧ ∃ q, queries (db_of R) = queries Sample.db ++ [q]
          ∧ q_email q = "x@example.com" ∧ q_student_id q = None)
  ∧ (get_student 8 Sample.db = Some Sample.eve
     ∧ s_is_blocked Sample.eve = true
     ∧ accepted R'
     ∧ ∃ q, queries (db_of R') = queries Sample.db ++ [q]
            ∧ q_student_id q = Some 8).
Proof.
  cbn zeta. split.
  - split; [exists (mkBlockedEmail 1 "x@example.com" true 0);
            split; [left; reflexivity|split; reflexivity]|].
    split; [unfold accepted; vm_compute; in_trace|].
    eexists. split; [vm_compute; reflexivity|]. split; reflexivity.
  - split; [reflexivity|]. split; [reflexivity|].
    split; [unfold accepted; vm_compute; in_trace|].
    eexists. split; [vm_compute; reflexivity|]. reflexivity.
Qed.

(** ** FAQ aggregation *)

Lemma next_id_gt ids x : In x ids → x < next_id ids.
Proof.
  unfold next_id. induction ids as [|y ids IH]; cbn [fold_right In]; [tauto|].
  intros [->|Hin]; [lia|]. specialize (IH Hin). lia.
Qed.

Lemma find_app_none {A} (p : A → bool) l l' :
  (∀ x, In x l → p x = false) → find p (l ++ l') = find p l'.
Proof.
  induction l as [|a l IH]; intros H; cbn [app find]; [reflexivity|].
  rewrite (H a (or_introl eq_refl)). apply IH. intros x Hx. apply H. right. exact Hx.
Qed.

Lemma rows_for_nil_no_match t fs f :
  rows_for t fs = [] → In f fs →
  (String.eqb (f_question f) t && f_is_active f) = false.
Proof.
  intros Hnil Hin.
  destruct (String.eqb_spec (f_question f) t) as [Heq|]; [|reflexivity].
  exfalso. apply (filter_nil_not_elem_of _ _ f Hnil Heq).
  apply list_elem_of_In. exact Hin.
Qed.

Lemma map_bump_fresh (fs : list FAQ) k (g : FAQ → FAQ) :
  (∀ f, In f fs → f_id f < k) →
  map (fun f => if f_id f =? k then g f else f) fs = fs.
Proof.
  intros H. induction fs as [|a fs IH]; cbn [map]; [reflexivity|].
  rewrite IH by (intros f Hf; apply H; right; exact Hf).
  destruct (Z.eqb_spec (f_id a) k) as [Heq|]; [|reflexivity].
  specialize (H a (or_introl eq_refl)). lia.
Qed.

Lemma faq_ids_below_next (fs : list FAQ) f :
  In f fs → f_id f < next_id (map f_id fs).
Proof. intros Hin. apply next_id_gt, in_map, Hin. Qed.

Lemma aggregate_fresh now t cat fs :
  rows_for t fs = [] →
  aggregate now t cat fs = fs ++ [new_faq now t cat fs].
Proof.
  intros Hnil. unfold aggregate.
  rewrite <- (app_nil_r fs) at 1.
  rewrite find_app_none by (intros f Hf; exact (rows_for_nil_no_match t fs f Hnil Hf)).
  reflexivity.
Qed.

Lemma aggregate_again now now' t cat cat' fs :
  rows_for t fs = [] →
  aggregate now' t cat' (fs ++ [new_faq now t cat fs])
  = fs ++ [set_frequency 2 (new_faq now t cat fs)].
Proof.
  intros Hnil. unfold aggregate.
  rewrite find_app_none by (intros f Hf; exact (rows_for_nil_no_match t fs f Hnil Hf)).
  cbn [find new_faq f_question f_is_active f_id]. rewrite String.eqb_refl. cbn [andb].
  rewrite map_app, map_bump_fresh by (intros f Hf; exact (faq_ids_below_next fs f Hf)).
  cbn [map f_id]. rewrite Z.eqb_refl. reflexivity.
Qed.

Lemma aggregate_other now1 now2 t1 t2 cat1 cat2 fs :
  rows_for t2 fs = [] → t2 ≠ t1 →
  aggregate now2 t2 cat2 (fs ++ [new_faq now1 t1 cat1 fs])
  = fs ++ [new_faq now1 t1 cat1 fs;
           new_faq now2 t2 cat2 (fs ++ [new_faq now1 t1 cat1 fs])].
Proof.
  intros Hnil Hne. unfold aggregate.
  rewrite find_app_none by (intros f Hf; exact (rows_for_nil_no_match t2 fs f Hnil Hf)).
  cbn [find new_faq f_question f_is_active].
  destruct (String.eqb_spec t1 t2) as [Heq|_]; [congruence|]. cbn [andb].
  rewrite <- app_assoc. reflexivity.
Qed.

Lemma rows_for_cons t f fs :
  rows_for t (f :: fs)
  = if String.eqb (f_question f) t then f :: rows_for t fs else rows_for t fs.
Proof.
  unfold rows_for. rewrite list.filter_cons.
  destruct (decide (f_question f = t)) as [->|Hne].
  - rewrite String.eqb_refl. reflexivity.
  - destruct (String.eqb_spec (f_question f) t); [contradiction|reflexivity].
Qed.

Lemma rows_for_app t fs fs' :
  rows_for t (fs ++ fs') = rows_for t fs ++ rows_for t fs'.
Proof. apply filter_app. Qed.

Lemma after_faq_ok fl now form d :
  fl FaqLookup = false → fl FaqCommit = false →
  after_faq fl now form d
  = with_faqs (aggregate now (question_of form) (stored_category form) (faqs d)) d.
Proof. unfold after_faq. intros -> ->. reflexivity. Qed.

(** C3. Aggregation by question text, for accepted submissions whose
    FAQ update succeeds: neither its lookup nor its commit raises. The
    question text of a submission is its trimmed message. For a text no
    FAQ row carries yet, the first such submission appends one row with
    frequency 1, no answer and the category stored with the query; a
    second one with the same text turns that row's frequency into 2 and
    adds none; one with another text, also new, appends a second row
    with frequency 1. *)
Theorem faq_aggregation fl1 fl2 py_int now1 now2 sess1 sess2 ref1 ref2
    form1 form2 d :
  let R1 := run (submit_query fl1 py_int now1 sess1 ref1 form1) d in
  let R2 := run (submit_query fl2 py_int now2 sess2 ref2 form2) (db_of R1) in
  let f1 := new_faq now1 (question_of form1) (stored_category form1) (faqs d) in
  accepted R1 → accepted R2 →
  fl1 FaqLookup = false → fl1 FaqCommit = false →
  fl2 FaqLookup = false → fl2 FaqCommit = false →
  rows_for (question_of form1) (faqs d) = [] →
  (faqs (db_of R1) = faqs d ++ [f1]
   ∧ f_frequency f1 = 1 ∧ f_answer f1 = None
   ∧ ∃ q, queries (db_of R1) = queries d ++ [q]
          ∧ f_question f1 = q_message q ∧ f_category f1 = q_category q)
  ∧ (question_of form2 = question_of form1 →
     faqs (db_of R2) = faqs d ++ [set_frequency 2 f1]
     ∧ rows_for (question_of form1) (faqs (db_of R2)) = [set_frequency 2 f1])
  ∧ (question_of form2 ≠ question_of form1 →
     rows_for (question_of form2) (faqs d) = [] →
     ∃ f2, faqs (db_of R2) = faqs d ++ [f1; f2]
           ∧ f_frequency f2 = 1
           ∧ rows_for (question_of form1) (faqs (db_of R2)) = [f1]
           ∧ rows_for (question_of form2) (faqs (db_of R2)) = [f2]).
Proof.
  intros R1 R2 f1 Ha1 Ha2 Hl1 Hc1 Hl2 Hc2 Hfresh.
  destruct (submit_query_accepted _ _ _ _ _ _ _ Ha1) as (fk1 & evs1 & E1 & _).
  destruct (submit_query_accepted _ _ _ _ _ _ _ Ha2) as (fk2 & evs2 & E2 & _).
  fold R1 in E1. fold R2 in E2.
  rewrite after_faq_ok in E1, E2 by assumption.
  assert (faqs (db_of R1) = faqs d ++ [f1]) as HF1.
  { rewrite E1. cbn [db_of fst snd with_faqs with_queries faqs].
    apply aggregate_fresh, Hfresh. }
  assert (faqs (db_of R2)
          = aggregate now2 (question_of form2) (stored_category form2)
              (faqs d ++ [f1])) as HF2.
  { rewrite E2. cbn [db_of fst snd with_faqs with_queries faqs].
    rewrite HF1. reflexivity. }
  split; [|split].
  - split; [exact HF1|]. split; [reflexivity|]. split; [reflexivity|].
    eexists. rewrite E1. cbn [db_of fst snd with_faqs with_queries queries].
    split; [reflexivity|]. split; reflexivity.
  - intros Hsame. rewrite HF2, Hsame.
    unfold f1. rewrite aggregate_again by exact Hfresh.
    split; [reflexivity|].
    rewrite rows_for_app, Hfresh, rows_for_cons. cbn [app].
    cbn [set_frequency new_faq f_question]. rewrite String.eqb_refl. reflexivity.
  - intros Hne Hfresh2. rewrite HF2.
    unfold f1. rewrite aggregate_other by assumption.
    eexists. split; [reflexivity|]. split; [reflexivity|].
    split.
    + rewrite rows_for_app, Hfresh, !rows_for_cons. cbn [app new_faq f_question].
      rewrite String.eqb_refl.
      destruct (String.eqb_spec (question_of form2) (question_of form1));
        [contradiction|reflexivity].
    + rewrite rows_for_app, Hfresh2, !rows_for_cons. cbn [app new_faq f_question].
      rewrite String.eqb_refl.
      destruct (String.eqb_spec (question_of form1) (question_of form2));
        [congruence|reflexivity].
Qed.

(** The sample: the same question twice, the second time with blanks
    around it, and a different question. *)
Lemma faq_aggregation_witness :
  let form1 := Sample.guest_form "alice@x.com" "Is the library open?" in
  let form2 := Sample.guest_form "carol@x.com" " Is the library open? " in
  let form3 := Sample.guest_form "carol@x.com" "Is the gym open?" in
  let R1 := run (submit_query no_faults Sample.no_int 30 Sample.anonymous None form1)
                Sample.db in
  let R2 := run (submit_query no_faults Sample.no_int 40 Sample.anonymous None form2)
                (db_of R1) in
  let R3 := run (submit_query no_faults Sample.no_int 40 Sample.anonymous None form3)
                (db_of R1) in
  let f1 := new_faq 30 "Is the library open?" (Some "facilities") [] in
  accepted R1 ∧ accepted R2 ∧ accepted R3
  ∧ rows_for (question_of form1) (faqs Sample.db) = []
  ∧ faqs (db_of R2) = [set_frequency 2 f1]
  ∧ ∃ f2, faqs (db_of R3) = [f1; f2] ∧ f_frequency f2 = 1.
Proof.
  cbn zeta.
  set (form1 := Sample.guest_form "alice@x.com" "Is the library open?").
  set (form2 := Sample.guest_form "carol@x.com" " Is the library open? ").
  set (form3 := Sample.guest_form "carol@x.com" "Is the gym open?").
  assert (accepted (run (submit_query no_faults Sample.no_int 30 Sample.anonymous
                           None form1) Sample.db)) as H1
      by (unfold accepted; vm_compute; in_trace).
  assert (accepted (run (submit_query no_faults Sample.no_int 40 Sample.anonymous
                           None form2)
                      (db_of (run (submit_query no_faults Sample.no_int 30
                                     Sample.anonymous None form1) Sample.db)))) as H2
      by (unfold accepted; vm_compute; in_trace).
  assert (accepted (run (submit_query no_faults Sample.no_int 40 Sample.anonymous
                           None form3)
                      (db_of (run (submit_query no_faults Sample.no_int 30
                                     Sample.anonymous None form1) Sample.db)))) as H3
      by (unfold accepted; vm_compute; in_trace).
  assert (rows_for (question_of form1) (faqs Sample.db) = []) as Hfresh
      by reflexivity.
  split; [exact H1|]. split; [exact H2|]. split; [exact H3|].
  split; [exact Hfresh|]. split.
  - exact (proj1 (proj1 (proj2 (faq_aggregation no_faults no_faults Sample.no_int
                                  30 40 Sample.anonymous Sample.anonymous None None
                                  form1 form2 Sample.db H1 H2 eq_refl eq_refl
                                  eq_refl eq_refl Hfresh))
                        eq_refl)).
  - destruct (proj2 (proj2 (faq_aggregation no_faults no_faults Sample.no_int
                              30 40 Sample.anonymous Sample.anonymous None None
                              form1 form3 Sample.db H1 H3 eq_refl eq_refl
                              eq_refl eq_refl Hfresh))
                    ltac:(vm_compute; discriminate) eq_refl)
      as (f2 & HF & Hfreq & _).
    exists f2. split; [exact HF|exact Hfreq].
Defined.

(** An accepted submission need not be counted. The FAQ update is a
    best-effort step: when its commit raises, the error is logged, the
    update is rolled back and the submission is accepted all the same.
    Here the same text is submitted twice, both submissions are
    accepted and stored, and the FAQ row for the text ends with
    frequency 1. *)
Lemma failed_faq_update_keeps_frequency :
  let form := Sample.guest_form "alice@x.com" "Is the library open?" in
  let R1 := run (submit_query no_faults Sample.no_int 30 Sample.anonymous None form)
                Sample.db in
  let R2 := run (submit_query Sample.faq_commit_fails Sample.no_int 40
                   Sample.anonymous None form) (db_of R1) in
  accepted R1 ∧ accepted R2
  ∧ faqs Sample.db = []
  ∧ (∃ q1 q2, queries (db_of R2) = queries Sample.db ++ [q1; q2]
              ∧ q_message q1 = "Is the library open?"
              ∧ q_message q2 = "Is the library open?")
  ∧ faqs (db_of R2)
    = [mkFAQ 1 "Is the library open?" None 1 (Some "facilities") None true 30]
  ∧ ¬ (∃ f, In f (faqs (db_of R2)) ∧ f_frequency f = 2).
Proof.
  cbn zeta.
  split; [unfold accepted; vm_compute; in_trace|].
  split; [unfold accepted; vm_compute; in_trace|].
  split; [reflexivity|].
  split; [eexists _, _; split; [vm_compute; reflexivity|split; reflexivity]|].
  split; [vm_compute; reflexivity|].
  intros (f & Hin & Hf). vm_compute in Hin. destruct Hin as [<-|[]].
  discriminate Hf.
Qed.

(** ** Responding to a query *)

Lemma get_query_id k d q : get_query k d = Some q → q_id q = k.
Proof.
  unfold get_query. intros H. apply find_some in H as [_ H].
  apply Z.eqb_eq in H. exact H.
Qed.

Lemma get_query_update k d q0 q1 :
  get_query k d = Some q0 → q_id q1 = k →
  get_query k (update_query k (fun _ => q1) d) = Some q1.
Proof.
  unfold get_query, update_query, with_queries. cbn [queries].
  intros H Hid. induction (queries d) as [|a l IH]; cbn [find map] in *; [discriminate H|].
  destruct (Z.eqb_spec (q_id a) k) as [Ha|Ha].
  - rewrite Hid, Z.eqb_refl. reflexivity.
  - destruct (Z.eqb_spec (q_id a) k); [contradiction|]. apply IH, H.
Qed.

Lemma update_query_twice k g q1 d :
  q_id q1 = k →
  update_query k g (update_query k (fun _ => q1) d)
  = update_query k (fun _ => g q1) d.
Proof.
  intros Hid. unfold update_query, with_queries. cbn [queries students blocked_emails faqs].
  f_equal. rewrite map_map. apply map_ext. intros a.
  destruct (Z.eqb_spec (q_id a) k) as [Ha|Ha].
  - rewrite Hid, Z.eqb_refl. reflexivity.
  - destruct (Z.eqb_spec (q_id a) k); [contradiction|reflexivity].
Qed.

Lemma responded_query_id form q0 : q_id (responded_query form q0) = q_id q0.
Proof. reflexivity. Qed.

Lemma update_status_run fl cfg now sess form d k q0 :
  sess_admin_logged_in sess = true →
  uf_query_id form = Some k →
  get_query k d = Some q0 →
  fl StatusCommit = false →
  ∃ evs,
    run (update_status fl cfg now sess form) d
    = (Some (Redirect AdminDashboard),
       update_query k (fun _ => stored_row fl now form q0) d,
       EvCommit true :: evs)
    ∧ (q_student_id q0 ≠ None → Forall (fun e => is_mail e = false) evs).
Proof.
  intros Hadm Hk Hget Hc.
  pose proof (get_query_id _ _ _ Hget) as Hid.
  unfold run, update_status. rewrite Hadm. cbn [negb].
  unfold bind at 1, session_db at 1. cbn [pending]. rewrite Hk, Hget.
  fold (responded_query form q0).
  rewrite (bind_val _ _ _ _ _ (modify_run _ _)). cbn [pending committed trace].
  rewrite (bind_val _ _ _ _ _ (commit_ok _ _ _ Hc)). cbn [pending committed trace].
  rewrite Hid. unfold stored_row.
  change (q_student_id (responded_query form q0)) with (q_student_id q0).
  destruct (q_student_id q0) as [sid|].
  - (* student *)
    destruct (fl ReplyCommit) eqn:Hr.
    + unfold bind at 1, try_except at 1.
      rewrite (bind_val _ _ _ _ _ (modify_run _ _)). cbn [pending committed trace].
      rewrite (commit_fail _ _ _ Hr). unfold rollback. cbn [pending committed trace].
      unfold flash. rewrite (bind_val _ _ _ _ _ (emit_run _ _)).
      cbn. eexists. split; [reflexivity|]. intros _. repeat constructor.
    + unfold bind at 1, try_except at 1.
      rewrite (bind_val _ _ _ _ _ (modify_run _ _)). cbn [pending committed trace].
      rewrite (commit_ok _ _ _ Hr). cbn [pending committed trace].
      unfold flash. rewrite (bind_val _ _ _ _ _ (emit_run _ _)).
      cbn [pending committed trace return_].
      rewrite update_query_twice by (rewrite responded_query_id; exact Hid).
      fold (notified_query now form q0).
      cbn. eexists. split; [reflexivity|]. intros _. repeat constructor.
  - (* guest *)
    destruct (Py.truthy (Some (q_email (responded_query form q0)))
              && Py.truthy (MAIL_USERNAME cfg) && Py.truthy (MAIL_PASSWORD cfg)).
    + unfold bind at 1, try_except at 1, bind at 1, mail_send.
      destruct (fl MailSend); cbn; eexists; (split; [reflexivity|]);
        intros H; contradiction.
    + cbn. eexists. split; [reflexivity|]. intros H; contradiction.
Qed.

Lemma update_status_commit_fails fl cfg now sess form d k q0 :
  sess_admin_logged_in sess = true →
  uf_query_id form = Some k →
  get_query k d = Some q0 →
  fl StatusCommit = true →
  run (update_status fl cfg now sess form) d = (None, d, [EvCommit false]).
Proof.
  intros Hadm Hk Hget Hc.
  unfold run, update_status. rewrite Hadm. cbn [negb].
  unfold bind at 1, session_db at 1. cbn [pending]. rewrite Hk, Hget.
  rewrite (bind_val _ _ _ _ _ (modify_run _ _)). cbn [pending committed trace].
  rewrite (bind_exc _ _ _ _ (commit_fail _ _ _ Hc)). reflexivity.
Qed.

Lemma or_idem a b : Py.or_ a (Py.or_ a b) = Py.or_ a b.
Proof. unfold Py.or_. destruct (Py.truthy a); reflexivity. Qed.

Lemma or_truthy a b : Py.truthy a = true → Py.or_ a b = a.
Proof. unfold Py.or_. intros ->. reflexivity. Qed.

Lemma reply_text_canonical a resp :
  reply_text (Py.or_ resp a) resp
  = Py.strip (Py.text (Py.or_ (Py.or_ resp a) (Some ""))).
Proof.
  unfold reply_text, Py.or_.
  destruct (Py.truthy resp) eqn:H; [rewrite H; reflexivity|].
  reflexivity.
Qed.

(** C1. The two notification paths of [update_status] exclude each
    other. On a query without student reference the reply triple is
    left as it was, whatever fails. On a query with a student reference
    no mail is handed to the mailer, whatever fails, and when both
    commits succeed the triple holds the trimmed canonical answer (the
    trimmed response text when one was entered), the time of the call
    and the flag unseen. *)
Theorem update_status_branch_exclusivity fl cfg now sess form d k q0 :
  sess_admin_logged_in sess = true →
  uf_query_id form = Some k →
  get_query k d = Some q0 →
  let R := run (update_status fl cfg now sess form) d in
  (q_student_id q0 = None →
   ∃ q', get_query k (db_of R) = Some q'
         ∧ q_admin_reply_text q' = q_admin_reply_text q0
         ∧ q_admin_reply_at q' = q_admin_reply_at q0
         ∧ q_admin_reply_seen q' = q_admin_reply_seen q0)
  ∧ (q_student_id q0 ≠ None →
     Forall (fun e => is_mail e = false) (trace_of R)
     ∧ (fl StatusCommit = false → fl ReplyCommit = false →
        ∃ q', get_query k (db_of R) = Some q'
              ∧ q_admin_reply_text q'
                = Some (Py.strip (Py.text (Py.or_ (q_admin_response q') (Some ""))))
              ∧ (Py.truthy (uf_response form) = true →
                 q_admin_reply_text q'
                 = Some (Py.strip (Py.text (uf_response form))))
              ∧ q_admin_reply_at q' = Some now
              ∧ q_admin_reply_seen q' = false)).
Proof.
  intros Hadm Hk Hget R.
  pose proof (get_query_id _ _ _ Hget) as Hid.
  destruct (fl StatusCommit) eqn:Hc.
  - pose proof (update_status_commit_fails fl cfg now sess form d k q0
                  Hadm Hk Hget Hc) as E.
    fold R in E. rewrite E. cbn [db_of trace_of fst snd]. split.
    + intros _. exists q0. repeat split; [exact Hget|..]; reflexivity.
    + intros _. split; [repeat constructor|]. intros Hf. discriminate Hf.
  - destruct (update_status_run fl cfg now sess form d k q0 Hadm Hk Hget Hc)
      as (evs & E & Hmail).
    fold R in E. rewrite E. cbn [db_of trace_of fst snd]. split.
    + intros Hg. exists (stored_row fl now form q0).
      split; [apply (get_query_update _ _ _ _ Hget);
              unfold stored_row; rewrite Hg; exact Hid|].
      unfold stored_row. rewrite Hg. repeat split; reflexivity.
    + intros Hs. split; [constructor; [reflexivity|exact (Hmail Hs)]|].
      intros _ Hr. exists (notified_query now form q0).
      assert (stored_row fl now form q0 = notified_query now form q0) as ->.
      { unfold stored_row. rewrite Hr. destruct (q_student_id q0); [reflexivity|].
        contradiction. }
      split; [apply (get_query_update _ _ _ _ Hget); exact Hid|].
      cbn [notified_query set_reply q_admin_reply_text q_admin_reply_at
             q_admin_reply_seen q_admin_response responded_query set_responses].
      split; [rewrite reply_text_canonical; reflexivity|].
      split; [|split; reflexivity].
      intros Ht. rewrite reply_text_canonical, !or_truthy; try reflexivity; try exact Ht.
      rewrite or_truthy by exact Ht. exact Ht.
Qed.

(** The sample: an answer to Bob's query (student) and one to Alice's
    (guest). *)
Lemma update_status_branch_exclusivity_witness :
  let answer := mkStatusForm (Some 2) (Some "Resolved") (Some "Hall B.") in
  let R := run (update_status no_faults Sample.cfg 100 Sample.as_admin answer)
               Sample.db in
  let answer' := mkStatusForm (Some 1) (Some "Resolved") (Some "Opens at ten.") in
  let R' := run (update_status no_faults Sample.cfg 100 Sample.as_admin answer')
                Sample.db in
  (get_query 2 Sample.db = Some Sample.student_row
   ∧ q_student_id Sample.student_row ≠ None
   ∧ Forall (fun e => is_mail e = false) (trace_of R)
   ∧ ∃ q', get_query 2 (db_of R) = Some q'
           ∧ q_admin_reply_text q' = Some "Hall B."
           ∧ q_admin_reply_at q' = Some 100
           ∧ q_admin_reply_seen q' = false)
  ∧ (get_query 1 Sample.db = Some Sample.guest_row
     ∧ q_student_id Sample.guest_row = None
     ∧ ∃ q', get_query 1 (db_of R') = Some q'
             ∧ q_admin_reply_text q' = q_admin_reply_text Sample.guest_row
             ∧ q_admin_reply_at q' = q_admin_reply_at Sample.guest_row
             ∧ q_admin_reply_seen q' = q_admin_reply_seen Sample.guest_row).
Proof.
  cbn zeta. split.
  - assert (q_student_id Sample.student_row ≠ None) as Hs by discriminate.
    split; [reflexivity|]. split; [exact Hs|].
    pose proof (proj2 (update_status_branch_exclusivity no_faults Sample.cfg 100
                         Sample.as_admin
                         (mkStatusForm (Some 2) (Some "Resolved") (Some "Hall B."))
                         Sample.db 2 Sample.student_row eq_refl eq_refl eq_refl)
                  Hs) as [Hmail Htriple].
    split; [exact Hmail|].
    destruct (Htriple eq_refl eq_refl) as (q' & Hget & _ & Htext & Hat & Hseen).
    exists q'. split; [exact Hget|]. split; [exact (Htext eq_refl)|].
    split; [exact Hat|exact Hseen].
  - split; [reflexivity|]. split; [reflexivity|].
    exact (proj1 (update_status_branch_exclusivity no_faults Sample.cfg 100
                    Sample.as_admin
                    (mkStatusForm (Some 1) (Some "Resolved") (Some "Opens at ten."))
                    Sample.db 1 Sample.guest_row eq_refl eq_refl eq_refl)
                 eq_refl).
Defined.

(** The reply text is the response only up to trimming: a response
    entered with blanks around it is stored in the triple without them. *)
Lemma reply_text_differs_from_response :
  let form := mkStatusForm (Some 2) (Some "Resolved") (Some " Hall B. ") in
  let R := run (update_status no_faults Sample.cfg 100 Sample.as_admin form)
               Sample.db in
  ∃ q', get_query 2 (db_of R) = Some q'
        ∧ q_student_id q' = Some 7
        ∧ q_admin_response q' = Some " Hall B. "
        ∧ q_admin_reply_text q' = Some "Hall B."
        ∧ q_admin_reply_text q' ≠ uf_response form.
Proof.
  cbn zeta. eexists. split; [vm_compute; reflexivity|].
  repeat split. cbn. discriminate.
Qed.

(** C4. Once its commit succeeds, [update_status] stores for the status
    and for both response fields [new or old]: the value entered when it
    is not empty, the former value otherwise. *)
Theorem update_status_sets_fields fl cfg now sess form d k q0 :
  sess_admin_logged_in sess = true →
  uf_query_id form = Some k →
  get_query k d = Some q0 →
  fl StatusCommit = false →
  let R := run (update_status fl cfg now sess form) d in
  ∃ q', get_query k (db_of R) = Some q'
        ∧ q_status q' = Py.or_ (uf_status form) (q_status q0)
        ∧ q_response q' = Py.or_ (uf_response form) (q_response q0)
        ∧ q_admin_response q' = Py.or_ (uf_response form) (q_admin_response q0)
        ∧ (Py.truthy (uf_status form) = true → q_status q' = uf_status form)
        ∧ (Py.truthy (uf_response form) = true →
           q_response q' = uf_response form
           ∧ q_admin_response q' = uf_response form).
Proof.
  intros Hadm Hk Hget Hc R.
  pose proof (get_query_id _ _ _ Hget) as Hid.
  destruct (update_status_run fl cfg now sess form d k q0 Hadm Hk Hget Hc)
    as (evs & E & _).
  fold R in E. rewrite E. cbn [db_of fst snd].
  exists (stored_row fl now form q0).
  split.
  { apply (get_query_update _ _ _ _ Hget). unfold stored_row.
    destruct (q_student_id q0), (fl ReplyCommit); exact Hid. }
  assert (q_status (stored_row fl now form q0) = Py.or_ (uf_status form) (q_status q0)
          ∧ q_response (stored_row fl now form q0)
            = Py.or_ (uf_response form) (q_response q0)
          ∧ q_admin_response (stored_row fl now form q0)
            = Py.or_ (uf_response form) (q_admin_response q0)) as (Hs & Hr & Ha).
  { unfold stored_row. destruct (q_student_id q0), (fl ReplyCommit);
      repeat split; reflexivity. }
  rewrite Hs, Hr, Ha.
  split; [reflexivity|]. split; [reflexivity|]. split; [reflexivity|]. split.
  - intros Ht. apply or_truthy, Ht.
  - intros Ht. split; apply or_truthy, Ht.
Qed.

(** The sample: Alice's query is resolved with a new answer. *)
Lemma update_status_sets_fields_witness :
  let answer := mkStatusForm (Some 1) (Some "Resolved") (Some "Opens at ten.") in
  let R := run (update_status no_faults Sample.cfg 100 Sample.as_admin answer)
               Sample.db in
  get_query 1 Sample.db = Some Sample.guest_row
  ∧ ∃ q', get_query 1 (db_of R) = Some q'
          ∧ q_status q' = Some "Resolved"
          ∧ q_response q' = Some "Opens at ten."
          ∧ q_admin_response q' = Some "Opens at ten.".
Proof.
  cbn zeta. split; [reflexivity|].
  destruct (update_status_sets_fields no_faults Sample.cfg 100 Sample.as_admin
              (mkStatusForm (Some 1) (Some "Resolved") (Some "Opens at ten."))
              Sample.db 1 Sample.guest_row eq_refl eq_refl eq_refl eq_refl)
    as (q' & Hget & _ & _ & _ & Hst & Hresp).
  exists q'. split; [exact Hget|]. split; [exact (Hst eq_refl)|].
  exact (Hresp eq_refl).
Defined.

(** A status change entered with an empty response box keeps the former
    response texts; it does not store the empty text. *)
Lemma empty_response_keeps_former_text :
  let form := mkStatusForm (Some 1) (Some "Resolved") (Some "") in
  let R := run (update_status no_faults Sample.cfg 100 Sample.as_admin form)
               Sample.db in
  ∃ q', get_query 1 (db_of R) = Some q'
        ∧ q_status q' = Some "Resolved"
        ∧ q_response q' = Some "Opens at nine."
        ∧ q_admin_response q' = Some "Opens at nine."
        ∧ q_response q' ≠ uf_response form
        ∧ q_admin_response q' ≠ uf_response form.
Proof.
  cbn zeta. eexists. split; [vm_compute; reflexivity|].
  repeat split; cbn; discriminate.
Qed.

Lemma stored_row_again fl1 fl2 now1 now2 form q0 :
  fl1 ReplyCommit = false → fl2 ReplyCommit = false →
  stored_row fl2 now2 form (stored_row fl1 now1 form q0)
  = stored_row no_faults now2 form q0.
Proof.
  intros H1 H2. unfold stored_row, no_faults. rewrite H1, H2.
  destruct (q_student_id q0) eqn:Hs.
  - cbn [notified_query set_reply q_student_id responded_query set_responses].
    rewrite Hs.
    unfold notified_query, responded_query, set_reply, set_responses.
    cbn [q_id q_name q_email q_message q_category q_status q_response
         q_admin_response q_student_id q_created_at].
    rewrite !or_idem. reflexivity.
  - cbn [q_student_id responded_query set_responses]. rewrite Hs.
    unfold responded_query, set_responses.
    cbn [q_id q_name q_email q_message q_category q_status q_response
         q_admin_response q_admin_reply_text q_admin_reply_at q_admin_reply_seen
         q_student_id q_created_at].
    rewrite !or_idem. reflexivity.
Qed.

Lemma stored_row_id fl now form q0 : q_id (stored_row fl now form q0) = q_id q0.
Proof. unfold stored_row. destruct (q_student_id q0), (fl ReplyCommit); reflexivity. Qed.

(** C5. Two calls in a row with the same status and response, each of
    which commits what it writes: the status commit of either call
    succeeds, and so does the commit of the reply triple. Then the
    tables after the second call are those one application at the time
    of the second call leaves. For a query without student reference,
    or when both calls carry the same timestamp, that is the state
    after the first call; for a student's query the two states differ
    in [admin_reply_at] and nowhere else. *)
Theorem update_status_twice fl1 fl2 cfg now1 now2 sess form d k q0 :
  sess_admin_logged_in sess = true →
  uf_query_id form = Some k →
  get_query k d = Some q0 →
  fl1 StatusCommit = false → fl1 ReplyCommit = false →
  fl2 StatusCommit = false → fl2 ReplyCommit = false →
  let R1 := run (update_status fl1 cfg now1 sess form) d in
  let R2 := run (update_status fl2 cfg now2 sess form) (db_of R1) in
  db_of R2 = db_of (run (update_status no_faults cfg now2 sess form) d)
  ∧ (q_student_id q0 = None ∨ now1 = now2 → db_of R2 = db_of R1)
  ∧ ∃ q1 q2, get_query k (db_of R1) = Some q1
             ∧ get_query k (db_of R2) = Some q2
             ∧ q2 = set_reply (q_admin_reply_text q1) (q_admin_reply_at q2)
                              (q_admin_reply_seen q1) q1.
Proof.
  intros Hadm Hk Hget Hc1 Hr1 Hc2 Hr2 R1 R2.
  pose proof (get_query_id _ _ _ Hget) as Hid.
  destruct (update_status_run fl1 cfg now1 sess form d k q0 Hadm Hk Hget Hc1)
    as (evs1 & E1 & _).
  fold R1 in E1.
  assert (get_query k (db_of R1) = Some (stored_row fl1 now1 form q0)) as Hget1.
  { rewrite E1. cbn [db_of fst snd]. apply (get_query_update _ _ _ _ Hget).
    rewrite stored_row_id. exact Hid. }
  destruct (update_status_run fl2 cfg now2 sess form (db_of R1) k _ Hadm Hk Hget1 Hc2)
    as (evs2 & E2 & _).
  fold R2 in E2.
  destruct (update_status_run no_faults cfg now2 sess form d k q0 Hadm Hk Hget
              eq_refl) as (evs3 & E3 & _).
  assert (db_of R2 = update_query k (fun _ => stored_row no_faults now2 form q0) d)
    as HR2.
  { rewrite E2. cbn [db_of fst snd]. rewrite E1. cbn [db_of fst snd].
    rewrite (update_query_twice k (fun _ => _)) by (rewrite stored_row_id; exact Hid).
    rewrite stored_row_again by assumption. reflexivity. }
  split; [rewrite HR2, E3; reflexivity|]. split.
  - intros Hsame. rewrite HR2, E1. cbn [db_of fst snd]. f_equal.
    unfold stored_row, no_faults. rewrite Hr1.
    destruct Hsame as [Hg| ->]; [rewrite Hg|]; reflexivity.
  - exists (stored_row fl1 now1 form q0), (stored_row no_faults now2 form q0).
    split; [exact Hget1|]. split.
    + rewrite HR2. apply (get_query_update _ _ _ _ Hget).
      rewrite stored_row_id. exact Hid.
    + unfold stored_row, no_faults. rewrite Hr1.
      destruct (q_student_id q0); reflexivity.
Qed.

(** The sample: Bob's query is answered at time 100 and again at 200. *)
Lemma update_status_twice_witness :
  let answer := mkStatusForm (Some 2) (Some "Resolved") (Some "Hall B.") in
  let R1 := run (update_status no_faults Sample.cfg 100 Sample.as_admin answer)
                Sample.db in
  let R2 := run (update_status no_faults Sample.cfg 200 Sample.as_admin answer)
                (db_of R1) in
  get_query 2 Sample.db = Some Sample.student_row
  ∧ db_of R2
    = db_of (run (update_status no_faults Sample.cfg 200 Sample.as_admin answer)
                 Sample.db).
Proof.
  cbn zeta. split; [reflexivity|].
  exact (proj1 (update_status_twice no_faults no_faults Sample.cfg 100 200
                  Sample.as_admin
                  (mkStatusForm (Some 2) (Some "Resolved") (Some "Hall B."))
                  Sample.db 2 Sample.student_row
                  eq_refl eq_refl eq_refl eq_refl eq_refl eq_refl eq_refl)).
Defined.

(** Answering a student's query twice with the same status and text
    leaves a different row the second time: [admin_reply_at] moves on. *)
Lemma update_status_twice_changes_reply_time :
  let form := mkStatusForm (Some 2) (Some "Resolved") (Some "Hall B.") in
  let R1 := run (update_status no_faults Sample.cfg 100 Sample.as_admin form)
                Sample.db in
  let R2 := run (update_status no_faults Sample.cfg 200 Sample.as_admin form)
                (db_of R1) in
  (∃ q1 q2, get_query 2 (db_of R1) = Some q1
            ∧ get_query 2 (db_of R2) = Some q2
            ∧ q_admin_reply_at q1 = Some 100
            ∧ q_admin_reply_at q2 = Some 200)
  ∧ db_of R2 ≠ db_of R1.
Proof.
  cbn zeta. split.
  - eexists _, _. split; [vm_compute; reflexivity|].
    split; [vm_compute; reflexivity|]. split; reflexivity.
  - vm_compute. intros H. discriminate H.
Qed.

(** ** Primary writes and best-effort side effects *)

Lemma submit_query_run fl py_int now sess referrer form d fk :
  Py.truthy (sub_name form) = true →
  Py.truthy (sub_email form) = true →
  Py.truthy (sub_message form) = true →
  resolve_student_fk fl py_int StudentResolve (sess_student_id sess)
    (mkWorld d d []) = (Val fk, mkWorld d d []) →
  reject_blocked fl fk (sub_email form) (mkWorld d d []) = (Val tt, mkWorld d d []) →
  fl QueryCommit = false →
  ∃ evs,
    run (submit_query fl py_int now sess referrer form) d
    = (Some (Redirect (if session_value_truthy (sess_student_id sess)
                       then StudentDashboard else Home)),
       after_faq fl now form
         (with_queries (queries d ++ [submitted_query now form fk (queries d)]) d),
       EvCommit true :: evs)
    ∧ In success_flash evs.
Proof.
  intros Hn He Hm Hfk Hrb Hc.
  unfold run, submit_query.
  fold (sub_name form) (sub_email form) (sub_category form) (sub_message form).
  rewrite Hn, He, Hm. cbn [negb orb].
  rewrite (bind_val _ _ _ _ _ Hfk), (bind_val _ _ _ _ _ Hrb).
  rewrite (bind_val _ _ _ _ _ (modify_run _ _)). cbn [pending committed trace].
  fold (question_of form) (stored_category form).
  fold (submitted_query now form fk (queries d)).
  fold (with_queries (queries d ++ [submitted_query now form fk (queries d)]) d).
  rewrite (bind_val _ _ _ _ _ (commit_ok _ _ _ Hc)). cbn [pending committed trace].
  destruct (faq_auto_update_run fl now form
              (with_queries (queries d ++ [submitted_query now form fk (queries d)]) d)
              ([] ++ [EvCommit true])) as (evs & Hrun & _).
  rewrite (bind_val _ _ _ _ _ Hrun). unfold flash.
  rewrite (bind_val _ _ _ _ _ (emit_run _ _)). cbn [pending committed trace].
  exists (evs ++ [success_flash]).
  destruct (session_value_truthy (sess_student_id sess)); cbn;
    (split; [reflexivity|apply in_or_app; right; left; reflexivity]).
Qed.

Lemma resolve_student_fk_ext fl fl' py_int s sid w :
  fl' s = fl s →
  resolve_student_fk fl' py_int s sid w = resolve_student_fk fl py_int s sid w.
Proof.
  intros H. unfold resolve_student_fk, try_except, bind, db_call. rewrite H.
  reflexivity.
Qed.

Lemma reject_blocked_ext fl fl' fk email w :
  fl' StudentGet = fl StudentGet →
  fl' BlockedLookup = fl BlockedLookup →
  reject_blocked fl' fk email w = reject_blocked fl fk email w.
Proof.
  intros H1 H2. unfold reject_blocked, try_except, bind, db_call. rewrite H1, H2.
  reflexivity.
Qed.

Lemma queries_after_faq fl now form d : queries (after_faq fl now form d) = queries d.
Proof. unfold after_faq. destruct (fl FaqLookup || fl FaqCommit); reflexivity. Qed.

(** C8. The primary write is committed first and no best-effort step
    undoes it. A submission that is accepted stays accepted however the
    FAQ block fares: the first thing the handler does to the store is the
    successful commit of the new query row, and that row, and no other
    change to the queries, is what the store holds afterwards. An
    answered query has its status and both response texts committed as
    the first store action, and they stay however the mail or the in-app
    reply fare. *)
Theorem primary_write_survives_side_effects :
  (∀ fl fl' py_int now sess referrer form d,
     same_primary_faults fl fl' →
     accepted (run (submit_query fl py_int now sess referrer form) d) →
     let R' := run (submit_query fl' py_int now sess referrer form) d in
     accepted R'
     ∧ ∃ q evs,
         trace_of R' = EvCommit true :: evs
         ∧ queries (db_of R') = queries d ++ [q]
         ∧ q_status q = Some "Pending"
         ∧ q_message q = question_of form
         ∧ queries (db_of (run (submit_query fl py_int now sess referrer form) d))
           = queries d ++ [q])
  ∧ (∀ fl cfg now sess form d k q0,
       sess_admin_logged_in sess = true →
       uf_query_id form = Some k →
       get_query k d = Some q0 →
       fl StatusCommit = false →
       let R := run (update_status fl cfg now sess form) d in
       ∃ q' evs,
         trace_of R = EvCommit true :: evs
         ∧ get_query k (db_of R) = Some q'
         ∧ q_status q' = q_status (responded_query form q0)
         ∧ q_response q' = q_response (responded_query form q0)
         ∧ q_admin_response q' = q_admin_response (responded_query form q0)).
Proof.
  split.
  - intros fl fl' py_int now sess referrer form d Hsame Hacc R'.
    destruct (submit_query_accepted _ _ _ _ _ _ _ Hacc)
      as (fk & evs & E & Hfk & Hrb & Hc & Hn & He & Hm).
    rewrite <- (resolve_student_fk_ext fl fl') in Hfk
      by (apply Hsame; discriminate).
    rewrite <- (reject_blocked_ext fl fl') in Hrb
      by (apply Hsame; discriminate).
    rewrite <- (Hsame QueryCommit) in Hc by discriminate.
    destruct (submit_query_run fl' py_int now sess referrer form d fk
                Hn He Hm Hfk Hrb Hc) as (evs' & E' & Hin).
    fold R' in E'. rewrite E', E. cbn [db_of trace_of fst snd]. split.
    + unfold accepted. cbn [trace_of snd]. right. exact Hin.
    + exists (submitted_query now form fk (queries d)), evs'.
      rewrite !queries_after_faq. repeat split; reflexivity.
  - intros fl cfg now sess form d k q0 Hadm Hk Hget Hc R.
    destruct (update_status_run fl cfg now sess form d k q0 Hadm Hk Hget Hc)
      as (evs & E & _).
    fold R in E. rewrite E. cbn [db_of trace_of fst snd].
    exists (stored_row fl now form q0), evs.
    split; [reflexivity|]. split.
    + apply (get_query_update _ _ _ _ Hget). rewrite stored_row_id.
      exact (get_query_id _ _ _ Hget).
    + unfold stored_row. destruct (q_student_id q0), (fl ReplyCommit);
        repeat split; reflexivity.
Qed.

(** The sample: a submission whose FAQ commit fails, and an answer
    whose mail cannot be sent. *)
Lemma primary_write_survives_side_effects_witness :
  let form := Sample.guest_form "alice@x.com" "Is the library open?" in
  let R := run (submit_query no_faults Sample.no_int 30 Sample.anonymous None form)
               Sample.db in
  let R' := run (submit_query Sample.faq_commit_fails Sample.no_int 30
                   Sample.anonymous None form) Sample.db in
  let answer := mkStatusForm (Some 1) (Some "Resolved") (Some "Opens at ten.") in
  let A := run (update_status (fun s => match s with MailSend => true | _ => false end)
                  Sample.cfg 100 Sample.as_admin answer) Sample.db in
  (same_primary_faults no_faults Sample.faq_commit_fails
   ∧ accepted R
   ∧ accepted R'
   ∧ ∃ q evs, trace_of R' = EvCommit true :: evs
              ∧ queries (db_of R') = queries Sample.db ++ [q]
              ∧ q_status q = Some "Pending"
              ∧ q_message q = question_of form
              ∧ queries (db_of R) = queries Sample.db ++ [q])
  ∧ (get_query 1 Sample.db = Some Sample.guest_row
     ∧ ∃ q' evs, trace_of A = EvCommit true :: evs
                 ∧ get_query 1 (db_of A) = Some q'
                 ∧ q_status q' = q_status (responded_query answer Sample.guest_row)
                 ∧ q_response q' = q_response (responded_query answer Sample.guest_row)
                 ∧ q_admin_response q'
                   = q_admin_response (responded_query answer Sample.guest_row)).
Proof.
  cbn zeta. split.
  - assert (same_primary_faults no_faults Sample.faq_commit_fails) as Hsame.
    { intros s H1 H2 H3 H4. destruct s; try reflexivity. contradiction. }
    assert (accepted (run (submit_query no_faults Sample.no_int 30 Sample.anonymous
                             None
                             (Sample.guest_form "alice@x.com" "Is the library open?"))
                        Sample.db)) as Hacc
        by (unfold accepted; vm_compute; in_trace).
    split; [exact Hsame|]. split; [exact Hacc|].
    exact (proj1 primary_write_survives_side_effects no_faults
             Sample.faq_commit_fails Sample.no_int 30 Sample.anonymous None
             (Sample.guest_form "alice@x.com" "Is the library open?") Sample.db
             Hsame Hacc).
  - split; [reflexivity|].
    exact (proj2 primary_write_survives_side_effects
             (fun s => match s with MailSend => true | _ => false end)
             Sample.cfg 100 Sample.as_admin
             (mkStatusForm (Some 1) (Some "Resolved") (Some "Opens at ten."))
             Sample.db 1 Sample.guest_row eq_refl eq_refl eq_refl eq_refl).
Defined.

(** ** Dashboard fetches *)






(** ** Deactivated FAQ rows *)

Lemma aggregate_inactive now t cat fs f :
  rows_for t fs = [f] → f_is_active f = false →
  aggregate now t cat fs = fs ++ [new_faq now t cat fs].
Proof.
  intros Hrows Hin. unfold aggregate.
  rewrite <- (app_nil_r fs) at 1.
  rewrite find_app_none; [reflexivity|].
  intros x Hx.
  destruct (String.eqb_spec (f_question x) t) as [Heq|]; [|reflexivity].
  assert (x ∈ rows_for t fs) as Hmem.
  { apply list_elem_of_filter. split; [exact Heq|]. apply list_elem_of_In, Hx. }
  rewrite Hrows in Hmem. apply list_elem_of_singleton in Hmem. subst x.
  rewrite Hin. reflexivity.
Qed.

(** C10. Only active FAQ rows are matched. When the one FAQ row that
    carries the submitted question text is inactive, an accepted
    submission whose FAQ update succeeds (neither its lookup nor its
    commit raises) leaves that row as it is and appends a new active row
    for the same text with frequency 1, so the text is then carried by
    two rows. *)
Theorem inactive_faq_not_matched fl py_int now sess referrer form d f :
  let R := run (submit_query fl py_int now sess referrer form) d in
  accepted R →
  fl FaqLookup = false → fl FaqCommit = false →
  rows_for (question_of form) (faqs d) = [f] →
  f_is_active f = false →
  ∃ g, faqs (db_of R) = faqs d ++ [g]
       ∧ f_question g = question_of form
       ∧ f_frequency g = 1
       ∧ f_is_active g = true
       ∧ rows_for (question_of form) (faqs (db_of R)) = [f; g].
Proof.
  intros R Hacc Hl Hc Hrows Hin.
  destruct (submit_query_accepted _ _ _ _ _ _ _ Hacc) as (fk & evs & E & _).
  fold R in E. rewrite E. cbn [db_of fst snd].
  rewrite after_faq_ok by assumption.
  cbn [with_faqs with_queries faqs].
  rewrite (aggregate_inactive _ _ _ _ f Hrows Hin).
  eexists. split; [reflexivity|]. repeat split.
  rewrite rows_for_app, Hrows, rows_for_cons. cbn [new_faq f_question].
  rewrite String.eqb_refl. reflexivity.
Qed.

(** The sample: a question is asked, its FAQ row is switched off by
    [toggle_faq], and the question is asked again. *)
Lemma inactive_faq_not_matched_witness :
  let form := Sample.guest_form "alice@x.com" "Is the library open?" in
  let R0 := run (submit_query no_faults Sample.no_int 30 Sample.anonymous None form)
                Sample.db in
  let T := run (toggle_faq no_faults Sample.as_admin 1) (db_of R0) in
  let R := run (submit_query no_faults Sample.no_int 40 Sample.anonymous None form)
               (db_of T) in
  let f := mkFAQ 1 "Is the library open?" None 1 (Some "facilities") None false 30 in
  faqs (db_of R0) = [set_active true f]
  ∧ faqs (db_of T) = [f]
  ∧ accepted R
  ∧ ∃ g, faqs (db_of R) = [f; g]
         ∧ f_frequency g = 1 ∧ f_is_active g = true
         ∧ rows_for (question_of form) (faqs (db_of R)) = [f; g].
Proof.
  cbn zeta.
  set (form := Sample.guest_form "alice@x.com" "Is the library open?").
  set (d := db_of (run (toggle_faq no_faults Sample.as_admin 1)
                     (db_of (run (submit_query no_faults Sample.no_int 30
                                    Sample.anonymous None form) Sample.db)))).
  set (f := mkFAQ 1 "Is the library open?" None 1 (Some "facilities") None false 30).
  assert (faqs d = [f]) as Hd by (vm_compute; reflexivity).
  assert (accepted (run (submit_query no_faults Sample.no_int 40 Sample.anonymous
                           None form) d)) as Hacc
      by (unfold accepted; vm_compute; in_trace).
  assert (rows_for (question_of form) (faqs d) = [f]) as Hrows
      by (rewrite Hd; reflexivity).
  split; [vm_compute; reflexivity|]. split; [exact Hd|]. split; [exact Hacc|].
  destruct (inactive_faq_not_matched no_faults Sample.no_int 40 Sample.anonymous
              None form d f Hacc eq_refl eq_refl Hrows eq_refl)
    as (g & HF & _ & Hfreq & Hact & Hr).
  exists g. rewrite Hd in HF. split; [exact HF|]. split; [exact Hfreq|].
  split; [exact Hact|exact Hr].
Defined.

(** Not every new submission adds the second row. When the commit of
    the FAQ update raises, the submission is accepted and its query is
    stored, but the new FAQ row is rolled back: the deactivated row
    stays the only row for the text. *)
Lemma inactive_row_stays_alone_when_update_fails :
  let form := Sample.guest_form "alice@x.com" "Is the library open?" in
  let R0 := run (submit_query no_faults Sample.no_int 30 Sample.anonymous None form)
                Sample.db in
  let T := run (toggle_faq no_faults Sample.as_admin 1) (db_of R0) in
  let R := run (submit_query Sample.faq_commit_fails Sample.no_int 40
                  Sample.anonymous None form) (db_of T) in
  let f := mkFAQ 1 "Is the library open?" None 1 (Some "facilities") None false 30 in
  rows_for (question_of form) (faqs (db_of T)) = [f]
  ∧ accepted R
  ∧ (∃ q, queries (db_of R) = queries (db_of T) ++ [q]
          ∧ q_message q = "Is the library open?")
  ∧ faqs (db_of R) = [f]
  ∧ ¬ (∃ g, faqs (db_of R) = faqs (db_of T) ++ [g]).
Proof.
  cbn zeta.
  split; [vm_compute; reflexivity|].
  split; [unfold accepted; vm_compute; in_trace|].
  split; [eexists; split; [vm_compute; reflexivity|reflexivity]|].
  split; [vm_compute; reflexivity|].
  intros (g & H). vm_compute in H. discriminate H.
Qed.

(** ** Schema migration *)

Module ReconcilerFacts.
Import Reconciler.

Lemma ensure_columns_run ef cols tbl cs :
  ∀ (live : list string) (s : schema), s !! tbl = Some live →
    ensure_columns ef cols tbl cs s
    = (if (run_columns ef cols tbl cs live).1 then Some tt else None,
       <[tbl := (run_columns ef cols tbl cs live).2]> s).
Proof.
  induction cs as [|c cs IH]; intros live s Hs; cbn [ensure_columns run_columns].
  - cbn. rewrite insert_id by exact Hs. reflexivity.
  - unfold bbind, ensure_column.
    destruct (bool_decide (c ∈ cols)); [cbn [bret]; apply IH, Hs|].
    unfold add_column, refused. rewrite Hs.
    destruct (ef (AddColumn tbl c)); cbn [orb].
    { cbn. rewrite insert_id by exact Hs. reflexivity. }
    destruct (names live c).
    { cbn. rewrite insert_id by exact Hs. reflexivity. }
    rewrite (IH (live ++ [c]) (<[tbl:=live ++ [c]]> s)) by apply lookup_insert_eq.
    rewrite insert_insert_eq. reflexivity.
Qed.

(** The written-out blocks are the loop followed by their last steps. *)
Lemma queries_block_loop ef s :
  queries_block ef s
  = bbind (table_info ef "queries")
      (fun cols =>
         bbind (ensure_columns ef cols "queries" (migrated_columns "queries"))
           (fun _ =>
              bbind (if bool_decide ("category"%string ∈ cols) then bret tt
                     else backfill_category ef)
                (fun _ => session_commit ef "queries"))) s.
Proof.
  unfold queries_block, bbind. destruct (table_info ef "queries" s) as [[cols|] s0];
    [|reflexivity].
  cbn [migrated_columns String.eqb Ascii.eqb Bool.eqb ensure_columns].
  unfold bbind.
  destruct (ensure_column ef cols "queries" "admin_reply_text" s0) as [[[]|] s1];
    [|reflexivity].
  destruct (ensure_column ef cols "queries" "admin_reply_at" s1) as [[[]|] s2];
    [|reflexivity].
  destruct (ensure_column ef cols "queries" "admin_reply_seen" s2) as [[[]|] s3];
    [|reflexivity].
  unfold ensure_column.
  destruct (bool_decide ("category"%string ∈ cols)); [reflexivity|].
  destruct (add_column ef "queries" "category" s3) as [[[]|] s4]; reflexivity.
Qed.

Lemma admins_block_loop ef s :
  admins_block ef s
  = bbind (table_info ef "admins")
      (fun cols =>
         bbind (ensure_columns ef cols "admins" (migrated_columns "admins"))
           (fun _ => session_commit ef "admins")) s.
Proof.
  unfold admins_block, bbind. destruct (table_info ef "admins" s) as [[cols|] s0];
    [|reflexivity].
  cbn [migrated_columns String.eqb Ascii.eqb Bool.eqb ensure_columns].
  unfold bbind.
  destruct (ensure_column ef cols "admins" "name" s0) as [[[]|] s1]; [|reflexivity].
  destruct (ensure_column ef cols "admins" "email" s1) as [[[]|] s2]; [|reflexivity].
  destruct (ensure_column ef cols "admins" "is_active" s2) as [[[]|] s3]; [|reflexivity].
  destruct (ensure_column ef cols "admins" "is_blocked" s3) as [[[]|] s4]; [|reflexivity].
  destruct (ensure_column ef cols "admins" "created_at" s4) as [[[]|] s5]; reflexivity.
Qed.

Lemma students_block_loop ef s :
  students_block ef s
  = bbind (table_info ef "students")
      (fun cols =>
         bbind (ensure_columns ef cols "students" (migrated_columns "students"))
           (fun _ =>
              if bool_decide ("is_blocked"%string ∈ cols) then bret tt
              else session_commit ef "students")) s.
Proof.
  unfold students_block, bbind. destruct (table_info ef "students" s) as [[cols|] s0];
    [|reflexivity].
  cbn [migrated_columns String.eqb Ascii.eqb Bool.eqb ensure_columns].
  unfold bbind, ensure_column.
  destruct (bool_decide ("is_blocked"%string ∈ cols)); [reflexivity|].
  destruct (add_column ef "students" "is_blocked" s0) as [[[]|] s1]; reflexivity.
Qed.


Lemma try_block_schema (b : B unit) msg st :
  (try_block b msg st).1 = (b st.1).2.
Proof. unfold try_block. destruct (b st.1) as [[u|] s']; reflexivity. Qed.

Lemma try_block_log (b : B unit) msg st :
  (try_block b msg st).2
  = match (b st.1).1 with Some _ => st.2 | None => st.2 ++ [msg] end.
Proof. unfold try_block. destruct (b st.1) as [[u|] s']; reflexivity. Qed.

(** A block changes the table it is written for and nothing else. *)
Lemma loop_block_schema ef tbl (tail : list string → B unit) s :
  (∀ cols s0, (tail cols s0).2 = s0) →
  migrated_columns tbl ≠ [] →
  (bbind (table_info ef tbl)
     (fun cols =>
        bbind (ensure_columns ef cols tbl (migrated_columns tbl))
          (fun _ => tail cols)) s).2
  = alter (table_after ef tbl) tbl s.
Proof.
  intros Htail Hne. unfold bbind, table_info, table_after.
  destruct (ef (TableInfo tbl)).
  { cbn. symmetry. apply alter_id. reflexivity. }
  destruct (s !! tbl) as [live|] eqn:Hs; cbn [default].
  - rewrite (ensure_columns_run ef live tbl _ live s Hs).
    rewrite (alter_alt_Some _ _ _ _ Hs).
    destruct (run_columns ef live tbl (migrated_columns tbl) live) as [[] live'];
      cbn [fst snd]; [apply Htail|reflexivity].
  - rewrite alter_id' by exact Hs.
    destruct (migrated_columns tbl) as [|c cs]; [contradiction|].
    cbn [ensure_columns]. unfold bbind, ensure_column.
    rewrite bool_decide_false by (apply not_elem_of_nil).
    unfold add_column. rewrite Hs. destruct (ef (AddColumn tbl c)); reflexivity.
Qed.

Lemma session_commit_schema ef tbl s : (session_commit ef tbl s).2 = s.
Proof. unfold session_commit. destruct (ef _); reflexivity. Qed.

Lemma backfill_category_schema ef s : (backfill_category ef s).2 = s.
Proof.
  unfold backfill_category. destruct (ef _); [reflexivity|].
  destruct (s !! _); [|reflexivity]. destruct (names _ _); reflexivity.
Qed.

Lemma queries_block_schema ef s :
  (queries_block ef s).2 = alter (table_after ef "queries") "queries" s.
Proof.
  rewrite queries_block_loop.
  apply (loop_block_schema ef "queries"
           (fun cols =>
              bbind (if bool_decide ("category"%string ∈ cols) then bret tt
                     else backfill_category ef)
                (fun _ => session_commit ef "queries"))); [|discriminate].
  intros cols s0. unfold bbind.
  destruct (bool_decide _); cbn [bret].
  - apply session_commit_schema.
  - pose proof (backfill_category_schema ef s0) as H.
    destruct (backfill_category ef s0) as [[u|] s1]; cbn [snd] in *; subst s1;
      [apply session_commit_schema|reflexivity].
Qed.

Lemma students_block_schema ef s :
  (students_block ef s).2 = alter (table_after ef "students") "students" s.
Proof.
  rewrite students_block_loop.
  apply (loop_block_schema ef "students"
           (fun cols =>
              if bool_decide ("is_blocked"%string ∈ cols) then bret tt
              else session_commit ef "students")); [|discriminate].
  intros cols s0. destruct (bool_decide _); [reflexivity|].
  apply session_commit_schema.
Qed.

Lemma admins_block_schema ef s :
  (admins_block ef s).2 = alter (table_after ef "admins") "admins" s.
Proof.
  rewrite admins_block_loop.
  apply (loop_block_schema ef "admins" (fun _ => session_commit ef "admins"));
    [|discriminate].
  intros cols s0. apply session_commit_schema.
Qed.

(** The schema one run leaves. *)
Lemma migrate_schema ef s :
  (migrate_additive_schema ef s).1
  = (if ef CreateAll then (fun m : schema => m) else (fun m => m ∪ declared_schema))
      (alter (table_after ef "admins") "admins"
         (alter (table_after ef "students") "students"
            (alter (table_after ef "queries") "queries" s))).
Proof.
  unfold migrate_additive_schema.
  rewrite !try_block_schema.
  cbn [fst]. rewrite queries_block_schema, students_block_schema, admins_block_schema.
  unfold create_all. destruct (ef CreateAll); reflexivity.
Qed.


(** *** Names of columns *)

Lemma same_name_refl x : same_name x x = true.
Proof. apply String.eqb_refl. Qed.

Lemma names_app l l' x : names (l ++ l') x = names l x || names l' x.
Proof. apply existsb_app. Qed.

Lemma names_elem l x : x ∈ l → names l x = true.
Proof.
  intros Hx. apply existsb_exists. exists x.
  split; [apply list_elem_of_In, Hx|apply same_name_refl].
Qed.

Lemma names_none l x : (∀ a, a ∈ l → same_name x a = false) → names l x = false.
Proof.
  intros H. destruct (names l x) eqn:E; [|reflexivity].
  apply existsb_exists in E as (a & Ha & Hs).
  rewrite (H a) in Hs by (apply list_elem_of_In, Ha). discriminate Hs.
Qed.

Lemma fold_nodup_head c cs x :
  NoDup (map fold_case (c :: cs)) → x ∈ cs → same_name x c = false.
Proof.
  cbn [map]. intros Hnd Hx. apply NoDup_cons in Hnd as [Hc _].
  unfold same_name. destruct (String.eqb_spec (fold_case x) (fold_case c)) as [E|];
    [|reflexivity].
  exfalso. apply Hc. rewrite <- E. apply list_elem_of_fmap_2. exact Hx.
Qed.

Lemma fold_nodup_nodup cs : NoDup (map fold_case cs) → NoDup cs.
Proof. apply (NoDup_fmap_1 fold_case). Qed.

(** *** The column loop on lists *)

Section Loop.

Variable ef : engine_faults.
Variable cols : list string.
Variable tbl : string.

Lemma run_columns_appends cs :
  ∀ live, ∃ added, (run_columns ef cols tbl cs live).2 = live ++ added.
Proof.
  induction cs as [|c cs IH]; intros live; cbn [run_columns].
  - exists []. cbn. rewrite app_nil_r. reflexivity.
  - destruct (bool_decide (c ∈ cols)); [apply IH|].
    destruct (refused ef tbl live c).
    + exists []. cbn. rewrite app_nil_r. reflexivity.
    + destruct (IH (live ++ [c])) as [added ->].
      exists ([c] ++ added). rewrite app_assoc. reflexivity.
Qed.

Lemma run_columns_keeps cs live x :
  x ∈ live → x ∈ (run_columns ef cols tbl cs live).2.
Proof.
  intros Hx. destruct (run_columns_appends cs live) as [added ->].
  apply elem_of_app. left. exact Hx.
Qed.

Lemma run_columns_nodup cs :
  ∀ live, NoDup live → NoDup (run_columns ef cols tbl cs live).2.
Proof.
  induction cs as [|c cs IH]; intros live Hnd; cbn [run_columns]; [exact Hnd|].
  destruct (bool_decide (c ∈ cols)); [apply IH, Hnd|].
  unfold refused. destruct (ef (AddColumn tbl c)); cbn [orb]; [exact Hnd|].
  destruct (names live c) eqn:Hc; [exact Hnd|].
  apply IH. apply NoDup_app. split; [exact Hnd|]. split.
  - intros x Hx Hx'. apply list_elem_of_singleton in Hx'. subst x.
    rewrite (names_elem _ _ Hx) in Hc. discriminate Hc.
  - apply NoDup_singleton.
Qed.

Lemma loop_inv_keeps cs live x : loop_inv cols cs live → x ∈ cols → x ∈ live.
Proof. intros (added & -> & _) Hx. apply elem_of_app. left. exact Hx. Qed.

Lemma loop_inv_names c cs live :
  loop_inv cols (c :: cs) live → names live c = names cols c.
Proof.
  intros (added & -> & Hadd). rewrite names_app.
  rewrite (names_none added c), orb_false_r; [reflexivity|].
  intros a Ha. apply (Hadd a c Ha). apply elem_of_cons. left. reflexivity.
Qed.

Lemma loop_inv_fresh c cs live :
  loop_inv cols (c :: cs) live → c ∉ cols → c ∉ live.
Proof.
  intros (added & -> & Hadd) Hc Hl. apply elem_of_app in Hl as [Hl|Hl];
    [contradiction|].
  specialize (Hadd c c Hl ltac:(apply elem_of_cons; left; reflexivity)).
  rewrite same_name_refl in Hadd. discriminate Hadd.
Qed.

Lemma loop_inv_skip c cs live :
  loop_inv cols (c :: cs) live → loop_inv cols cs live.
Proof.
  intros (added & -> & Hadd). exists added. split; [reflexivity|].
  intros a x Ha Hx. apply (Hadd a x Ha). apply elem_of_cons. right. exact Hx.
Qed.

Lemma loop_inv_add c cs live :
  NoDup (map fold_case (c :: cs)) →
  loop_inv cols (c :: cs) live → loop_inv cols cs (live ++ [c]).
Proof.
  intros Hnd (added & -> & Hadd). exists (added ++ [c]).
  split; [rewrite app_assoc; reflexivity|].
  intros a x Ha Hx. apply elem_of_app in Ha as [Ha|Ha].
  - apply (Hadd a x Ha). apply elem_of_cons. right. exact Hx.
  - apply list_elem_of_singleton in Ha. subst a.
    exact (fold_nodup_head c cs x Hnd Hx).
Qed.

Lemma refused_in_loop c cs live :
  loop_inv cols (c :: cs) live → refused ef tbl live c = refused ef tbl cols c.
Proof. intros Hinv. unfold refused. rewrite (loop_inv_names c cs live Hinv). reflexivity. Qed.

(** A column is there after the loop when every column up to and
    including it was in the table from the start or could be added. *)
Lemma run_columns_adds pre c post :
  ∀ live,
    NoDup (map fold_case (pre ++ c :: post)) →
    loop_inv cols (pre ++ c :: post) live →
    (∀ x, x ∈ pre → x ∈ cols ∨ refused ef tbl cols x = false) →
    c ∈ cols ∨ refused ef tbl cols c = false →
    c ∈ (run_columns ef cols tbl (pre ++ c :: post) live).2.
Proof.
  induction pre as [|p pre IH]; intros live Hnd Hinv Hpre Hc;
    cbn [app run_columns] in *.
  - destruct (bool_decide (c ∈ cols)) eqn:Hin.
    + apply bool_decide_eq_true in Hin. apply run_columns_keeps.
      eapply loop_inv_keeps; eassumption.
    + apply bool_decide_eq_false in Hin. destruct Hc as [Hc|Hc]; [contradiction|].
      rewrite (refused_in_loop _ _ _ Hinv), Hc.
      apply run_columns_keeps. apply elem_of_app. right.
      apply list_elem_of_singleton. reflexivity.
  - assert (∀ x, x ∈ pre → x ∈ cols ∨ refused ef tbl cols x = false) as Hpre'.
    { intros x Hx. apply Hpre. apply elem_of_cons. right. exact Hx. }
    assert (NoDup (map fold_case (pre ++ c :: post))) as Hnd'.
    { cbn [map] in Hnd. apply NoDup_cons in Hnd as [_ Hnd]. exact Hnd. }
    destruct (bool_decide (p ∈ cols)) eqn:Hin.
    + apply IH; [exact Hnd'|eapply loop_inv_skip; eassumption|exact Hpre'|exact Hc].
    + apply bool_decide_eq_false in Hin.
      destruct (Hpre p ltac:(apply elem_of_cons; left; reflexivity)) as [Hp|Hp];
        [contradiction|].
      rewrite (refused_in_loop _ _ _ Hinv), Hp.
      apply IH; [exact Hnd'|apply loop_inv_add; assumption|exact Hpre'|exact Hc].
Qed.

(** A refused addition ends the loop: the columns from there on that
    were missing stay missing. *)
Lemma run_columns_stops pre c post :
  ∀ live,
    NoDup (map fold_case (pre ++ c :: post)) →
    loop_inv cols (pre ++ c :: post) live →
    (∀ x, x ∈ pre → x ∈ cols ∨ refused ef tbl cols x = false) →
    c ∉ cols →
    refused ef tbl cols c = true →
    (run_columns ef cols tbl (pre ++ c :: post) live).1 = false
    ∧ ∀ x, x ∈ c :: post → x ∉ cols →
           x ∉ (run_columns ef cols tbl (pre ++ c :: post) live).2.
Proof.
  induction pre as [|p pre IH]; intros live Hnd Hinv Hpre Hc Hf;
    cbn [app run_columns] in *.
  - rewrite bool_decide_false by exact Hc.
    rewrite (refused_in_loop _ _ _ Hinv), Hf. cbn [fst snd].
    split; [reflexivity|]. intros x Hx Hxc Hl.
    destruct Hinv as (added & -> & Hadd).
    apply elem_of_app in Hl as [Hl|Hl]; [contradiction|].
    specialize (Hadd x x Hl Hx). rewrite same_name_refl in Hadd. discriminate Hadd.
  - assert (∀ x, x ∈ pre → x ∈ cols ∨ refused ef tbl cols x = false) as Hpre'.
    { intros x Hx. apply Hpre. apply elem_of_cons. right. exact Hx. }
    assert (NoDup (map fold_case (pre ++ c :: post))) as Hnd'.
    { cbn [map] in Hnd. apply NoDup_cons in Hnd as [_ Hnd]. exact Hnd. }
    destruct (bool_decide (p ∈ cols)) eqn:Hin.
    + apply IH; [exact Hnd'|eapply loop_inv_skip; eassumption|exact Hpre'
                |exact Hc|exact Hf].
    + apply bool_decide_eq_false in Hin.
      destruct (Hpre p ltac:(apply elem_of_cons; left; reflexivity)) as [Hp|Hp];
        [contradiction|].
      rewrite (refused_in_loop _ _ _ Hinv), Hp.
      apply IH; [exact Hnd'|apply loop_inv_add; assumption|exact Hpre'
                |exact Hc|exact Hf].
Qed.

End Loop.

Lemma loop_inv_start cs live : loop_inv live cs live.
Proof.
  exists []. split; [rewrite app_nil_r; reflexivity|].
  intros a x Ha. destruct (not_elem_of_nil a Ha).
Qed.

(** The columns a block adds have pairwise different names. *)
Lemma migrated_columns_names tbl : NoDup (map fold_case (migrated_columns tbl)).
Proof.
  unfold migrated_columns.
  destruct (String.eqb tbl "queries"); [compute_done|].
  destruct (String.eqb tbl "students"); [compute_done|].
  destruct (String.eqb tbl "admins"); [compute_done|constructor].
Qed.

Lemma migrated_columns_nodup tbl : NoDup (migrated_columns tbl).
Proof. apply fold_nodup_nodup, migrated_columns_names. Qed.


(** *** One run *)

Lemma table_after_other ef tbl live :
  tbl ≠ "queries"%string → tbl ≠ "students"%string → tbl ≠ "admins"%string →
  table_after ef tbl live = live.
Proof.
  intros Hq Hs Ha. unfold table_after, migrated_columns.
  destruct (String.eqb_spec tbl "queries"); [contradiction|].
  destruct (String.eqb_spec tbl "students"); [contradiction|].
  destruct (String.eqb_spec tbl "admins"); [contradiction|].
  destruct (ef (TableInfo tbl)); reflexivity.
Qed.

Lemma altered_lookup ef (s : schema) tbl :
  alter (table_after ef "admins") "admins"
    (alter (table_after ef "students") "students"
       (alter (table_after ef "queries") "queries" s)) !! tbl
  = table_after ef tbl <$> s !! tbl.
Proof.
  destruct (decide (tbl = "admins"%string)) as [->|Ha].
  { rewrite lookup_alter_eq, !lookup_alter_ne by discriminate. reflexivity. }
  rewrite lookup_alter_ne by congruence.
  destruct (decide (tbl = "students"%string)) as [->|Hs].
  { rewrite lookup_alter_eq, !lookup_alter_ne by discriminate. reflexivity. }
  rewrite lookup_alter_ne by congruence.
  destruct (decide (tbl = "queries"%string)) as [->|Hq].
  { rewrite lookup_alter_eq. reflexivity. }
  rewrite lookup_alter_ne by congruence.
  destruct (s !! tbl) as [live|]; [|reflexivity]. cbn.
  rewrite table_after_other by assumption. reflexivity.
Qed.

(** A table that existed before the run holds afterwards what its own
    block made of it. *)
Lemma migrate_lookup ef (s : schema) tbl live :
  s !! tbl = Some live →
  (migrate_additive_schema ef s).1 !! tbl = Some (table_after ef tbl live).
Proof.
  intros Hs. rewrite migrate_schema.
  assert (alter (table_after ef "admins") "admins"
            (alter (table_after ef "students") "students"
               (alter (table_after ef "queries") "queries" s)) !! tbl
          = Some (table_after ef tbl live)) as H.
  { rewrite altered_lookup, Hs. reflexivity. }
  destruct (ef CreateAll); [exact H|]. apply lookup_union_Some_l, H.
Qed.

Lemma table_after_appends ef tbl live :
  ∃ added, table_after ef tbl live = live ++ added.
Proof.
  unfold table_after. destruct (ef (TableInfo tbl)).
  - exists []. rewrite app_nil_r. reflexivity.
  - apply run_columns_appends.
Qed.

Lemma try_block_log_keeps (b : B unit) msg st x :
  x ∈ st.2 → x ∈ (try_block b msg st).2.
Proof.
  intros Hx. rewrite try_block_log. destruct ((b st.1).1); [exact Hx|].
  apply elem_of_app. left. exact Hx.
Qed.

Lemma try_block_log_raise (b : B unit) msg st :
  (b st.1).1 = None → msg ∈ (try_block b msg st).2.
Proof.
  intros H. rewrite try_block_log, H. apply elem_of_app. right.
  apply list_elem_of_singleton. reflexivity.
Qed.

Lemma loop_block_raises ef tbl (tail : list string → B unit) (s : schema) live :
  s !! tbl = Some live →
  ef (TableInfo tbl) = false →
  (run_columns ef live tbl (migrated_columns tbl) live).1 = false →
  (bbind (table_info ef tbl)
     (fun cols =>
        bbind (ensure_columns ef cols tbl (migrated_columns tbl))
          (fun _ => tail cols)) s).1 = None.
Proof.
  intros Hs Hti Hflag. unfold bbind, table_info. rewrite Hti, Hs. cbn [default].
  rewrite (ensure_columns_run ef live tbl _ live s Hs), Hflag. reflexivity.
Qed.

(** A block whose loop was cut short logs its message. *)
Lemma migrate_logs_cut ef (s : schema) tbl live :
  migrated_columns tbl ≠ [] →
  s !! tbl = Some live →
  ef (TableInfo tbl) = false →
  (run_columns ef live tbl (migrated_columns tbl) live).1 = false →
  block_message tbl ∈ (migrate_additive_schema ef s).2.
Proof.
  intros Hne Hs Hti Hflag. unfold migrate_additive_schema.
  set (st0 := (s, @nil string)).
  set (st1 := try_block (queries_block ef) "Migration error for queries columns" st0).
  set (st2 := try_block (students_block ef)
                "Migration error for students.is_blocked" st1).
  assert (st1.1 = alter (table_after ef "queries") "queries" s) as E1.
  { unfold st1. rewrite try_block_schema. apply queries_block_schema. }
  assert (st2.1 = alter (table_after ef "students") "students" st1.1) as E2.
  { unfold st2. rewrite try_block_schema. apply students_block_schema. }
  unfold migrated_columns, block_message in *.
  destruct (String.eqb_spec tbl "queries") as [->|Hq].
  { do 3 apply try_block_log_keeps. apply try_block_log_raise.
    rewrite queries_block_loop. eapply loop_block_raises; eassumption. }
  destruct (String.eqb_spec tbl "students") as [->|Hst].
  { do 2 apply try_block_log_keeps. apply try_block_log_raise.
    rewrite students_block_loop. eapply loop_block_raises; [|exact Hti|exact Hflag].
    rewrite E1, lookup_alter_ne by discriminate. exact Hs. }
  destruct (String.eqb_spec tbl "admins") as [->|Had]; [|contradiction].
  apply try_block_log_keeps. apply try_block_log_raise.
  rewrite admins_block_loop. eapply loop_block_raises; [|exact Hti|exact Hflag].
  rewrite E2, E1, !lookup_alter_ne by discriminate. exact Hs.
Qed.

(** C6. Column additions are applied at once and never taken back, and
    a failure stays inside the block of its table. An addition is
    refused when the engine refuses the statement or when the table has
    a column of that name in whatever spelling. Every table keeps its
    columns through the run. For a table that existed and whose columns
    could be read: a column is listed afterwards when it and every
    column the block handles before it was listed from the start or was
    not refused, whatever happens to other tables; and the first
    addition of a block that is refused is logged with the message of
    the block and ends it: the refused column and the later columns of
    the same table that were not listed are not listed afterwards
    either. *)
Theorem migration_failure_isolation ef (s : schema) :
  extends s (migrate_additive_schema ef s).1
  ∧ ∀ tbl pre c post live,
      migrated_columns tbl = pre ++ c :: post →
      s !! tbl = Some live →
      ef (TableInfo tbl) = false →
      (∀ x, x ∈ pre → x ∈ live ∨ refused ef tbl live x = false) →
      (c ∈ live ∨ refused ef tbl live c = false →
       has_column (migrate_additive_schema ef s).1 tbl c)
      ∧ (c ∉ live → refused ef tbl live c = true →
         block_message tbl ∈ (migrate_additive_schema ef s).2
         ∧ ∀ x, x ∈ c :: post → x ∉ live →
                ¬ has_column (migrate_additive_schema ef s).1 tbl x).
Proof.
  split.
  - intros tbl live Hs. rewrite (migrate_lookup ef s tbl live Hs).
    destruct (table_after_appends ef tbl live) as [added ->]. exists added.
    reflexivity.
  - intros tbl pre c post live Hmig Hs Hti Hpre.
    pose proof (migrated_columns_names tbl) as Hnd. rewrite Hmig in Hnd.
    pose proof (migrate_lookup ef s tbl live Hs) as Hlook.
    unfold table_after in Hlook. rewrite Hti, Hmig in Hlook.
    split.
    + intros Hc. eexists. split; [exact Hlook|].
      apply run_columns_adds; [exact Hnd|apply loop_inv_start|exact Hpre|exact Hc].
    + intros Hfresh Hc.
      destruct (run_columns_stops ef live tbl pre c post live Hnd
                  (loop_inv_start _ _) Hpre Hfresh Hc) as [Hflag Hstay].
      split.
      * apply (migrate_logs_cut ef s tbl live); [|exact Hs|exact Hti|].
        -- rewrite Hmig. destruct pre; discriminate.
        -- rewrite Hmig. exact Hflag.
      * intros x Hx Hxl (live' & Hl' & Hin). rewrite Hlook in Hl'.
        injection Hl' as <-. exact (Hstay x Hx Hxl Hin).
Qed.

(** The sample: on the old schema the second addition for [queries]
    is refused by the engine. *)
Lemma migration_failure_isolation_witness :
  let ef := fails_on "queries" "admin_reply_at" in
  let r := migrate_additive_schema ef old_schema in
  extends old_schema r.1
  ∧ has_column r.1 "queries" "admin_reply_text"
  ∧ block_message "queries" ∈ r.2
  ∧ ¬ has_column r.1 "queries" "admin_reply_seen".
Proof.
  cbn zeta.
  set (ef := fails_on "queries" "admin_reply_at").
  set (live := ["id"; "name"; "email"; "message"; "status"; "response";
                "admin_response"; "student_id"; "created_at"]%string).
  assert (old_schema !! "queries"%string = Some live) as Hlive
      by (vm_compute; reflexivity).
  destruct (migration_failure_isolation ef old_schema) as [Hext Hcols].
  split; [exact Hext|]. split.
  - apply (proj1 (Hcols "queries"%string [] "admin_reply_text"%string
                    ["admin_reply_at"; "admin_reply_seen"; "category"]%string
                    live eq_refl Hlive eq_refl
                    (fun x Hx => False_ind _ (not_elem_of_nil x Hx)))).
    right. reflexivity.
  - assert (∀ x, x ∈ ["admin_reply_text"%string]
                 → x ∈ live ∨ refused ef "queries" live x = false) as Hpre.
    { intros x Hx. apply list_elem_of_singleton in Hx. subst x. right. reflexivity. }
    assert ("admin_reply_at"%string ∉ live) as Hfresh by compute_done.
    destruct (proj2 (Hcols "queries"%string ["admin_reply_text"%string]
                       "admin_reply_at"%string
                       ["admin_reply_seen"; "category"]%string
                       live eq_refl Hlive eq_refl Hpre)
                Hfresh eq_refl) as [Hlog Hmiss].
    split; [exact Hlog|].
    apply Hmiss; compute_done.
Defined.


(** The run of the sample: the first addition for [queries] is refused,
    the next one, which the engine would accept, is never tried. *)
Lemma refused_addition_skips_later_columns :
  let ef := fails_on "queries" "admin_reply_text" in
  let r := migrate_additive_schema ef old_schema in
  ef (AddColumn "queries" "admin_reply_at") = false
  ∧ r.1 !! "queries"%string = old_schema !! "queries"%string
  ∧ ¬ has_column r.1 "queries" "admin_reply_at"
  ∧ has_column r.1 "students" "is_blocked"
  ∧ r.2 = ["Migration error for queries columns"%string].
Proof.
  cbn zeta. split; [reflexivity|]. split; [vm_compute; reflexivity|].
  split; [|split].
  - intros (live & Hl & Hin). vm_compute in Hl. injection Hl as <-.
    revert Hin. apply (bool_decide_unpack (_ ∉ _)). vm_compute. exact I.
  - eexists. split; [vm_compute; reflexivity|]. compute_done.
  - vm_compute. reflexivity.
Qed.

(** *** A second run *)

Lemma ensure_columns_present ef cols tbl cs (s : schema) :
  (∀ c, c ∈ cs → c ∈ cols) →
  ensure_columns ef cols tbl cs s = (Some tt, s).
Proof.
  induction cs as [|c cs IH]; intros H; cbn [ensure_columns]; [reflexivity|].
  unfold bbind, ensure_column.
  rewrite bool_decide_true by (apply H, elem_of_cons; left; reflexivity).
  cbn [bret]. apply IH. intros x Hx. apply H, elem_of_cons. right. exact Hx.
Qed.

Lemma queries_block_noop (s : schema) live :
  s !! "queries"%string = Some live →
  (∀ c, c ∈ migrated_columns "queries" → c ∈ live) →
  queries_block healthy s = (Some tt, s).
Proof.
  intros Hs Hall. rewrite queries_block_loop.
  unfold bbind at 1, table_info. cbn [healthy]. rewrite Hs. cbn [default].
  unfold bbind at 1. rewrite (ensure_columns_present _ _ _ _ _ Hall).
  rewrite bool_decide_true by (apply Hall; compute_done). reflexivity.
Qed.

Lemma students_block_noop (s : schema) live :
  s !! "students"%string = Some live →
  (∀ c, c ∈ migrated_columns "students" → c ∈ live) →
  students_block healthy s = (Some tt, s).
Proof.
  intros Hs Hall. rewrite students_block_loop.
  unfold bbind at 1, table_info. cbn [healthy]. rewrite Hs. cbn [default].
  unfold bbind at 1. rewrite (ensure_columns_present _ _ _ _ _ Hall).
  rewrite bool_decide_true by (apply Hall; compute_done). reflexivity.
Qed.

Lemma admins_block_noop (s : schema) live :
  s !! "admins"%string = Some live →
  (∀ c, c ∈ migrated_columns "admins" → c ∈ live) →
  admins_block healthy s = (Some tt, s).
Proof.
  intros Hs Hall. rewrite admins_block_loop.
  unfold bbind at 1, table_info. cbn [healthy]. rewrite Hs. cbn [default].
  unfold bbind at 1. rewrite (ensure_columns_present _ _ _ _ _ Hall).
  reflexivity.
Qed.

Lemma union_declared_id (s : schema) :
  (∀ k, is_Some (declared_schema !! k) → is_Some (s !! k)) →
  s ∪ declared_schema = s.
Proof.
  intros H. apply map_eq. intros k. rewrite lookup_union.
  destruct (s !! k) as [l|] eqn:Hs; [destruct (declared_schema !! k); reflexivity|].
  destruct (declared_schema !! k) as [l|] eqn:Hd; [|reflexivity].
  destruct (H k) as [l' Hl']; [rewrite Hd; eexists; reflexivity|].
  rewrite Hs in Hl'. discriminate Hl'.
Qed.

(** With every migrated column in place and every declared table
    there, a run on a healthy engine does nothing and logs nothing. *)
Lemma migrate_noop (s : schema) :
  (∀ k, is_Some (declared_schema !! k) → is_Some (s !! k)) →
  (∀ tbl live c, s !! tbl = Some live → c ∈ migrated_columns tbl → c ∈ live) →
  migrate_additive_schema healthy s = (s, []).
Proof.
  intros Hdecl Hcols.
  destruct (Hdecl "queries"%string) as [lq Hq]; [vm_compute; eauto|].
  destruct (Hdecl "students"%string) as [ls Hs]; [vm_compute; eauto|].
  destruct (Hdecl "admins"%string) as [la Ha]; [vm_compute; eauto|].
  unfold migrate_additive_schema.
  unfold try_block at 4. cbn [fst snd].
  rewrite (queries_block_noop s lq Hq) by (intros c; apply Hcols; exact Hq).
  unfold try_block at 3. cbn [fst snd].
  rewrite (students_block_noop s ls Hs) by (intros c; apply Hcols; exact Hs).
  unfold try_block at 2. cbn [fst snd].
  rewrite (admins_block_noop s la Ha) by (intros c; apply Hcols; exact Ha).
  unfold try_block, create_all. cbn [healthy fst snd].
  rewrite union_declared_id by exact Hdecl. reflexivity.
Qed.

Lemma declared_lookup tbl l :
  declared_schema !! tbl = Some l →
  NoDup l ∧ ∀ c, c ∈ migrated_columns tbl → c ∈ l.
Proof.
  unfold declared_schema, declared_tables. cbn [list_to_map foldr uncurry].
  unfold migrated_columns.
  rewrite lookup_insert. case_decide as H1.
  { subst tbl. intros [= <-]. split; [compute_done|].
    intros c Hc. revert c Hc. apply Forall_forall. compute_done. }
  rewrite lookup_insert. case_decide as H2.
  { subst tbl. intros [= <-]. split; [compute_done|].
    intros c Hc. revert c Hc. apply Forall_forall. compute_done. }
  rewrite lookup_insert. case_decide as H3.
  { subst tbl. intros [= <-]. split; [compute_done|].
    intros c Hc. revert c Hc. apply Forall_forall. compute_done. }
  rewrite lookup_insert. case_decide as H4.
  { subst tbl. intros [= <-]. split; [compute_done|].
    intros c Hc. revert c Hc. apply Forall_forall. compute_done. }
  rewrite lookup_insert. case_decide as H5.
  { subst tbl. intros [= <-]. split; [compute_done|].
    intros c Hc. revert c Hc. apply Forall_forall. compute_done. }
  rewrite lookup_empty. discriminate.
Qed.

Lemma run_columns_present ef cols tbl cs live :
  (∀ c, c ∈ cs → c ∈ cols) → run_columns ef cols tbl cs live = (true, live).
Proof.
  induction cs as [|c cs IH]; intros H; cbn [run_columns]; [reflexivity|].
  rewrite bool_decide_true by (apply H, elem_of_cons; left; reflexivity).
  apply IH. intros x Hx. apply H, elem_of_cons. right. exact Hx.
Qed.

(** On a healthy engine the loop, run again on what it left, stops
    where it stopped before and adds nothing. *)
Lemma run_columns_again tbl cs :
  ∀ cols live,
    NoDup (map fold_case cs) →
    loop_inv cols cs live →
    run_columns healthy (run_columns healthy cols tbl cs live).2 tbl cs
      (run_columns healthy cols tbl cs live).2
    = run_columns healthy cols tbl cs live.
Proof.
  induction cs as [|c cs IH]; intros cols live Hnd Hinv; [reflexivity|].
  assert (NoDup (map fold_case cs)) as Hnd'.
  { cbn [map] in Hnd. apply NoDup_cons in Hnd as [_ Hnd]. exact Hnd. }
  cbn [run_columns]. destruct (bool_decide (c ∈ cols)) eqn:Hin.
  - apply bool_decide_eq_true in Hin.
    cbn [run_columns]. rewrite bool_decide_true.
    + apply IH; [exact Hnd'|eapply loop_inv_skip; exact Hinv].
    + apply run_columns_keeps. eapply loop_inv_keeps; eassumption.
  - apply bool_decide_eq_false in Hin.
    destruct (refused healthy tbl live c) eqn:Href.
    + cbn [fst snd run_columns].
      rewrite bool_decide_false by (eapply loop_inv_fresh; eassumption).
      rewrite Href. reflexivity.
    + cbn [run_columns]. rewrite bool_decide_true.
      * apply IH; [exact Hnd'|apply loop_inv_add; assumption].
      * apply run_columns_keeps. apply elem_of_app. right.
        apply list_elem_of_singleton. reflexivity.
Qed.

Lemma table_after_again tbl live :
  table_after healthy tbl (table_after healthy tbl live)
  = table_after healthy tbl live.
Proof.
  unfold table_after. cbn [healthy].
  rewrite (run_columns_again tbl (migrated_columns tbl) live live
             (migrated_columns_names tbl) (loop_inv_start _ _)).
  reflexivity.
Qed.

(** A column of the same name in another spelling stops the loop. *)
Lemma run_columns_clash tbl cols c cs :
  ∀ live,
    NoDup (map fold_case cs) →
    loop_inv cols cs live →
    c ∈ cs → c ∉ cols → names cols c = true →
    (run_columns healthy cols tbl cs live).1 = false.
Proof.
  induction cs as [|h cs IH]; intros live Hnd Hinv Hc Hfresh Hname.
  { destruct (not_elem_of_nil c Hc). }
  assert (NoDup (map fold_case cs)) as Hnd'.
  { cbn [map] in Hnd. apply NoDup_cons in Hnd as [_ Hnd]. exact Hnd. }
  cbn [run_columns]. destruct (bool_decide (h ∈ cols)) eqn:Hin.
  - apply bool_decide_eq_true in Hin. apply elem_of_cons in Hc as [->|Hc];
      [contradiction|].
    apply IH; [exact Hnd'|eapply loop_inv_skip; exact Hinv|assumption..].
  - destruct (refused healthy tbl live h) eqn:Href; [reflexivity|].
    apply elem_of_cons in Hc as [->|Hc].
    + rewrite (refused_in_loop _ _ _ _ _ _ Hinv) in Href.
      unfold refused in Href. cbn [healthy orb] in Href. congruence.
    + apply IH; [exact Hnd'|apply loop_inv_add; assumption|assumption..].
Qed.

(** The tables after a run on a healthy engine: what its block made of
    a table that existed, and the declared columns of one that
    [create_all] created. *)
Lemma migrate_healthy_lookup (s : schema) tbl :
  (migrate_additive_schema healthy s).1 !! tbl
  = match s !! tbl with
    | Some live => Some (table_after healthy tbl live)
    | None => declared_schema !! tbl
    end.
Proof.
  destruct (s !! tbl) as [live|] eqn:Hs.
  - apply migrate_lookup, Hs.
  - rewrite migrate_schema. cbn [healthy].
    apply lookup_union_r. rewrite altered_lookup, Hs. reflexivity.
Qed.

Lemma table_after_declared tbl l :
  declared_schema !! tbl = Some l → table_after healthy tbl l = l.
Proof.
  intros Hd. unfold table_after. cbn [healthy].
  rewrite run_columns_present; [reflexivity|].
  exact (proj2 (declared_lookup tbl l Hd)).
Qed.

(** A second run on a healthy engine leaves the schema of the first. *)
Lemma migrate_again_schema (s : schema) :
  (migrate_additive_schema healthy (migrate_additive_schema healthy s).1).1
  = (migrate_additive_schema healthy s).1.
Proof.
  apply map_eq. intros tbl. rewrite (migrate_healthy_lookup _ tbl).
  rewrite (migrate_healthy_lookup s tbl).
  destruct (s !! tbl) as [live|].
  - rewrite table_after_again. reflexivity.
  - destruct (declared_schema !! tbl) as [l|] eqn:Hd; [|reflexivity].
    rewrite (table_after_declared tbl l Hd). reflexivity.
Qed.

Lemma migrate_nodup (s : schema) :
  (∀ tbl live, s !! tbl = Some live → NoDup live) →
  ∀ tbl live, (migrate_additive_schema healthy s).1 !! tbl = Some live → NoDup live.
Proof.
  intros Hnd tbl live. rewrite migrate_healthy_lookup.
  destruct (s !! tbl) as [live0|] eqn:Hs.
  - intros [= <-]. unfold table_after. cbn [healthy]. apply run_columns_nodup.
    exact (Hnd tbl live0 Hs).
  - intros Hd. exact (proj1 (declared_lookup tbl live Hd)).
Qed.

(** Without a clash a run on a healthy engine puts every declared table
    and every migrated column in place. *)
Lemma migrate_completes (s : schema) :
  ¬ clashes s →
  let s1 := (migrate_additive_schema healthy s).1 in
  (∀ k, is_Some (declared_schema !! k) → is_Some (s1 !! k))
  ∧ (∀ tbl live c, s1 !! tbl = Some live → c ∈ migrated_columns tbl → c ∈ live).
Proof.
  intros Hclash. cbn zeta. split.
  - intros k Hk. rewrite migrate_schema. cbn [healthy].
    apply lookup_union_is_Some. right. exact Hk.
  - intros tbl live c. rewrite migrate_healthy_lookup.
    destruct (s !! tbl) as [live0|] eqn:Hs.
    + intros [= <-] Hc. unfold table_after. cbn [healthy].
      assert (∀ x, x ∈ migrated_columns tbl
                   → x ∈ live0 ∨ refused healthy tbl live0 x = false) as Hok.
      { intros x Hx. destruct (decide (x ∈ live0)) as [Hin|Hin]; [left; exact Hin|].
        right. unfold refused. cbn [healthy orb].
        destruct (names live0 x) eqn:Hn; [|reflexivity].
        exfalso. apply Hclash. exists tbl, live0, x. repeat split; assumption. }
      destruct (list_elem_of_split _ _ Hc) as (pre & post & Hsplit).
      rewrite Hsplit. apply run_columns_adds.
      * rewrite <- Hsplit. apply migrated_columns_names.
      * apply loop_inv_start.
      * intros x Hx. apply Hok. rewrite Hsplit. apply elem_of_app. left. exact Hx.
      * apply Hok, Hc.
    + intros Hd Hc. exact (proj2 (declared_lookup tbl live Hd) c Hc).
Qed.

(** With a clash the block of that table logs its error, also in a run
    on what an earlier run left. *)
Lemma migrate_again_logs (s : schema) :
  clashes s →
  (migrate_additive_schema healthy (migrate_additive_schema healthy s).1).2 ≠ [].
Proof.
  intros (tbl & live & c & Hs & Hc & Hfresh & Hname) Hnil.
  assert (block_message tbl
          ∈ (migrate_additive_schema healthy
               (migrate_additive_schema healthy s).1).2) as Hlog.
  { apply (migrate_logs_cut healthy _ tbl (table_after healthy tbl live)).
    - intros E. rewrite E in Hc. destruct (not_elem_of_nil c Hc).
    - rewrite migrate_healthy_lookup, Hs. reflexivity.
    - reflexivity.
    - unfold table_after. cbn [healthy].
      rewrite (run_columns_again tbl (migrated_columns tbl) live live
                 (migrated_columns_names tbl) (loop_inv_start _ _)).
      apply (run_columns_clash tbl live c);
        [apply migrated_columns_names|apply loop_inv_start|assumption..]. }
  rewrite Hnil in Hlog. destruct (not_elem_of_nil _ Hlog).
Qed.

(** C7. On an engine that refuses nothing for reasons of its own, a
    second run of the migration leaves the schema exactly as the first
    run left it, for every schema, and no table has a column twice when
    none had before. The second run logs no error if and only if no
    table holds, for a column the routine adds, a column of the same
    name in another spelling. *)
Theorem migration_is_idempotent (s : schema) :
  let r1 := migrate_additive_schema healthy s in
  let r2 := migrate_additive_schema healthy r1.1 in
  r2.1 = r1.1
  ∧ (r2.2 = [] ↔ ¬ clashes s)
  ∧ ((∀ tbl live, s !! tbl = Some live → NoDup live) →
     ∀ tbl live, r2.1 !! tbl = Some live → NoDup live).
Proof.
  cbn zeta. split; [apply migrate_again_schema|]. split.
  - split.
    + intros Hnil Hclash. exact (migrate_again_logs s Hclash Hnil).
    + intros Hclash. destruct (migrate_completes s Hclash) as (Hdecl & Hcols).
      rewrite (migrate_noop _ Hdecl Hcols). reflexivity.
  - intros Hnd. rewrite migrate_again_schema. apply migrate_nodup, Hnd.
Qed.

(** The sample: two runs on the old schema. *)
Lemma migration_is_idempotent_witness :
  let r1 := migrate_additive_schema healthy old_schema in
  let r2 := migrate_additive_schema healthy r1.1 in
  (∀ tbl live, old_schema !! tbl = Some live → NoDup live)
  ∧ ¬ clashes old_schema
  ∧ r2.1 = r1.1
  ∧ r2.2 = []
  ∧ ∀ tbl live, r2.1 !! tbl = Some live → NoDup live.
Proof.
  cbn zeta.
  assert (∀ tbl live, old_schema !! tbl = Some live →
            NoDup live
            ∧ ∀ c, c ∈ migrated_columns tbl → c ∉ live → names live c = false)
    as Hold.
  { intros tbl live. unfold old_schema. cbn [list_to_map foldr uncurry].
    rewrite lookup_insert. case_decide as H1.
    { subst tbl. intros [= <-]. split; [compute_done|].
      refine (proj1 (Forall_forall (fun c => c ∉ _ → names _ c = false) _) _).
      compute_done. }
    rewrite lookup_insert. case_decide as H2.
    { subst tbl. intros [= <-]. split; [compute_done|].
      refine (proj1 (Forall_forall (fun c => c ∉ _ → names _ c = false) _) _).
      compute_done. }
    rewrite lookup_insert. case_decide as H3.
    { subst tbl. intros [= <-]. split; [compute_done|].
      refine (proj1 (Forall_forall (fun c => c ∉ _ → names _ c = false) _) _).
      compute_done. }
    rewrite lookup_empty. discriminate. }
  assert (¬ clashes old_schema) as Hclash.
  { intros (tbl & live & c & Hs & Hc & Hn & Hname).
    rewrite (proj2 (Hold tbl live Hs) c Hc Hn) in Hname. discriminate Hname. }
  destruct (migration_is_idempotent old_schema) as (Hsame & Hlog & Hdup).
  split; [exact (fun tbl live H => proj1 (Hold tbl live H))|].
  split; [exact Hclash|]. split; [exact Hsame|].
  split; [exact (proj2 Hlog Hclash)|].
  exact (Hdup (fun tbl live H => proj1 (Hold tbl live H))).
Defined.

(** A table created with a capitalised [Category] column: the routine
    looks for [category], does not find that spelling, and SQLite
    refuses the addition as a duplicate. That happens again in every
    run, so the second run logs an error as well. *)
Lemma second_run_logs_for_cased_column :
  let r1 := migrate_additive_schema healthy cased_schema in
  let r2 := migrate_additive_schema healthy r1.1 in
  r1.1 !! "queries"%string = cased_schema !! "queries"%string
  ∧ r2.1 = r1.1
  ∧ r2.2 = ["Migration error for queries columns"%string]
  ∧ r2.2 ≠ [].
Proof.
  cbn zeta. split; [vm_compute; reflexivity|].
  split; [apply migrate_again_schema|].
  assert ((migrate_additive_schema healthy
             (migrate_additive_schema healthy cased_schema).1).2
          = ["Migration error for queries columns"%string]) as H
      by (vm_compute; reflexivity).
  split; [exact H|]. rewrite H. discriminate.
Qed.

End ReconcilerFacts.

(** * Further properties *)

(** ** Access control *)

(** X1. Without an admin session [update_status], [toggle_faq] and every
    view under the decorator [admin_required] leave the store as it is:
    the answer is the redirect to the admin login and one error flash,
    and the view is not run. [student_dashboard] does the same for a
    visitor without student session. *)
Theorem handlers_refuse_without_session fl py_int cfg now d :
  (∀ sess form, sess_admin_logged_in sess = false →
     run (update_status fl cfg now sess form) d
     = (Some (Redirect AdminLogin), d, [EvFlash "Please log in as admin" "error"]))
  ∧ (∀ sess fid, sess_admin_logged_in sess = false →
       run (toggle_faq fl sess fid) d
       = (Some (Redirect AdminLogin), d, [EvFlash "Please log in as admin" "error"]))
  ∧ (∀ sess (view : M response), sess_admin_logged_in sess = false →
       run (admin_required sess view) d
       = (Some (Redirect AdminLogin), d, [EvFlash "Please log in as admin" "error"]))
  ∧ (∀ sess, sess_student_logged_in sess = false →
       run (student_dashboard fl py_int sess) d
       = (Some (Redirect StudentLogin), d,
          [EvFlash "Please log in as a student" "error"])).
Proof.
  repeat split; intros;
    unfold run, update_status, toggle_faq, admin_required, student_dashboard;
    match goal with H : _ = false |- _ => rewrite H end; reflexivity.
Qed.

(** The sample: a visitor without any session. *)
Lemma handlers_refuse_without_session_witness :
  run (update_status no_faults Sample.cfg 100 Sample.anonymous
         (mkStatusForm (Some 1) (Some "Resolved") (Some "Spam"))) Sample.db
  = (Some (Redirect AdminLogin), Sample.db,
     [EvFlash "Please log in as admin" "error"])
  ∧ run (mark_query_as_faq no_op_faults 100 Sample.anonymous 1) Sample.db
    = (Some (Redirect AdminLogin), Sample.db,
       [EvFlash "Please log in as admin" "error"])
  ∧ run (student_dashboard no_faults Sample.no_int Sample.anonymous) Sample.db
    = (Some (Redirect StudentLogin), Sample.db,
       [EvFlash "Please log in as a student" "error"]).
Proof.
  destruct (handlers_refuse_without_session no_faults Sample.no_int Sample.cfg 100
              Sample.db) as (Hu & _ & Ha & Hd).
  split; [exact (Hu Sample.anonymous _ eq_refl)|].
  split; [exact (Ha Sample.anonymous _ eq_refl)|].
  exact (Hd Sample.anonymous eq_refl).
Defined.

(** ** Blocking students *)

Lemma op_commit_ok xf s w :
  xf s = false →
  op_commit xf s w
  = (Val tt, mkWorld (pending w) (pending w) (trace w ++ [EvCommit true])).
Proof. unfold op_commit. intros ->. reflexivity. Qed.

Lemma op_commit_fail xf s w :
  xf s = true →
  op_commit xf s w
  = (Exc, mkWorld (committed w) (pending w) (trace w ++ [EvCommit false])).
Proof. unfold op_commit. intros ->. reflexivity. Qed.

Lemma toggle_block_student_run xf sess sid d s :
  sess_admin_logged_in sess = true →
  get_student sid d = Some s →
  xf BlockStudentCommit = false →
  run (toggle_block_student xf sess sid) d
  = (Some (Redirect AdminDashboard),
     update_student sid (fun s => set_blocked (negb (s_is_blocked s)) s) d,
     [EvCommit true; EvFlash "Student block status updated" "success"]).
Proof.
  intros Hadm Hget Hc. unfold run, toggle_block_student, admin_required.
  rewrite Hadm. cbn [negb].
  unfold bind at 1, session_db at 1. cbn [pending]. rewrite Hget.
  rewrite (bind_val _ _ _ _ _ (modify_run _ _)). cbn [pending committed trace].
  rewrite (bind_val _ _ _ _ _ (op_commit_ok _ _ _ Hc)). cbn [pending committed trace].
  unfold flash. rewrite (bind_val _ _ _ _ _ (emit_run _ _)). reflexivity.
Qed.

Lemma get_student_id k d s : get_student k d = Some s → s_id s = k.
Proof.
  unfold get_student. intros H. apply find_some in H as [_ H].
  apply Z.eqb_eq in H. exact H.
Qed.

Lemma get_student_update k d s g :
  get_student k d = Some s → s_id (g s) = k →
  get_student k (update_student k g d) = Some (g s).
Proof.
  unfold get_student, update_student, with_students. cbn [students].
  intros H Hid. induction (students d) as [|a l IH]; cbn [find map] in *;
    [discriminate H|].
  destruct (Z.eqb_spec (s_id a) k) as [Ha|Ha].
  - injection H as ->. rewrite Hid, Z.eqb_refl. reflexivity.
  - destruct (Z.eqb_spec (s_id a) k); [contradiction|]. apply IH, H.
Qed.

Lemma update_student_involutive k d :
  update_student k (fun s => set_blocked (negb (s_is_blocked s)) s)
    (update_student k (fun s => set_blocked (negb (s_is_blocked s)) s) d) = d.
Proof.
  unfold update_student, with_students. destruct d as [qs ss bs fs].
  cbn [queries students blocked_emails faqs]. f_equal.
  rewrite map_map. rewrite <- (map_id ss) at 2. apply map_ext. intros s.
  destruct (Z.eqb_spec (s_id s) k) as [Hs|Hs].
  - cbn [set_blocked s_id]. destruct (Z.eqb_spec (s_id s) k); [|contradiction].
    destruct s as [si sh sn se sp sb]. cbn. rewrite negb_involutive. reflexivity.
  - destruct (Z.eqb_spec (s_id s) k); [contradiction|reflexivity].
Qed.

Lemma toggle_block_student_twice_aux xf sess sid d s :
  sess_admin_logged_in sess = true →
  get_student sid d = Some s →
  xf BlockStudentCommit = false →
  db_of (run (toggle_block_student xf sess sid)
           (db_of (run (toggle_block_student xf sess sid) d))) = d.
Proof.
  intros Hadm Hget H1.
  rewrite (toggle_block_student_run xf sess sid d s Hadm Hget H1).
  cbn [db_of fst snd].
  rewrite (toggle_block_student_run xf sess sid _
             (set_blocked (negb (s_is_blocked s)) s) Hadm
             (get_student_update sid d s
                (fun s => set_blocked (negb (s_is_blocked s)) s) Hget
                (get_student_id _ _ _ Hget)) H1).
  cbn [db_of fst snd]. apply update_student_involutive.
Qed.

(** X2. Blocking is a switch: for an existing student two calls of
    [toggle_block_student] in a row, both committed, leave the store
    exactly as it was. *)
Theorem toggle_block_student_twice xf1 xf2 sess sid d s :
  sess_admin_logged_in sess = true →
  get_student sid d = Some s →
  xf1 BlockStudentCommit = false →
  xf2 BlockStudentCommit = false →
  db_of (run (toggle_block_student xf2 sess sid)
           (db_of (run (toggle_block_student xf1 sess sid) d))) = d.
Proof.
  intros Hadm Hget H1 H2.
  rewrite (toggle_block_student_run xf1 sess sid d s Hadm Hget H1).
  cbn [db_of fst snd].
  rewrite (toggle_block_student_run xf2 sess sid _
             (set_blocked (negb (s_is_blocked s)) s) Hadm
             (get_student_update sid d s
                (fun s => set_blocked (negb (s_is_blocked s)) s) Hget
                (get_student_id _ _ _ Hget)) H2).
  cbn [db_of fst snd]. apply update_student_involutive.
Qed.

(** The sample: Eve is unblocked and blocked again. *)
Lemma toggle_block_student_twice_witness :
  get_student 8 Sample.db = Some Sample.eve
  ∧ db_of (run (toggle_block_student no_op_faults Sample.as_admin 8)
             (db_of (run (toggle_block_student no_op_faults Sample.as_admin 8)
                       Sample.db))) = Sample.db.
Proof.
  split; [reflexivity|].
  exact (toggle_block_student_twice no_op_faults no_op_faults Sample.as_admin 8
           Sample.db Sample.eve eq_refl eq_refl eq_refl eq_refl).
Defined.

Lemma reject_blocked_pass_student fl k s email w :
  k ≠ 0 →
  get_student k (pending w) = Some s →
  s_is_blocked s = false →
  reject_blocked fl (Some k) email w = (Val tt, w).
Proof.
  intros Hk Hs Hb. unfold reject_blocked. cbn [fk_truthy].
  destruct (Z.eqb_spec k 0) as [|_]; [contradiction|]. cbn [negb].
  unfold try_except, bind, db_call, session_db.
  destruct (fl StudentGet); [reflexivity|]. rewrite Hs, Hb. reflexivity.
Qed.

(** A submission by a student whose block flag is set ends at the gate
    at the latest. *)
Lemma submit_query_blocked_student_run fl py_int now sess referrer form d k s :
  sess_student_id sess = Some (SInt k) →
  k ≠ 0 →
  fl StudentGet = false →
  get_student k d = Some s →
  s_is_blocked s = true →
  (∃ e, run (submit_query fl py_int now sess referrer form) d
        = (Some (Redirect e), d, [EvFlash "All fields are required" "error"]))
  ∨ run (submit_query fl py_int now sess referrer form) d
    = (Some (Redirect StudentDashboard), d,
       [EvFlash "Your account has been blocked" "error"]).
Proof.
  intros Hs Hk Hf Hget Hb. unfold run, submit_query.
  fold (sub_name form) (sub_email form) (sub_category form) (sub_message form).
  destruct (negb (Py.truthy (sub_name form)) || negb (Py.truthy (sub_email form))
            || negb (Py.truthy (sub_message form))).
  - left. eexists. reflexivity.
  - right. rewrite Hs.
    rewrite (bind_val _ _ _ _ _
               (eq_refl : resolve_student_fk fl py_int _ (Some (SInt k)) _ = _)).
    rewrite (bind_ret _ _ _ _ _ (reject_blocked_student fl k s _ d [] Hk Hf Hget Hb)).
    reflexivity.
Qed.

(** X3. The block flag decides over a student's submissions, as long
    as the gate's lookup of the student answers. Take a student who
    exists and is not blocked, whose key is not zero and is the numeric
    key the session holds, a submission with name, address and message
    filled in, an engine on which the gate's lookup of the student and
    the commit of the query do not raise, and a working commit of the
    toggle. Once [toggle_block_student] has set the flag, the
    submission is refused with "Your account has been blocked" and
    stores nothing; once a second call has cleared it, the same
    submission is accepted and the new query carries the student's
    key. *)
Theorem block_flag_gates_submissions xf fl py_int now admin sess referrer form
    sid d s :
  sess_admin_logged_in admin = true →
  get_student sid d = Some s →
  s_is_blocked s = false →
  sid ≠ 0 →
  xf BlockStudentCommit = false →
  fl StudentGet = false →
  fl QueryCommit = false →
  sess_student_id sess = Some (SInt sid) →
  Py.truthy (sub_name form) = true →
  Py.truthy (sub_email form) = true →
  Py.truthy (sub_message form) = true →
  let d1 := db_of (run (toggle_block_student xf admin sid) d) in
  let d2 := db_of (run (toggle_block_student xf admin sid) d1) in
  let R1 := run (submit_query fl py_int now sess referrer form) d1 in
  let R2 := run (submit_query fl py_int now sess referrer form) d2 in
  (rejected_with "Your account has been blocked" R1 ∧ db_of R1 = d1)
  ∧ (accepted R2
     ∧ ∃ q, queries (db_of R2) = queries d ++ [q] ∧ q_student_id q = Some sid).
Proof.
  intros Hadm Hget Hunb Hk Hc Hf Hqc Hs Hn He Hm d1 d2 R1 R2.
  pose proof (get_student_id _ _ _ Hget) as Hid.
  assert (d1 = update_student sid (fun s => set_blocked (negb (s_is_blocked s)) s) d)
    as Hd1.
  { unfold d1. rewrite (toggle_block_student_run xf admin sid d s Hadm Hget Hc).
    reflexivity. }
  assert (get_student sid d1 = Some (set_blocked true s)) as Hget1.
  { rewrite Hd1.
    rewrite (get_student_update sid d s
               (fun s => set_blocked (negb (s_is_blocked s)) s) Hget Hid).
    rewrite Hunb. reflexivity. }
  assert (d2 = d) as Hd2.
  { unfold d2, d1.
    exact (toggle_block_student_twice_aux xf admin sid d s Hadm Hget Hc). }
  split.
  - destruct (submit_query_blocked_student_run fl py_int now sess referrer form
                d1 sid _ Hs Hk Hf Hget1 eq_refl) as [[e E]|E]; fold R1 in E.
    + exfalso. revert E. unfold R1, run, submit_query.
      fold (sub_name form) (sub_email form) (sub_category form) (sub_message form).
      rewrite Hn, He, Hm. cbn [negb orb]. rewrite Hs.
      rewrite (bind_val _ _ _ _ _
                 (eq_refl : resolve_student_fk fl py_int _ (Some (SInt sid)) _ = _)).
      rewrite (bind_ret _ _ _ _ _
                 (reject_blocked_student fl sid _ _ d1 [] Hk Hf Hget1 eq_refl)).
      cbn. intros E. discriminate E.
    + rewrite E. split; reflexivity.
  - unfold R2. rewrite Hd2.
    assert (resolve_student_fk fl py_int StudentResolve (sess_student_id sess)
              (mkWorld d d []) = (Val (Some sid), mkWorld d d [])) as Hfk
        by (rewrite Hs; reflexivity).
    assert (reject_blocked fl (Some sid) (sub_email form) (mkWorld d d [])
            = (Val tt, mkWorld d d [])) as Hrb
        by (apply (reject_blocked_pass_student fl sid s); assumption).
    destruct (submit_query_run fl py_int now sess referrer form d (Some sid)
                Hn He Hm Hfk Hrb Hqc) as (evs & E & Hin).
    rewrite E. split.
    + unfold accepted. cbn [trace_of snd]. right. exact Hin.
    + cbn [db_of fst snd]. rewrite queries_after_faq.
      eexists. split; reflexivity.
Qed.

(** The sample: Bob is blocked, writes, is unblocked and writes again. *)
Lemma block_flag_gates_submissions_witness :
  let form := Sample.guest_form "bob@x.com" "Where is the exam hall?" in
  let d1 := db_of (run (toggle_block_student no_op_faults Sample.as_admin 7)
                     Sample.db) in
  let d2 := db_of (run (toggle_block_student no_op_faults Sample.as_admin 7) d1) in
  rejected_with "Your account has been blocked"
    (run (submit_query no_faults Sample.no_int 100 (Sample.as_student 7) None form)
       d1)
  ∧ accepted
      (run (submit_query no_faults Sample.no_int 100 (Sample.as_student 7) None form)
         d2).
Proof.
  intros form d1 d2.
  assert (7 ≠ 0) as H7 by lia.
  pose proof (block_flag_gates_submissions no_op_faults no_faults Sample.no_int 100
                Sample.as_admin (Sample.as_student 7) None form 7 Sample.db
                Sample.bob eq_refl eq_refl eq_refl H7 eq_refl eq_refl eq_refl
                eq_refl eq_refl eq_refl eq_refl) as [[H1 _] [H2 _]].
  split; [exact H1|exact H2].
Defined.

(** ** Trimming and lower-casing *)

Lemma isspace_lower_char c : Py.isspace (Py.lower_char c) = Py.isspace c.
Proof. destruct c as [[] [] [] [] [] [] [] []]; reflexivity. Qed.

Lemma lower_char_idem c : Py.lower_char (Py.lower_char c) = Py.lower_char c.
Proof. destruct c as [[] [] [] [] [] [] [] []]; reflexivity. Qed.

Lemma lower_idem s : Py.lower (Py.lower s) = Py.lower s.
Proof.
  induction s as [|c s IH]; cbn [Py.lower]; [reflexivity|].
  rewrite lower_char_idem, IH. reflexivity.
Qed.

Lemma lstrip_lower s : Py.lstrip (Py.lower s) = Py.lower (Py.lstrip s).
Proof.
  induction s as [|c s IH]; cbn [Py.lower Py.lstrip]; [reflexivity|].
  rewrite isspace_lower_char. destruct (Py.isspace c); [exact IH|reflexivity].
Qed.

Lemma rstrip_lower s : Py.rstrip (Py.lower s) = Py.lower (Py.rstrip s).
Proof.
  induction s as [|c s IH]; cbn [Py.lower Py.rstrip]; [reflexivity|].
  rewrite IH, isspace_lower_char.
  destruct (Py.rstrip s); cbn [Py.lower]; [|reflexivity].
  destruct (Py.isspace c); reflexivity.
Qed.

Lemma strip_lower s : Py.strip (Py.lower s) = Py.lower (Py.strip s).
Proof. unfold Py.strip. rewrite lstrip_lower, rstrip_lower. reflexivity. Qed.

Lemma lstrip_length s : (String.length (Py.lstrip s) <= String.length s)%nat.
Proof.
  induction s as [|c s IH]; cbn [Py.lstrip String.length]; [lia|].
  destruct (Py.isspace c); cbn [String.length]; lia.
Qed.

Lemma lstrip_fixed_head c s :
  Py.lstrip (String c s) = String c s → Py.isspace c = false.
Proof.
  cbn [Py.lstrip]. destruct (Py.isspace c); [|reflexivity].
  intros H. pose proof (lstrip_length s) as Hl. rewrite H in Hl.
  cbn [String.length] in Hl. lia.
Qed.

Lemma lstrip_idem s : Py.lstrip (Py.lstrip s) = Py.lstrip s.
Proof.
  induction s as [|c s IH]; cbn [Py.lstrip]; [reflexivity|].
  destruct (Py.isspace c) eqn:Hc; [exact IH|].
  cbn [Py.lstrip]. rewrite Hc. reflexivity.
Qed.

Lemma rstrip_idem s : Py.rstrip (Py.rstrip s) = Py.rstrip s.
Proof.
  induction s as [|c s IH]; cbn [Py.rstrip]; [reflexivity|].
  destruct (Py.rstrip s) as [|a r] eqn:Hr.
  - destruct (Py.isspace c) eqn:Hc; cbn [Py.rstrip]; [reflexivity|].
    rewrite Hc. reflexivity.
  - cbn [Py.rstrip] in *. rewrite IH. reflexivity.
Qed.

Lemma lstrip_rstrip s :
  Py.lstrip s = s → Py.lstrip (Py.rstrip s) = Py.rstrip s.
Proof.
  destruct s as [|c s]; [reflexivity|]. intros H.
  pose proof (lstrip_fixed_head c s H) as Hc. cbn [Py.rstrip].
  destruct (Py.rstrip s); [rewrite Hc|]; cbn [Py.lstrip]; rewrite Hc; reflexivity.
Qed.

Lemma strip_idem s : Py.strip (Py.strip s) = Py.strip s.
Proof.
  unfold Py.strip. rewrite lstrip_rstrip by apply lstrip_idem.
  apply rstrip_idem.
Qed.

Lemma blocked_key_some e : blocked_key (Some e) = Py.lower (Py.strip e).
Proof. unfold blocked_key, Py.or_. destruct e; reflexivity. Qed.

(** The key of a key is the key. *)
Lemma blocked_key_idem x : blocked_key (Some (blocked_key x)) = blocked_key x.
Proof.
  rewrite blocked_key_some. unfold blocked_key.
  rewrite strip_lower, lower_idem, strip_idem. reflexivity.
Qed.

(** ** Blocking guest addresses *)

Lemma toggle_block_guest_run_new xf now sess x d :
  sess_admin_logged_in sess = true →
  Py.truthy (Some (blocked_key x)) = true →
  find (fun b => String.eqb (b_email b) (blocked_key x)) (blocked_emails d) = None →
  xf BlockGuestCommit = false →
  run (toggle_block_guest xf now sess x) d
  = (Some (Redirect AdminDashboard),
     with_blocked_emails
       (blocked_emails d ++ [new_block_entry now (blocked_key x) (blocked_emails d)]) d,
     [EvCommit true; EvFlash "Guest email block status updated" "success"]).
Proof.
  intros Hadm Hkey Hfind Hc. unfold run, toggle_block_guest, admin_required.
  rewrite Hadm, Hkey. cbn [negb].
  unfold bind at 1, session_db at 1. cbn [pending]. rewrite Hfind.
  rewrite (bind_val _ _ _ _ _ (modify_run _ _)). cbn [pending committed trace].
  rewrite (bind_val _ _ _ _ _ (op_commit_ok _ _ _ Hc)). cbn [pending committed trace].
  unfold flash. rewrite (bind_val _ _ _ _ _ (emit_run _ _)). reflexivity.
Qed.

Lemma toggle_block_guest_run_old xf now sess x d b :
  sess_admin_logged_in sess = true →
  Py.truthy (Some (blocked_key x)) = true →
  find (fun b => String.eqb (b_email b) (blocked_key x)) (blocked_emails d) = Some b →
  xf BlockGuestCommit = false →
  run (toggle_block_guest xf now sess x) d
  = (Some (Redirect AdminDashboard),
     update_blocked_email (b_id b) toggle_entry d,
     [EvCommit true; EvFlash "Guest email block status updated" "success"]).
Proof.
  intros Hadm Hkey Hfind Hc. unfold run, toggle_block_guest, admin_required.
  rewrite Hadm, Hkey. cbn [negb].
  unfold bind at 1, session_db at 1. cbn [pending]. rewrite Hfind.
  rewrite (bind_val _ _ _ _ _ (modify_run _ _)). cbn [pending committed trace].
  rewrite (bind_val _ _ _ _ _ (op_commit_ok _ _ _ Hc)). cbn [pending committed trace].
  unfold flash. rewrite (bind_val _ _ _ _ _ (emit_run _ _)). reflexivity.
Qed.

(** Whatever the request, the store afterwards is the old one, the old
    one with a new entry, or the old one with one entry switched. *)
Lemma toggle_block_guest_cases xf now sess x d :
  db_of (run (toggle_block_guest xf now sess x) d) = d
  ∨ (find (fun b => String.eqb (b_email b) (blocked_key x)) (blocked_emails d) = None
     ∧ db_of (run (toggle_block_guest xf now sess x) d)
       = with_blocked_emails
           (blocked_emails d
              ++ [new_block_entry now (blocked_key x) (blocked_emails d)]) d)
  ∨ (∃ b, find (fun b => String.eqb (b_email b) (blocked_key x)) (blocked_emails d)
          = Some b
          ∧ db_of (run (toggle_block_guest xf now sess x) d)
            = update_blocked_email (b_id b) toggle_entry d).
Proof.
  destruct (sess_admin_logged_in sess) eqn:Hadm.
  2:{ left. unfold run, toggle_block_guest, admin_required. rewrite Hadm. reflexivity. }
  destruct (Py.truthy (Some (blocked_key x))) eqn:Hkey.
  2:{ left. unfold run, toggle_block_guest, admin_required. rewrite Hadm, Hkey.
      reflexivity. }
  destruct (xf BlockGuestCommit) eqn:Hc.
  { left. unfold run, toggle_block_guest, admin_required. rewrite Hadm, Hkey.
    cbn [negb]. unfold bind at 1, session_db at 1. cbn [pending].
    destruct (find _ (blocked_emails d));
      rewrite (bind_val _ _ _ _ _ (modify_run _ _));
      rewrite (bind_exc _ _ _ _ (op_commit_fail _ _ _ Hc)); reflexivity. }
  destruct (find (fun b => String.eqb (b_email b) (blocked_key x)) (blocked_emails d))
    as [b|] eqn:Hfind.
  - right. right. exists b. split; [reflexivity|].
    rewrite (toggle_block_guest_run_old xf now sess x d b Hadm Hkey Hfind Hc).
    reflexivity.
  - right. left. split; [reflexivity|].
    rewrite (toggle_block_guest_run_new xf now sess x d Hadm Hkey Hfind Hc).
    reflexivity.
Qed.

Lemma find_map_same {A} (p : A → bool) (f : A → A) l :
  (∀ a, p (f a) = p a) → find p (map f l) = option_map f (find p l).
Proof.
  intros H. induction l as [|a l IH]; cbn [map find]; [reflexivity|].
  rewrite H. destruct (p a); [reflexivity|exact IH].
Qed.






Lemma find_none_not_in_emails key bs :
  find (fun b => String.eqb (b_email b) key) bs = None → ¬ In key (map b_email bs).
Proof.
  intros H Hin. apply in_map_iff in Hin as (b & Hb & Hin).
  pose proof (find_none _ _ H b Hin) as Hn. cbn in Hn.
  rewrite Hb, String.eqb_refl in Hn. discriminate Hn.
Qed.

(** X5. [toggle_block_guest] keeps the table of blocked addresses well
    formed, whatever the request and whether or not its commit
    succeeds: if no address had two entries and every address was
    stored trimmed and in lower case, the same holds afterwards. *)
Theorem toggle_block_guest_keeps_table xf now sess x d :
  blocked_table_ok (blocked_emails d) →
  blocked_table_ok (blocked_emails (db_of (run (toggle_block_guest xf now sess x) d))).
Proof.
  intros [Hnd Hnorm].
  destruct (toggle_block_guest_cases xf now sess x d)
    as [->|[[Hfind ->]|(b & Hfind & ->)]].
  - split; assumption.
  - cbn [with_blocked_emails blocked_emails]. split.
    + rewrite map_app. apply NoDup_app. split; [exact Hnd|]. split.
      * intros e He He'. cbn in He'. apply list_elem_of_singleton in He'. subst e.
        apply list_elem_of_In in He. exact (find_none_not_in_emails _ _ Hfind He).
      * apply NoDup_singleton.
    + intros b Hb. apply in_app_or in Hb as [Hb|[<-|[]]]; [apply Hnorm, Hb|].
      cbn [new_block_entry b_email]. apply blocked_key_idem.
  - cbn [update_blocked_email with_blocked_emails blocked_emails]. split.
    + rewrite map_map.
      rewrite (map_ext _ b_email); [exact Hnd|].
      intros a. destruct (b_id a =? b_id b); reflexivity.
    + intros a Ha. apply in_map_iff in Ha as (a0 & <- & Ha0).
      destruct (b_id a0 =? b_id b); cbn [toggle_entry set_entry_active b_email];
        apply Hnorm, Ha0.
Qed.

(** The sample: the table with its one address, and a second address
    entered. *)
Lemma toggle_block_guest_keeps_table_witness :
  blocked_table_ok (blocked_emails Sample.db)
  ∧ blocked_table_ok
      (blocked_emails
         (db_of (run (toggle_block_guest no_op_faults 100 Sample.as_admin
                        (Some "Spam@X.com ")) Sample.db))).
Proof.
  assert (blocked_table_ok (blocked_emails Sample.db)) as Hok.
  { split.
    - constructor; [intros Hin; inversion Hin|constructor].
    - intros b [<-|[]]. reflexivity. }
  split; [exact Hok|].
  exact (toggle_block_guest_keeps_table no_op_faults 100 Sample.as_admin
           (Some "Spam@X.com ") Sample.db Hok).
Defined.

Lemma next_block_id_fresh (bs : list BlockedEmail) g :
  map (fun b => if b_id b =? next_id (map b_id bs) then g b else b) bs = bs.
Proof.
  assert (∀ l k, (∀ b, In b l → b_id b < k) →
            map (fun b => if b_id b =? k then g b else b) l = l) as H.
  { induction l as [|a l IH]; intros k Hk; cbn [map]; [reflexivity|].
    rewrite IH by (intros b Hb; apply Hk; right; exact Hb).
    destruct (Z.eqb_spec (b_id a) k) as [Ha|]; [|reflexivity].
    specialize (Hk a (or_introl eq_refl)). lia. }
  apply H. intros b Hb. apply next_id_gt, in_map, Hb.
Qed.

Lemma reject_blocked_pass_guest fl email w :
  (∀ b, In b (blocked_emails (pending w)) →
        b_email b = Py.lower (Py.strip (Py.text email)) → b_is_active b = false) →
  reject_blocked fl None email w = (Val tt, w).
Proof.
  intros H. unfold reject_blocked. cbn [fk_truthy].
  unfold try_except, bind, db_call, session_db.
  destruct (Py.truthy email); [|reflexivity].
  destruct (fl BlockedLookup); [reflexivity|].
  destruct (find _ (blocked_emails (pending w))) as [b|] eqn:Hfind; [|reflexivity].
  apply find_some in Hfind as [Hin Hp]. apply andb_prop in Hp as [He Ha].
  apply String.eqb_eq in He. rewrite (H b Hin He) in Ha. discriminate Ha.
Qed.

(** X6. An address blocked by [toggle_block_guest] is blocked in every
    spelling, as long as the gate's lookup of blocked addresses
    answers. Take a non-blank address that has no entry so far, a
    working commit of the toggle, a submission without student key in
    the session, with name, address and message filled in and an
    address of the same trimmed lower-case form, and an engine on which
    the lookup of blocked addresses and the commit of the query do not
    raise. After the call has created the entry, the submission is
    refused with "This email is blocked from submitting queries" and
    stores nothing. After a second call has switched the entry off, the
    same submission is accepted. *)
Theorem guest_block_gates_submissions xf fl py_int now now' admin sess referrer
    form x d :
  sess_admin_logged_in admin = true →
  Py.truthy (Some (blocked_key x)) = true →
  find (fun b => String.eqb (b_email b) (blocked_key x)) (blocked_emails d) = None →
  xf BlockGuestCommit = false →
  fl BlockedLookup = false →
  fl QueryCommit = false →
  sess_student_id sess = None →
  Py.truthy (sub_name form) = true →
  Py.truthy (sub_email form) = true →
  Py.truthy (sub_message form) = true →
  blocked_key (sub_email form) = blocked_key x →
  let d1 := db_of (run (toggle_block_guest xf now admin x) d) in
  let d2 := db_of (run (toggle_block_guest xf now admin x) d1) in
  let R1 := run (submit_query fl py_int now' sess referrer form) d1 in
  let R2 := run (submit_query fl py_int now' sess referrer form) d2 in
  (rejected_with "This email is blocked from submitting queries" R1 ∧ db_of R1 = d1)
  ∧ (accepted R2 ∧ ∃ q, queries (db_of R2) = queries d ++ [q]).
Proof.
  intros Hadm Hkey Hfind Hc Hbl Hqc Hs Hn He Hm Hsame d1 d2 R1 R2.
  set (entry := new_block_entry now (blocked_key x) (blocked_emails d)).
  assert (Py.lower (Py.strip (Py.text (sub_email form))) = blocked_key x) as Hk.
  { rewrite <- Hsame. unfold blocked_key. rewrite or_truthy by exact He. reflexivity. }
  assert (d1 = with_blocked_emails (blocked_emails d ++ [entry]) d) as Hd1.
  { unfold d1. rewrite (toggle_block_guest_run_new xf now admin x d Hadm Hkey Hfind Hc).
    reflexivity. }
  assert (find (fun b => String.eqb (b_email b) (blocked_key x)) (blocked_emails d1)
          = Some entry) as Hfind1.
  { rewrite Hd1. cbn [with_blocked_emails blocked_emails].
    rewrite find_app_none.
    - cbn [find entry new_block_entry b_email]. rewrite String.eqb_refl. reflexivity.
    - intros b Hb. exact (find_none _ _ Hfind b Hb). }
  assert (d2 = with_blocked_emails (blocked_emails d ++ [toggle_entry entry]) d)
    as Hd2.
  { unfold d2.
    rewrite (toggle_block_guest_run_old xf now admin x d1 entry Hadm Hkey Hfind1 Hc).
    cbn [db_of fst snd]. rewrite Hd1.
    unfold update_blocked_email, with_blocked_emails.
    cbn [queries students blocked_emails faqs]. f_equal.
    rewrite map_app. unfold entry at 1. cbn [new_block_entry b_id].
    rewrite next_block_id_fresh. cbn [map]. unfold entry at 1.
    cbn [new_block_entry b_id]. rewrite Z.eqb_refl. reflexivity. }
  split.
  - assert (∃ b, In b (blocked_emails d1) ∧ b_is_active b = true
                 ∧ b_email b = Py.lower (Py.strip (Py.text (sub_email form)))) as Hb.
    { exists entry. rewrite Hd1. cbn [with_blocked_emails blocked_emails].
      split; [apply in_or_app; right; left; reflexivity|].
      split; [reflexivity|]. rewrite Hk. reflexivity. }
    unfold R1, rejected_with, run, submit_query.
    fold (sub_name form) (sub_email form) (sub_category form) (sub_message form).
    rewrite Hn, He, Hm. cbn [negb orb]. rewrite Hs.
    rewrite (bind_val _ _ _ _ _
               (eq_refl : resolve_student_fk fl py_int _ None _ = _)).
    rewrite (bind_ret _ _ _ _ _ (reject_blocked_email fl _ d1 [] He Hbl Hb)).
    split; reflexivity.
  - assert (resolve_student_fk fl py_int StudentResolve (sess_student_id sess)
              (mkWorld d2 d2 []) = (Val None, mkWorld d2 d2 [])) as Hfk
        by (rewrite Hs; reflexivity).
    assert (reject_blocked fl None (sub_email form) (mkWorld d2 d2 [])
            = (Val tt, mkWorld d2 d2 [])) as Hrb.
    { apply reject_blocked_pass_guest. cbn [pending]. rewrite Hd2.
      cbn [with_blocked_emails blocked_emails]. intros b Hb Heq.
      apply in_app_or in Hb as [Hb|[<-|[]]]; [|reflexivity].
      exfalso. pose proof (find_none _ _ Hfind b Hb) as Hno. cbn in Hno.
      rewrite Heq, Hk, String.eqb_refl in Hno. discriminate Hno. }
    destruct (submit_query_run fl py_int now' sess referrer form d2 None
                Hn He Hm Hfk Hrb Hqc) as (evs & E & Hin).
    fold R2 in E. rewrite E. split.
    + unfold accepted. cbn [trace_of snd]. right. exact Hin.
    + cbn [db_of fst snd]. rewrite queries_after_faq. rewrite Hd2.
      eexists. reflexivity.
Qed.

(** The sample: an address is blocked in one spelling and used in
    another, then released. *)
Lemma guest_block_gates_submissions_witness :
  let form := Sample.guest_form " spam@x.com" "Where is the exam hall?" in
  let d1 := db_of (run (toggle_block_guest no_op_faults 100 Sample.as_admin
                          (Some "Spam@X.com ")) Sample.db) in
  let d2 := db_of (run (toggle_block_guest no_op_faults 100 Sample.as_admin
                          (Some "Spam@X.com ")) d1) in
  rejected_with "This email is blocked from submitting queries"
    (run (submit_query no_faults Sample.no_int 150 Sample.anonymous None form) d1)
  ∧ accepted
      (run (submit_query no_faults Sample.no_int 150 Sample.anonymous None form) d2).
Proof.
  intros form d1 d2.
  pose proof (guest_block_gates_submissions no_op_faults no_faults Sample.no_int
                100 150 Sample.as_admin Sample.anonymous None form
                (Some "Spam@X.com ") Sample.db
                eq_refl eq_refl eq_refl eq_refl eq_refl eq_refl eq_refl eq_refl
                eq_refl eq_refl eq_refl) as [[H1 _] [H2 _]].
  split; [exact H1|exact H2].
Defined.

(** ** What a submission does to the FAQ table *)

(** A submission either leaves the store as it is or is accepted. *)
Lemma submit_query_db_cases fl py_int now sess referrer form d :
  db_of (run (submit_query fl py_int now sess referrer form) d) = d
  ∨ ∃ fk,
      db_of (run (submit_query fl py_int now sess referrer form) d)
      = after_faq fl now form
          (with_queries (queries d ++ [submitted_query now form fk (queries d)]) d).
Proof.
  unfold run at 1, submit_query at 1.
  fold (sub_name form) (sub_email form) (sub_category form) (sub_message form).
  destruct (Py.truthy (sub_name form)) eqn:Hn; cbn [negb orb];
    [|left; reflexivity].
  destruct (Py.truthy (sub_email form)) eqn:He; cbn [negb orb];
    [|left; reflexivity].
  destruct (Py.truthy (sub_message form)) eqn:Hm; cbn [negb orb];
    [|left; reflexivity].
  destruct (resolve_student_fk_pure fl py_int StudentResolve
              (sess_student_id sess) (mkWorld d d [])) as [fk Hfk].
  rewrite (bind_val _ _ _ _ _ Hfk).
  destruct (reject_blocked_cases fl fk (sub_email form) (mkWorld d d []))
    as [Hrb|(e & msg & Hrb)].
  2:{ left. rewrite (bind_ret _ _ _ _ _ Hrb). reflexivity. }
  destruct (fl QueryCommit) eqn:Hc.
  { left. rewrite (bind_val _ _ _ _ _ Hrb).
    rewrite (bind_val _ _ _ _ _ (modify_run _ _)).
    rewrite (bind_exc _ _ _ _ (commit_fail _ _ _ Hc)). reflexivity. }
  right. exists fk.
  destruct (submit_query_run fl py_int now sess referrer form d fk Hn He Hm Hfk Hrb Hc)
    as (evs & E & _).
  rewrite E. reflexivity.
Qed.

Lemma faq_kept_refl f : faq_kept f f.
Proof. destruct f. split; [reflexivity|cbn; lia]. Qed.

Lemma faq_kept_same fs : Forall2 faq_kept fs fs.
Proof. induction fs; constructor; [apply faq_kept_refl|assumption]. Qed.

Lemma aggregate_keeps now t cat fs :
  ∃ kept tail,
    aggregate now t cat fs = kept ++ tail
    ∧ Forall2 faq_kept fs kept
    ∧ (length tail <= 1)%nat
    ∧ ∀ f, In f tail → f_question f = t ∧ f_frequency f = 1 ∧ f_is_active f = true.
Proof.
  unfold aggregate. destruct (find _ fs) as [f|].
  - exists (map (fun g => if f_id g =? f_id f
                          then set_frequency (f_frequency g + 1) g else g) fs), [].
    rewrite app_nil_r. split; [reflexivity|]. split; [|split; [cbn; lia|intros ? []]].
    induction fs as [|a fs IH]; cbn [map]; constructor; [|exact IH].
    destruct (f_id a =? f_id f); [|apply faq_kept_refl].
    destruct a. split; [reflexivity|cbn; lia].
  - exists fs, [new_faq now t cat fs]. split; [reflexivity|].
    split; [apply faq_kept_same|]. split; [cbn; lia|].
    intros f [<-|[]]. repeat split.
Qed.

(** X7. A submission never takes anything out of the FAQ table: for
    every request and every failure, each FAQ row is afterwards in its
    place with the same question, answer, category, origin and flag and
    a frequency that is the old one or one more, and at most one row was
    appended, active and with frequency 1. *)
Theorem submit_query_grows_faqs fl py_int now sess referrer form d :
  ∃ kept tail,
    faqs (db_of (run (submit_query fl py_int now sess referrer form) d))
    = kept ++ tail
    ∧ Forall2 faq_kept (faqs d) kept
    ∧ (length tail <= 1)%nat
    ∧ ∀ f, In f tail →
           f_question f = question_of form ∧ f_frequency f = 1
           ∧ f_is_active f = true.
Proof.
  destruct (submit_query_db_cases fl py_int now sess referrer form d)
    as [->|[fk ->]].
  - exists (faqs d), []. rewrite app_nil_r. split; [reflexivity|].
    split; [apply faq_kept_same|]. split; [cbn; lia|intros ? []].
  - unfold after_faq. destruct (fl FaqLookup || fl FaqCommit).
    + exists (faqs d), []. rewrite app_nil_r. split; [reflexivity|].
      split; [apply faq_kept_same|]. split; [cbn; lia|intros ? []].
    + cbn [with_faqs with_queries faqs]. apply aggregate_keeps.
Qed.

(** ** Curating the FAQ *)

Lemma stripped_some m : stripped (Some m) = Py.strip m.
Proof. unfold stripped, Py.or_. destruct m; reflexivity. Qed.







Lemma substring_prefix_length n s :
  (String.length (substring 0 n s) <= n)%nat
  ∧ String.prefix (substring 0 n s) s = true.
Proof.
  revert s. induction n as [|n IH]; intros s.
  - destruct s; cbn; split; (lia || reflexivity).
  - destruct s as [|c s]; cbn [substring String.length String.prefix].
    + split; [lia|reflexivity].
    + destruct (IH s) as [Hl Hp]. split; [lia|].
      destruct (ascii_dec c c); [exact Hp|contradiction].
Qed.

Lemma substring_short n s :
  (String.length s <= n)%nat → substring 0 n s = s.
Proof.
  revert s. induction n as [|n IH]; intros s Hl.
  - destruct s; [reflexivity|cbn in Hl; lia].
  - destruct s as [|c s]; [reflexivity|]. cbn [substring]. rewrite IH; [reflexivity|].
    cbn in Hl. lia.
Qed.

Lemma mark_query_as_faq_run xf now sess qid d q :
  sess_admin_logged_in sess = true →
  get_query qid d = Some q →
  xf PromoteCommit = false →
  run (mark_query_as_faq xf now sess qid) d
  = (Some (Redirect AdminDashboard),
     with_faqs (faqs d ++ [promoted_faq now q (faqs d)]) d,
     [EvCommit true; EvFlash "Query added to FAQs" "success"]).
Proof.
  intros Hadm Hget Hc. unfold run, mark_query_as_faq, admin_required.
  rewrite Hadm. cbn [negb].
  unfold bind at 1, session_db at 1. cbn [pending]. rewrite Hget.
  rewrite (bind_val _ _ _ _ _ (modify_run _ _)). cbn [pending committed trace].
  rewrite (bind_val _ _ _ _ _ (op_commit_ok _ _ _ Hc)). cbn [pending committed trace].
  unfold flash. rewrite (bind_val _ _ _ _ _ (emit_run _ _)). reflexivity.
Qed.

(** X9. Promoting a query appends one FAQ row and changes nothing else:
    the row is active, has frequency 1 and a key no row had, points back
    to the query, and its question is the trimmed message cut to 1000
    characters; the FAQ rows that existed and all queries are as before.
    For an unknown query the answer is 404 and nothing changes. *)
Theorem promotion_appends_linked_row xf now sess qid d :
  sess_admin_logged_in sess = true →
  let R := run (mark_query_as_faq xf now sess qid) d in
  (get_query qid d = None → R = (Some NotFound404, d, []))
  ∧ (∀ q, get_query qid d = Some q →
          xf PromoteCommit = false →
          ∃ f, faqs (db_of R) = faqs d ++ [f]
               ∧ get_faq (f_id f) d = None
               ∧ f_from_query_id f = Some qid
               ∧ f_is_active f = true
               ∧ f_frequency f = 1
               ∧ (String.length (f_question f) <= 1000)%nat
               ∧ String.prefix (f_question f) (Py.strip (q_message q)) = true
               ∧ queries (db_of R) = queries d).
Proof.
  intros Hadm R. split.
  - intros Hnone. unfold R, run, mark_query_as_faq, admin_required. rewrite Hadm.
    cbn [negb]. unfold bind, session_db. cbn [pending]. rewrite Hnone. reflexivity.
  - intros q Hget Hc. unfold R.
    rewrite (mark_query_as_faq_run xf now sess qid d q Hadm Hget Hc).
    cbn [db_of fst snd with_faqs faqs queries].
    exists (promoted_faq now q (faqs d)). split; [reflexivity|].
    split.
    { unfold get_faq. destruct (find _ (faqs d)) as [g|] eqn:Hf; [|reflexivity].
      apply find_some in Hf as [Hin Hid]. apply Z.eqb_eq in Hid.
      pose proof (faq_ids_below_next (faqs d) g Hin) as Hlt.
      cbn [promoted_faq f_id] in Hid. lia. }
    cbn [promoted_faq f_from_query_id f_is_active f_frequency f_question].
    rewrite (get_query_id _ _ _ Hget), stripped_some.
    destruct (substring_prefix_length 1000 (Py.strip (q_message q))) as [Hl Hp].
    repeat split; assumption.
Qed.

(** The sample: the guest's query becomes an FAQ row. *)
Lemma promotion_appends_linked_row_witness :
  ∃ f, faqs (db_of (run (mark_query_as_faq no_op_faults 100 Sample.as_admin 1)
                      Desk.tables)) = faqs Desk.tables ++ [f]
       ∧ f_from_query_id f = Some 1
       ∧ f_frequency f = 1.
Proof.
  destruct (promotion_appends_linked_row no_op_faults 100 Sample.as_admin 1
              Desk.tables eq_refl) as [_ H].
  destruct (H Sample.guest_row eq_refl eq_refl)
    as (f & Hf & _ & Hq & _ & Hfr & _).
  exists f. repeat split; assumption.
Defined.

Lemma rows_for_nil_questions t fs f :
  rows_for t fs = [] → In f fs → f_question f ≠ t.
Proof.
  intros Hnil Hin Heq.
  apply (filter_nil_not_elem_of _ _ f Hnil Heq). apply list_elem_of_In. exact Hin.
Qed.

Lemma rows_for_none t fs :
  (∀ f, In f fs → f_question f ≠ t) → rows_for t fs = [].
Proof.
  induction fs as [|a fs IH]; intros H; [reflexivity|].
  rewrite rows_for_cons.
  destruct (String.eqb_spec (f_question a) t) as [Heq|_].
  - destruct (H a (or_introl eq_refl) Heq).
  - apply IH. intros f Hf. apply H. right. exact Hf.
Qed.

(** The first active row for a question is the one a submission counts. *)
Lemma aggregate_bumps_first now t cat fs r rest :
  rows_for t fs = [] →
  f_question r = t →
  f_is_active r = true →
  (∀ f, In f (fs ++ rest) → f_id f ≠ f_id r) →
  aggregate now t cat (fs ++ r :: rest)
  = fs ++ set_frequency (f_frequency r + 1) r :: rest.
Proof.
  intros Hnil Hq Ha Hid. unfold aggregate.
  rewrite find_app_none by (intros f Hf; exact (rows_for_nil_no_match t fs f Hnil Hf)).
  cbn [find]. rewrite Hq, String.eqb_refl, Ha. cbn [andb].
  rewrite map_app. cbn [map]. rewrite Z.eqb_refl. f_equal; [|f_equal].
  - rewrite <- (map_id fs) at 2. apply map_ext_in. intros f Hf.
    destruct (Z.eqb_spec (f_id f) (f_id r)) as [E|]; [|reflexivity].
    destruct (Hid f (in_or_app _ _ _ (or_introl Hf)) E).
  - rewrite <- (map_id rest) at 2. apply map_ext_in. intros f Hf.
    destruct (Z.eqb_spec (f_id f) (f_id r)) as [E|]; [|reflexivity].
    destruct (Hid f (in_or_app _ _ _ (or_intror Hf)) E).
Qed.

Lemma get_query_appended d q :
  q_id q = next_id (map q_id (queries d)) →
  get_query (q_id q) (with_queries (queries d ++ [q]) d) = Some q.
Proof.
  intros Hid. unfold get_query. cbn [with_queries queries].
  rewrite find_app_none.
  - cbn [find]. rewrite Z.eqb_refl. reflexivity.
  - intros a Ha. apply Z.eqb_neq.
    pose proof (next_id_gt (map q_id (queries d)) (q_id a) (in_map _ _ _ Ha)). lia.
Qed.

Lemma question_of_stripped form : Py.strip (question_of form) = question_of form.
Proof. unfold question_of. apply strip_idem. Qed.

(** X10. Promotion does not look at the rows the submissions created.
    Take a question of at most 1000 characters that no FAQ row carries,
    an accepted submission of it, the promotion by an admin of the
    query that submission stored, and a further accepted submission of
    the same question, where the FAQ updates of both submissions
    succeed (neither lookup nor commit raises) and the commit of the
    promotion works. After the promotion two active rows carry the
    question, the counted one and the promoted one, each with frequency
    1; the further submission raises the first of the two to 2 and
    leaves the promoted one as it is. *)
Theorem promotion_duplicates_counted_question fl1 fl3 xf py_int now1 now2 now3
    sess1 sess3 ref1 ref3 admin form1 form3 d :
  let t := question_of form1 in
  let qid := next_id (map q_id (queries d)) in
  let R1 := run (submit_query fl1 py_int now1 sess1 ref1 form1) d in
  let R2 := run (mark_query_as_faq xf now2 admin qid) (db_of R1) in
  let R3 := run (submit_query fl3 py_int now3 sess3 ref3 form3) (db_of R2) in
  accepted R1 → accepted R3 →
  fl1 FaqLookup = false → fl1 FaqCommit = false →
  fl3 FaqLookup = false → fl3 FaqCommit = false →
  sess_admin_logged_in admin = true →
  xf PromoteCommit = false →
  rows_for t (faqs d) = [] →
  (String.length t <= 1000)%nat →
  question_of form3 = t →
  ∃ counted promoted,
    rows_for t (faqs (db_of R2)) = [counted; promoted]
    ∧ f_is_active counted = true ∧ f_is_active promoted = true
    ∧ f_frequency counted = 1 ∧ f_frequency promoted = 1
    ∧ f_from_query_id counted = None ∧ f_from_query_id promoted = Some qid
    ∧ rows_for t (faqs (db_of R3)) = [set_frequency 2 counted; promoted].
Proof.
  intros t qid R1 R2 R3 Ha1 Ha3 Hl1 Hc1 Hl3 Hc3 Hadm Hpc Hfresh Hlen Hsame.
  destruct (submit_query_accepted _ _ _ _ _ _ _ Ha1) as (fk1 & evs1 & E1 & _).
  fold R1 in E1. rewrite after_faq_ok in E1 by assumption.
  cbn [with_faqs with_queries faqs] in E1. fold t in E1.
  rewrite (aggregate_fresh _ _ _ _ Hfresh) in E1.
  set (counted := new_faq now1 t (stored_category form1) (faqs d)) in *.
  set (q := submitted_query now1 form1 fk1 (queries d)) in *.
  assert (get_query qid (db_of R1) = Some q) as Hget.
  { rewrite E1. cbn [db_of fst snd].
    exact (get_query_appended d q eq_refl). }
  pose proof (mark_query_as_faq_run xf now2 admin qid (db_of R1) q Hadm Hget Hpc)
    as E2.
  fold R2 in E2.
  assert (faqs (db_of R1) = faqs d ++ [counted]) as HF1
      by (rewrite E1; reflexivity).
  set (promoted := promoted_faq now2 q (faqs (db_of R1))) in *.
  assert (f_question promoted = t) as Hpq.
  { unfold promoted, promoted_faq. cbn [f_question]. rewrite stripped_some.
    unfold q. cbn [submitted_query q_message]. fold t.
    unfold t. rewrite question_of_stripped. apply substring_short. exact Hlen. }
  assert (faqs (db_of R2) = faqs d ++ [counted; promoted]) as HF2.
  { rewrite E2. cbn [db_of fst snd with_faqs faqs]. rewrite HF1, <- app_assoc.
    reflexivity. }
  destruct (submit_query_accepted _ _ _ _ _ _ _ Ha3) as (fk3 & evs3 & E3 & _).
  fold R3 in E3. rewrite after_faq_ok in E3 by assumption.
  assert (faqs (db_of R3) = faqs d ++ [set_frequency 2 counted; promoted]) as HF3.
  { rewrite E3. cbn [db_of fst snd with_faqs with_queries faqs].
    rewrite HF2, Hsame.
    rewrite (aggregate_bumps_first now3 t _ (faqs d) counted [promoted] Hfresh
               eq_refl eq_refl); [reflexivity|].
    intros f Hf. apply in_app_or in Hf as [Hf|[<-|[]]].
    - pose proof (faq_ids_below_next (faqs d) f Hf) as Hlt.
      cbn [counted new_faq f_id]. lia.
    - unfold promoted. cbn [promoted_faq counted new_faq f_id]. rewrite HF1.
      pose proof (next_id_gt (map f_id (faqs d ++ [counted]))
                    (f_id counted)) as Hlt.
      cbn [counted new_faq f_id] in Hlt. 
      specialize (Hlt ltac:(rewrite map_app; apply in_or_app; right; left; reflexivity)).
      lia. }
  exists counted, promoted.
  split.
  { rewrite HF2, rows_for_app, Hfresh, !rows_for_cons. cbn [app].
    rewrite Hpq, String.eqb_refl. cbn [counted new_faq f_question].
    rewrite String.eqb_refl. reflexivity. }
  split; [reflexivity|]. split; [reflexivity|]. split; [reflexivity|].
  split; [reflexivity|]. split; [reflexivity|]. split; [reflexivity|].
  rewrite HF3, rows_for_app, Hfresh, !rows_for_cons. cbn [app].
  rewrite Hpq, String.eqb_refl. cbn [set_frequency counted new_faq f_question].
  rewrite String.eqb_refl. reflexivity.
Qed.

(** The sample: a new question is asked, promoted and asked again. *)
Lemma promotion_duplicates_counted_question_witness :
  let form := Sample.guest_form "carol@x.com" "Where can I park?" in
  let R1 := run (submit_query no_faults Sample.no_int 100 Sample.anonymous None form)
              Desk.tables in
  let R2 := run (mark_query_as_faq no_op_faults 110 Sample.as_admin 4) (db_of R1) in
  let R3 := run (submit_query no_faults Sample.no_int 120 Sample.anonymous None form)
              (db_of R2) in
  ∃ counted promoted,
    rows_for "Where can I park?" (faqs (db_of R2)) = [counted; promoted]
    ∧ rows_for "Where can I park?" (faqs (db_of R3))
      = [set_frequency 2 counted; promoted].
Proof.
  intros form R1 R2 R3.
  assert (accepted R1) as H1 by (vm_compute; in_trace).
  assert (accepted R3) as H3 by (vm_compute; in_trace).
  assert (String.length (question_of form) <= 1000)%nat as Hlen
    by (vm_compute; lia).
  destruct (promotion_duplicates_counted_question no_faults no_faults no_op_faults
              Sample.no_int 100 110 120 Sample.anonymous Sample.anonymous None None
              Sample.as_admin form form Desk.tables H1 H3 eq_refl eq_refl eq_refl
              eq_refl eq_refl eq_refl eq_refl Hlen eq_refl)
    as (counted & promoted & Hr2 & _ & _ & _ & _ & _ & _ & Hr3).
  exists counted, promoted. split; [exact Hr2|exact Hr3].
Defined.

Lemma admin_faq_post_run xf now sess question answer d :
  sess_admin_logged_in sess = true →
  Py.truthy (Some (stripped question)) = true →
  xf AddFaqCommit = false →
  run (admin_faq xf now sess POST question answer) d
  = (Some (Render "admin_faq.html"),
     with_faqs (faqs d ++
       [mkFAQ (next_id (map f_id (faqs d))) (stripped question)
              (Py.or_ (Some (stripped answer)) None) 1 None None true now]) d,
     [EvCommit true; EvFlash "FAQ added" "success"]).
Proof.
  intros Hadm Hq Hc. unfold run, admin_faq, admin_required.
  rewrite Hadm, Hq. cbn [negb].
  unfold bind at 1.
  rewrite (bind_val _ _ _ _ _ (modify_run _ _)). cbn [pending committed trace].
  rewrite (bind_val _ _ _ _ _ (op_commit_ok _ _ _ Hc)). cbn [pending committed trace].
  unfold flash. rewrite emit_run. reflexivity.
Qed.

(** X11. A question an administrator writes into the FAQ is counted by
    the submissions that follow. For a POST by an admin: a blank
    question adds nothing. A non-blank question that no row carried yet
    is appended, when the commit works, as an active row with frequency
    1 and with the trimmed answer entered (unset when blank); an
    accepted submission of that question whose FAQ update succeeds
    (neither its lookup nor its commit raises) then raises this row to
    frequency 2, keeps its answer and appends no row. *)
Theorem authored_faq_is_counted xf fl py_int now now' admin sess referrer form
    question answer d :
  sess_admin_logged_in admin = true →
  let t := stripped question in
  let d1 := db_of (run (admin_faq xf now admin POST question answer) d) in
  let R := run (submit_query fl py_int now' sess referrer form) d1 in
  (t = "" → d1 = d)
  ∧ (t ≠ "" →
     xf AddFaqCommit = false →
     rows_for t (faqs d) = [] →
     ∃ f, faqs d1 = faqs d ++ [f]
          ∧ f_question f = t ∧ f_frequency f = 1 ∧ f_is_active f = true
          ∧ f_answer f = Py.or_ (Some (stripped answer)) None
          ∧ (accepted R → fl FaqLookup = false → fl FaqCommit = false →
             question_of form = t →
             faqs (db_of R) = faqs d ++ [set_frequency 2 f])).
Proof.
  intros Hadm t d1 R. split.
  - intros Ht. unfold d1, run, admin_faq, admin_required. rewrite Hadm.
    fold t. rewrite Ht. reflexivity.
  - intros Ht Hc Hfresh.
    assert (Py.truthy (Some t) = true) as Htr by (destruct t; [contradiction|reflexivity]).
    set (f := mkFAQ (next_id (map f_id (faqs d))) t
                    (Py.or_ (Some (stripped answer)) None) 1 None None true now).
    assert (faqs d1 = faqs d ++ [f]) as HF1.
    { unfold d1. rewrite (admin_faq_post_run xf now admin question answer d Hadm Htr Hc).
      reflexivity. }
    exists f. split; [exact HF1|].
    split; [reflexivity|]. split; [reflexivity|]. split; [reflexivity|].
    split; [reflexivity|].
    intros Hacc Hl Hfc Hq.
    destruct (submit_query_accepted _ _ _ _ _ _ _ Hacc) as (fk & evs & E & _).
    fold R in E. rewrite E. cbn [db_of fst snd].
    rewrite after_faq_ok by assumption. cbn [with_faqs with_queries faqs].
    rewrite HF1, Hq.
    rewrite (aggregate_bumps_first now' t _ (faqs d) f [] Hfresh eq_refl eq_refl);
      [reflexivity|].
    intros g Hg. rewrite app_nil_r in Hg.
    pose proof (faq_ids_below_next (faqs d) g Hg) as Hlt. cbn [f f_id]. lia.
Qed.

(** The sample: an administrator enters a question with its answer, and
    a visitor asks it. *)
Lemma authored_faq_is_counted_witness :
  let d1 := db_of (run (admin_faq no_op_faults 100 Sample.as_admin POST
                          (Some " Where can I park? ") (Some "Behind the gym."))
                     Desk.tables) in
  let R := run (submit_query no_faults Sample.no_int 120 Sample.anonymous None
                  (Sample.guest_form "carol@x.com" "Where can I park?")) d1 in
  ∃ f, faqs d1 = faqs Desk.tables ++ [f]
       ∧ f_answer f = Some "Behind the gym."
       ∧ faqs (db_of R) = faqs Desk.tables ++ [set_frequency 2 f].
Proof.
  intros d1 R.
  assert (accepted R) as Hacc by (vm_compute; in_trace).
  assert (stripped (Some " Where can I park? ") ≠ "") as Hne
    by (vm_compute; discriminate).
  destruct (authored_faq_is_counted no_op_faults no_faults Sample.no_int 100 120
              Sample.as_admin Sample.anonymous None
              (Sample.guest_form "carol@x.com" "Where can I park?")
              (Some " Where can I park? ") (Some "Behind the gym.") Desk.tables
              eq_refl) as [_ H].
  destruct (H Hne eq_refl eq_refl) as (f & Hf & _ & _ & _ & Ha & Hsub).
  exists f. split; [exact Hf|]. split; [exact Ha|].
  exact (Hsub Hacc eq_refl eq_refl eq_refl).
Defined.

(** ** The quick reply *)

Lemma get_query_update_fun k d q0 (g : Query → Query) :
  get_query k d = Some q0 → q_id (g q0) = k →
  get_query k (update_query k g d) = Some (g q0).
Proof.
  unfold get_query, update_query, with_queries. cbn [queries].
  intros H Hid. induction (queries d) as [|a l IH]; cbn [find map] in *;
    [discriminate H|].
  destruct (Z.eqb_spec (q_id a) k) as [Ha|Ha].
  - injection H as ->. rewrite Hid, Z.eqb_refl. reflexivity.
  - destruct (Z.eqb_spec (q_id a) k); [contradiction|]. apply IH, H.
Qed.

Lemma send_guest_response_email_run k resp d tr q :
  get_query k d = Some q →
  send_guest_response_email k resp (mkWorld d d tr)
  = (if match q_student_id q with
        | None => Py.truthy (Some (q_email q))
        | Some _ => false
        end
     then Exc else Val tt, mkWorld d d tr).
Proof.
  intros Hget. unfold send_guest_response_email, bind, session_db. cbn [pending].
  rewrite Hget. destruct (q_student_id q); [reflexivity|].
  destruct (Py.truthy (Some (q_email q))); reflexivity.
Qed.

Lemma admin_reply_run xf sess k resp d q0 :
  sess_admin_logged_in sess = true →
  get_query k d = Some q0 →
  xf AdminReplyCommit = false →
  run (admin_reply xf sess k resp) d
  = if match q_student_id q0 with
       | None => Py.truthy (Some (q_email q0))
       | Some _ => false
       end
    then (None, update_query k (quick_reply resp) d, [EvCommit true])
    else (Some (Redirect AdminDashboard), update_query k (quick_reply resp) d,
          [EvCommit true; EvFlash "Response sent successfully!" "message"]).
Proof.
  intros Hadm Hget Hc. pose proof (get_query_id _ _ _ Hget) as Hid.
  unfold run, admin_reply, admin_required. rewrite Hadm. cbn [negb].
  unfold bind at 1. unfold bind at 1, session_db at 1. cbn [pending]. rewrite Hget.
  rewrite (bind_val _ _ _ _ _ (modify_run _ _)). cbn [pending committed trace].
  rewrite (bind_val _ _ _ _ _ (op_commit_ok _ _ _ Hc)). cbn [pending committed trace].
  rewrite Hid. fold (quick_reply resp).
  destruct (q_student_id q0) as [sid|] eqn:Hs.
  - unfold flash. cbn [ret]. rewrite (bind_val _ _ _ _ _ (emit_run _ _)). reflexivity.
  - rewrite (send_guest_response_email_run k resp _ _ (quick_reply resp q0)).
    + cbn [quick_reply set_responses q_student_id q_email]. rewrite Hs.
      destruct (Py.truthy (Some (q_email q0))); [reflexivity|].
      unfold flash. rewrite (bind_val _ _ _ _ _ (emit_run _ _)). reflexivity.
    + exact (get_query_update_fun k d q0 (quick_reply resp) Hget Hid).
Qed.

(** X12. [admin_reply] records an answer and tells nobody. For an
    existing query and a successful commit the stored row gets the
    status "responded" and the response entered (also the missing one,
    which erases an earlier response), while [admin_response] and the
    reply triple a student's dashboard looks at stay as they were; and
    no request to this handler ever hands a mail to the mailer. *)
Theorem admin_reply_stores_without_notifying xf sess k resp d :
  let R := run (admin_reply xf sess k resp) d in
  Forall (fun e => is_mail e = false) (trace_of R)
  ∧ ∀ q0, sess_admin_logged_in sess = true →
          get_query k d = Some q0 →
          xf AdminReplyCommit = false →
          ∃ q', get_query k (db_of R) = Some q'
                ∧ q_status q' = Some "responded"
                ∧ q_response q' = resp
                ∧ q_admin_response q' = q_admin_response q0
                ∧ q_admin_reply_text q' = q_admin_reply_text q0
                ∧ q_admin_reply_at q' = q_admin_reply_at q0
                ∧ q_admin_reply_seen q' = q_admin_reply_seen q0.
Proof.
  intros R. split.
  - unfold R. destruct (sess_admin_logged_in sess) eqn:Hadm.
    2:{ unfold run, admin_reply, admin_required. rewrite Hadm. cbn.
        repeat constructor. }
    destruct (get_query k d) as [q0|] eqn:Hget.
    2:{ unfold run, admin_reply, admin_required. rewrite Hadm. cbn [negb].
        unfold bind at 1. unfold bind at 1, session_db at 1. cbn [pending].
        rewrite Hget. cbn. repeat constructor. }
    destruct (xf AdminReplyCommit) eqn:Hc.
    + unfold run, admin_reply, admin_required. rewrite Hadm. cbn [negb].
      unfold bind at 1. unfold bind at 1, session_db at 1. cbn [pending].
      rewrite Hget. rewrite (bind_val _ _ _ _ _ (modify_run _ _)).
      rewrite (bind_exc _ _ _ _ (op_commit_fail _ _ _ Hc)). cbn. repeat constructor.
    + rewrite (admin_reply_run xf sess k resp d q0 Hadm Hget Hc).
      destruct (match q_student_id q0 with
                | None => Py.truthy (Some (q_email q0))
                | Some _ => false
                end); cbn; repeat constructor.
  - intros q0 Hadm Hget Hc. exists (quick_reply resp q0). split.
    + unfold R. rewrite (admin_reply_run xf sess k resp d q0 Hadm Hget Hc).
      assert (get_query k (update_query k (quick_reply resp) d)
              = Some (quick_reply resp q0)) as Hg.
      { exact (get_query_update_fun k d q0 (quick_reply resp) Hget
                 (get_query_id _ _ _ Hget)). }
      destruct (match q_student_id q0 with
                | None => Py.truthy (Some (q_email q0))
                | Some _ => false
                end); exact Hg.
    + repeat split.
Qed.

(** The sample: a quick reply to Bob's first query. *)
Lemma admin_reply_stores_without_notifying_witness :
  let R := run (admin_reply no_op_faults Sample.as_admin 2 (Some "In hall B."))
             Sample.db in
  Forall (fun e => is_mail e = false) (trace_of R)
  ∧ ∃ q', get_query 2 (db_of R) = Some q'
          ∧ q_status q' = Some "responded"
          ∧ q_response q' = Some "In hall B."
          ∧ q_admin_reply_text q' = None.
Proof.
  intros R.
  destruct (admin_reply_stores_without_notifying no_op_faults Sample.as_admin 2
              (Some "In hall B.") Sample.db) as [Hm H].
  split; [exact Hm|].
  destruct (H Sample.student_row eq_refl eq_refl eq_refl)
    as (q' & Hget & Hs & Hr & _ & Ht & _).
  exists q'. repeat split; assumption.
Defined.

(** X13. For a guest the quick reply breaks off after its commit. When
    the query has no student reference and a non-empty address,
    [admin_reply] commits the new status and response and then fails
    while composing the mail: the request ends in an uncaught exception,
    without redirect and without flash. For any other existing query it
    ends normally, and for an unknown query it reports success although
    nothing was stored. *)
Theorem admin_reply_breaks_off_for_guests xf sess k resp d :
  sess_admin_logged_in sess = true →
  let R := run (admin_reply xf sess k resp) d in
  (∀ q0, get_query k d = Some q0 →
         xf AdminReplyCommit = false →
         q_student_id q0 = None →
         q_email q0 ≠ "" →
         R = (None, update_query k (quick_reply resp) d, [EvCommit true]))
  ∧ (∀ q0, get_query k d = Some q0 →
           xf AdminReplyCommit = false →
           q_student_id q0 ≠ None ∨ q_email q0 = "" →
           R = (Some (Redirect AdminDashboard), update_query k (quick_reply resp) d,
                [EvCommit true; EvFlash "Response sent successfully!" "message"]))
  ∧ (get_query k d = None →
     R = (Some (Redirect AdminDashboard), d,
          [EvFlash "Response sent successfully!" "message"])).
Proof.
  intros Hadm R. split; [|split].
  - intros q0 Hget Hc Hs He. unfold R.
    rewrite (admin_reply_run xf sess k resp d q0 Hadm Hget Hc), Hs.
    destruct (q_email q0); [contradiction|reflexivity].
  - intros q0 Hget Hc Hor. unfold R.
    rewrite (admin_reply_run xf sess k resp d q0 Hadm Hget Hc).
    destruct Hor as [Hs|He].
    + destruct (q_student_id q0); [reflexivity|contradiction].
    + rewrite He. destruct (q_student_id q0); reflexivity.
  - intros Hget. unfold R, run, admin_reply, admin_required. rewrite Hadm.
    cbn [negb]. unfold bind at 1. unfold bind at 1, session_db at 1. cbn [pending].
    rewrite Hget. reflexivity.
Qed.

(** The sample: a quick reply to Alice, who wrote as a guest. *)
Lemma admin_reply_breaks_off_for_guests_witness :
  run (admin_reply no_op_faults Sample.as_admin 1 (Some "At nine.")) Sample.db
  = (None, update_query 1 (quick_reply (Some "At nine.")) Sample.db,
     [EvCommit true]).
Proof.
  assert (q_email Sample.guest_row ≠ "") as Hne by discriminate.
  exact (proj1 (admin_reply_breaks_off_for_guests no_op_faults Sample.as_admin 1
                  (Some "At nine.") Sample.db eq_refl)
           Sample.guest_row eq_refl eq_refl eq_refl Hne).
Defined.

(** ** The status totals *)

Lemma count_if_app p l1 l2 : count_if p (l1 ++ l2) = count_if p l1 + count_if p l2.
Proof.
  unfold count_if. induction l1 as [|a l IH]; cbn [app fold_right]; [reflexivity|].
  rewrite IH. destruct (p a); lia.
Qed.

(** The totals do not depend on the order in which the rows are read. *)
Lemma count_if_Permutation p l1 l2 :
  Permutation l1 l2 → count_if p l1 = count_if p l2.
Proof.
  unfold count_if.
  induction 1 as [|a l l' _ IH|a b l|l l' l'' _ IH1 _ IH2];
    cbn [fold_right]; [reflexivity| | |congruence].
  - rewrite IH. reflexivity.
  - destruct (p a), (p b); lia.
Qed.

(** A status falls into at most one of the three buckets. *)
Lemma buckets_disjoint q :
  (if is_pending q then 1 else 0) + (if is_in_progress q then 1 else 0)
  + (if is_resolved q then 1 else 0) ≤ 1.
Proof.
  unfold is_pending, is_in_progress, is_resolved.
  destruct (String.eqb_spec (status_lower q) "pending") as [->|_];
    [cbn; lia|].
  destruct (String.eqb_spec (status_lower q) "resolved") as [->|_];
    [cbn; lia|].
  destruct (_ || _ || _); lia.
Qed.

Lemma count_if_cons p a l :
  count_if p (a :: l) = (if p a then 1 else 0) + count_if p l.
Proof. cbn [count_if fold_right]. destruct (p a); reflexivity. Qed.

Lemma count_if_nonneg p l : 0 ≤ count_if p l.
Proof.
  induction l as [|a l IH]; [cbn; lia|]. rewrite count_if_cons.
  destruct (p a); lia.
Qed.

Lemma buckets_bounded qs :
  count_if is_pending qs + count_if is_in_progress qs + count_if is_resolved qs
  ≤ Z.of_nat (length qs).
Proof.
  induction qs as [|a l IH]; [cbn; lia|].
  rewrite !count_if_cons. pose proof (buckets_disjoint a).
  cbn [length]. lia.
Qed.

Lemma quick_reply_no_bucket resp q :
  is_pending (quick_reply resp q) = false
  ∧ is_in_progress (quick_reply resp q) = false
  ∧ is_resolved (quick_reply resp q) = false.
Proof. repeat split. Qed.

Lemma quick_reply_counts resp k qs q0 :
  find (fun q => q_id q =? k) qs = Some q0 →
  let qs' := map (fun q => if q_id q =? k then quick_reply resp q else q) qs in
  count_if is_pending qs' ≤ count_if is_pending qs
  ∧ count_if is_in_progress qs' ≤ count_if is_in_progress qs
  ∧ count_if is_resolved qs' ≤ count_if is_resolved qs
  ∧ count_if is_pending qs' + count_if is_in_progress qs' + count_if is_resolved qs'
    < Z.of_nat (length qs').
Proof.
  induction qs as [|a l IH]; cbn [find map]; [discriminate|].
  destruct (q_id a =? k) eqn:Ha.
  - intros _. cbn zeta. rewrite !count_if_cons.
    destruct (quick_reply_no_bucket resp a) as (-> & -> & ->).
    pose proof (buckets_bounded
                  (map (fun q => if q_id q =? k then quick_reply resp q else q) l)).
    cbn [length].
    assert (∀ p, p = is_pending ∨ p = is_in_progress ∨ p = is_resolved →
                 count_if p (map (fun q => if q_id q =? k
                                           then quick_reply resp q else q) l)
                 ≤ count_if p l) as Hle.
    { intros p Hp. clear -Hp. induction l as [|b l IH]; [cbn; lia|].
      cbn [map]. rewrite !count_if_cons.
      destruct (q_id b =? k); [|lia].
      destruct (quick_reply_no_bucket resp b) as (E1 & E2 & E3).
      destruct Hp as [->|[->| ->]]; rewrite ?E1, ?E2, ?E3;
        match goal with |- _ ≤ (if ?c then _ else _) + _ => destruct c end; lia. }
    pose proof (Hle _ (or_introl eq_refl)).
    pose proof (Hle _ (or_intror (or_introl eq_refl))).
    pose proof (Hle _ (or_intror (or_intror eq_refl))).
    destruct (is_pending a), (is_in_progress a), (is_resolved a); lia.
  - intros H. destruct (IH H) as (H1 & H2 & H3 & H4). cbn zeta.
    rewrite !count_if_cons. pose proof (buckets_disjoint a). cbn [length].
    repeat split; lia.
Qed.

(** X14. The status totals of [admin_dashboard_data] and the handlers
    that write statuses. The three buckets never count a query twice, so
    their sum stays within the total; an accepted submission raises the
    total and the pending count by one and nothing else; and a committed
    quick reply writes the status "responded", which no bucket counts:
    the total stays, no bucket grows, and the buckets then sum to less
    than the total. *)
Theorem status_totals_follow_the_handlers fl py_int xf now sess referrer form
    k resp d :
  let c := dashboard_counts d in
  c_pending c + c_in_progress c + c_resolved c ≤ c_total c
  ∧ (accepted (run (submit_query fl py_int now sess referrer form) d) →
     dashboard_counts (db_of (run (submit_query fl py_int now sess referrer form) d))
     = mkCounts (c_total c + 1) (c_pending c + 1) (c_in_progress c) (c_resolved c))
  ∧ (∀ q0, sess_admin_logged_in sess = true →
           get_query k d = Some q0 →
           xf AdminReplyCommit = false →
           let c' := dashboard_counts (db_of (run (admin_reply xf sess k resp) d)) in
           c_total c' = c_total c
           ∧ c_pending c' ≤ c_pending c
           ∧ c_in_progress c' ≤ c_in_progress c
           ∧ c_resolved c' ≤ c_resolved c
           ∧ c_pending c' + c_in_progress c' + c_resolved c' < c_total c').
Proof.
  intros c. split; [|split].
  - apply buckets_bounded.
  - intros Hacc.
    destruct (submit_query_accepted _ _ _ _ _ _ _ Hacc) as (fk & evs & -> & _).
    unfold db_of. cbn [fst snd]. unfold dashboard_counts.
    rewrite queries_after_faq. unfold with_queries. cbn [queries].
    rewrite !count_if_app, length_app, Nat2Z.inj_add. cbn [length].
    unfold c, dashboard_counts. cbn [c_total c_pending c_in_progress c_resolved].
    assert (is_pending (submitted_query now form fk (queries d)) = true
            ∧ is_in_progress (submitted_query now form fk (queries d)) = false
            ∧ is_resolved (submitted_query now form fk (queries d)) = false)
      as (E1 & E2 & E3) by (repeat split).
    rewrite !count_if_cons, E1, E2, E3. cbn [count_if fold_right].
    f_equal; lia.
  - intros q0 Hadm Hget Hc c'.
    assert (queries (db_of (run (admin_reply xf sess k resp) d))
            = map (fun q => if q_id q =? k then quick_reply resp q else q)
                  (queries d)) as Hq.
    { rewrite (admin_reply_run xf sess k resp d q0 Hadm Hget Hc).
      destruct (match q_student_id q0 with
                | None => Py.truthy (Some (q_email q0))
                | Some _ => false
                end); reflexivity. }
    unfold c', c, dashboard_counts.
    cbn [c_total c_pending c_in_progress c_resolved]. rewrite Hq.
    destruct (quick_reply_counts resp k (queries d) q0 Hget) as (H1 & H2 & H3 & H4).
    rewrite length_map in *. repeat split; assumption.
Qed.

(** The sample: two pending queries and a resolved one; a submission,
    and a quick reply to Bob's pending query. *)
Lemma status_totals_follow_the_handlers_witness :
  let form := Sample.guest_form "carol@x.com" "Where can I park?" in
  dashboard_counts Sample.db = mkCounts 3 2 0 1
  ∧ dashboard_counts
      (db_of (run (submit_query no_faults Sample.no_int 100 Sample.as_admin None
                     form) Sample.db))
    = mkCounts 4 3 0 1
  ∧ c_pending (dashboard_counts
                 (db_of (run (admin_reply no_op_faults Sample.as_admin 2
                                (Some "In hall B.")) Sample.db)))
    ≤ 2.
Proof.
  intros form.
  assert (accepted (run (submit_query no_faults Sample.no_int 100 Sample.as_admin
                           None form) Sample.db)) as Hacc by (vm_compute; in_trace).
  destruct (status_totals_follow_the_handlers no_faults Sample.no_int no_op_faults
              100 Sample.as_admin None form 2 (Some "In hall B.") Sample.db)
    as (_ & Hsub & Hrep).
  split; [reflexivity|]. split.
  - exact (Hsub Hacc).
  - destruct (Hrep Sample.student_row eq_refl eq_refl eq_refl) as (_ & Hp & _).
    exact Hp.
Defined.

(** ** Registering *)

Lemma decimal_inj m n : decimal m = decimal n → m = n.
Proof.
  unfold decimal. intros H.
  assert (Some (Nat.to_uint m) = Some (Nat.to_uint n)) as E.
  { rewrite <- !NilEmpty.usu. rewrite H. reflexivity. }
  injection E as E. rewrite <- (Unsigned.of_to m), <- (Unsigned.of_to n), E.
  reflexivity.
Qed.

Lemma string_app_inj_l (a b c : string) : (a ++ b = a ++ c)%string → b = c.
Proof.
  induction a as [|x a IH]; cbn; [tauto|]. intros [= H]. exact (IH H).
Qed.

Lemma handle_taken_spec c taken : handle_taken c taken = true ↔ In c taken.
Proof.
  unfold handle_taken. rewrite existsb_exists. split.
  - intros (x & Hin & Heq). apply String.eqb_eq in Heq. subst. exact Hin.
  - intros Hin. exists c. split; [exact Hin|apply String.eqb_refl].
Qed.

(** While the loop runs, every candidate it made up is in use. *)
Lemma handle_search_none fuel taken base k c :
  handle_search fuel taken base k c = None →
  ∀ i, (1 <= i < fuel)%nat → In (base ++ decimal (k + i))%string taken.
Proof.
  revert k c. induction fuel as [|f IH]; intros k c H i Hi; [lia|].
  cbn [handle_search] in H. destruct (handle_taken c taken); [|discriminate].
  destruct (Nat.eq_dec i 1%nat) as [->|Hne].
  - destruct f as [|f]; [lia|]. cbn [handle_search] in H.
    destruct (handle_taken _ taken) eqn:Ht; [|discriminate].
    apply handle_taken_spec in Ht. replace (k + 1)%nat with (S k) by lia. exact Ht.
  - specialize (IH _ _ H (i - 1)%nat ltac:(lia)).
    replace (S k + (i - 1))%nat with (k + i)%nat in IH by lia. exact IH.
Qed.

Lemma handle_search_some fuel taken base k c r :
  handle_search fuel taken base k c = Some r →
  ¬ In r taken
  ∧ (r = c ∨ ∃ i, (1 <= i < fuel)%nat ∧ r = (base ++ decimal (k + i))%string).
Proof.
  revert k c. induction fuel as [|f IH]; intros k c H; [discriminate|].
  cbn [handle_search] in H. destruct (handle_taken c taken) eqn:Ht.
  - destruct (IH _ _ H) as [Hn [->|(i & Hi & ->)]]; (split; [exact Hn|right]).
    + exists 1%nat. split; [|f_equal; f_equal; lia].
      destruct f; [discriminate H|lia].
    + exists (S i). split; [lia|f_equal; f_equal; lia].
  - injection H as <-. split; [|left; reflexivity].
    intros Hin. apply handle_taken_spec in Hin. congruence.
Qed.

(** Enough fuel for the search: the number of handles in use plus two. *)
Lemma handle_search_finds_free_handle_aux taken base first :
  ∃ c, handle_search (length taken + 2) taken base 0 first = Some c
       ∧ ¬ In c taken
       ∧ (c = first
          ∨ ∃ i, (1 <= i <= length taken + 1)%nat ∧ c = (base ++ decimal i)%string).
Proof.
  destruct (handle_search (length taken + 2) taken base 0 first) as [c|] eqn:H.
  - exists c. split; [reflexivity|].
    destruct (handle_search_some _ _ _ _ _ _ H) as [Hn Hc]. split; [exact Hn|].
    destruct Hc as [->|(i & Hi & ->)]; [left; reflexivity|right].
    exists i. split; [lia|reflexivity].
  - exfalso. pose proof (handle_search_none _ _ _ _ _ H) as Hall.
    set (cands := map (fun i => (base ++ decimal i)%string)
                      (seq 1 (length taken + 1))).
    assert (List.NoDup cands) as Hnd.
    { apply List.NoDup_map_NoDup_ForallPairs; [|apply List.seq_NoDup].
      intros i j _ _ E. apply string_app_inj_l in E. exact (decimal_inj _ _ E). }
    assert (incl cands taken) as Hincl.
    { intros x Hx. apply in_map_iff in Hx. destruct Hx as (i & <- & Hi).
      apply in_seq in Hi. exact (Hall i ltac:(lia)). }
    pose proof (List.NoDup_incl_length Hnd Hincl) as Hlen.
    unfold cands in Hlen. rewrite length_map, length_seq in Hlen. lia.
Qed.

(** X15. The search for a free handle in [register] comes to an end:
    whatever handles are in use, after at most as many made-up
    candidates as there are handles plus one the loop has found a handle
    that no student has; it is the first candidate or the base followed
    by a number from 1 on. *)
Theorem handle_search_finds_free_handle taken base first :
  ∃ c, handle_search (length taken + 2) taken base 0 first = Some c
       ∧ ¬ In c taken
       ∧ (c = first
          ∨ ∃ i, (1 <= i <= length taken + 1)%nat ∧ c = (base ++ decimal i)%string).
Proof. apply handle_search_finds_free_handle_aux. Qed.

Lemma lstrip_stripped x : Py.lstrip (stripped x) = stripped x.
Proof. unfold stripped, Py.strip. apply lstrip_rstrip, lstrip_idem. Qed.

Lemma first_word_stripped x :
  Py.truthy (Some (stripped x)) = true → ∃ w, first_word (stripped x) = Some w.
Proof.
  unfold first_word. rewrite lstrip_stripped.
  destruct (stripped x); [discriminate|]. intros _. eexists. reflexivity.
Qed.

(** What one [POST] to [register] does, case by case. *)
Lemma register_post_run xf hashed form d :
  let name := stripped (rf_name form) in
  let email := Py.lower (stripped (rf_email form)) in
  let password := Py.text (Py.or_ (rf_password form) (Some "")) in
  run (register xf hashed POST form) d
  = if negb (Py.truthy (Some name)) || negb (Py.truthy (Some email))
       || negb (Py.truthy (Some password))
    then (Some (Render "register.html"), d,
          [EvFlash "All fields are required" "error"])
    else
      match find (fun s => String.eqb (s_email s) email) (students d) with
      | Some _ => (Some (Render "register.html"), d,
                   [EvFlash "Email already registered" "error"])
      | None =>
          match first_word name with
          | None => (None, d, [])
          | Some word =>
              match handle_search (length (students d) + 2)
                      (map s_student_id (students d)) (handle_base word email) 0
                      (Py.text (Py.or_ (Some (handle_base word email))
                                       (Some "student"))) with
              | None => (None, d, [])
              | Some c =>
                  if xf RegisterCommit then (None, d, [EvCommit false])
                  else (Some (Redirect StudentLogin),
                        with_students
                          (students d ++
                             [registered_student c name email hashed (students d)])
                          d,
                        [EvCommit true;
                         EvFlash "Registration successful. Please log in."
                                 "success"])
              end
          end
      end.
Proof.
  intros name email password. unfold run, register.
  fold name email password.
  destruct (negb (Py.truthy (Some name)) || negb (Py.truthy (Some email))
            || negb (Py.truthy (Some password))); [reflexivity|].
  unfold bind at 1, session_db at 1. cbn [pending].
  destruct (find _ (students d)); [reflexivity|].
  destruct (first_word name) as [word|]; [|reflexivity].
  destruct (handle_search _ _ _ _ _) as [c|]; [|reflexivity].
  unfold bind, modify, op_commit, flash, emit, ret. cbn [pending committed trace].
  destruct (xf RegisterCommit); reflexivity.
Qed.

Lemma NoDup_snoc {A} (l : list A) x : NoDup l → ¬ In x l → NoDup (l ++ [x]).
Proof.
  intros Hl Hx. apply NoDup_app. split; [exact Hl|]. split.
  - intros y Hy Hy'. apply list_elem_of_In in Hy.
    apply list_elem_of_singleton in Hy'. subst. contradiction.
  - apply NoDup_singleton.
Qed.

Lemma find_none_not_in_student_emails key ss :
  find (fun s => String.eqb (s_email s) key) ss = None → ¬ In key (map s_email ss).
Proof.
  intros H Hin. apply in_map_iff in Hin as (s & Hs & Hin).
  pose proof (find_none _ _ H s Hin) as Hn. cbn in Hn.
  rewrite Hs, String.eqb_refl in Hn. discriminate Hn.
Qed.

Lemma next_id_not_in ids : ¬ In (next_id ids) ids.
Proof. intros Hin. pose proof (next_id_gt _ _ Hin). lia. Qed.

(** X16. [register] keeps the unique columns of the student table
    unique. If keys, handles and addresses are pairwise different before
    a request, they are so after it, whatever the form holds and whether
    or not the commit fails; the request adds at most one row at the end
    of the student table and leaves the other tables alone. *)
Theorem register_keeps_accounts_unique xf hashed method form d :
  accounts_unique (students d) →
  let d' := db_of (run (register xf hashed method form) d) in
  accounts_unique (students d')
  ∧ (∃ added, students d' = students d ++ added ∧ (length added <= 1)%nat)
  ∧ queries d' = queries d
  ∧ blocked_emails d' = blocked_emails d
  ∧ faqs d' = faqs d.
Proof.
  intros Hu d'.
  assert (d' = d →
          accounts_unique (students d')
          ∧ (∃ added, students d' = students d ++ added ∧ (length added <= 1)%nat)
          ∧ queries d' = queries d
          ∧ blocked_emails d' = blocked_emails d
          ∧ faqs d' = faqs d) as Hsame.
  { intros ->. split; [exact Hu|]. split; [|repeat split].
    exists []. rewrite app_nil_r. split; [reflexivity|cbn; lia]. }
  destruct method; [apply Hsame; reflexivity|].
  unfold d' in *. rewrite register_post_run in *.
  destruct (negb _ || negb _ || negb _); [apply Hsame; reflexivity|].
  destruct (find _ (students d)) eqn:Hfind; [apply Hsame; reflexivity|].
  destruct (first_word _) as [word|]; [|apply Hsame; reflexivity].
  destruct (handle_search _ _ _ _ _) as [c|] eqn:Hsearch;
    [|apply Hsame; reflexivity].
  destruct (xf RegisterCommit); [apply Hsame; reflexivity|].
  clear Hsame. cbn [db_of fst snd with_students students queries blocked_emails faqs].
  destruct Hu as (Hid & Hh & He).
  split; [|split; [|repeat split]].
  - unfold accounts_unique. rewrite !map_app. cbn [map registered_student
      s_id s_student_id s_email].
    split; [|split]; apply NoDup_snoc; try assumption.
    + apply next_id_not_in.
    + exact (proj1 (handle_search_some _ _ _ _ _ _ Hsearch)).
    + exact (find_none_not_in_student_emails _ _ Hfind).
  - eexists. split; [reflexivity|cbn; lia].
Qed.

(** The sample: Bob and Eve, and a second Bob who registers. *)
Lemma register_keeps_accounts_unique_witness :
  let d' := db_of (run (register no_op_faults "pbkdf2:1" POST
                          (mkRegisterForm (Some " Bob Ray ") (Some "Ray@X.com")
                                          (Some "secret"))) Sample.db) in
  accounts_unique (students Sample.db)
  ∧ accounts_unique (students d')
  ∧ map s_student_id (students d') = ["bob"; "eve"; "bob1"].
Proof.
  intros d'.
  assert (accounts_unique (students Sample.db)) as Hu.
  { repeat split; apply (bool_decide_unpack _); vm_compute; exact I. }
  split; [exact Hu|]. split; [|reflexivity].
  exact (proj1 (register_keeps_accounts_unique no_op_faults "pbkdf2:1" POST
                  (mkRegisterForm (Some " Bob Ray ") (Some "Ray@X.com")
                                  (Some "secret")) Sample.db Hu)).
Defined.

(** X17. [register] answers every request unless its commit fails: the
    first word of the name always exists and the search for a handle
    always ends. The answer is the form again, and then nothing was
    stored, or the redirect to the login page, and then exactly one row
    was added: it carries the trimmed name, the trimmed lower-case
    address, the hash of this request, a handle no other row has, and it
    is not blocked. *)
Theorem register_answers_every_request xf hashed method form d :
  xf RegisterCommit = false →
  let R := run (register xf hashed method form) d in
  (fst (fst R) = Some (Render "register.html") ∧ db_of R = d)
  ∨ (fst (fst R) = Some (Redirect StudentLogin)
     ∧ method = POST
     ∧ ∃ s, db_of R = with_students (students d ++ [s]) d
            ∧ s_name s = stripped (rf_name form)
            ∧ s_email s = Py.lower (stripped (rf_email form))
            ∧ s_password s = hashed
            ∧ s_is_blocked s = false
            ∧ s_name s ≠ "" ∧ s_email s ≠ ""
            ∧ ¬ In (s_student_id s) (map s_student_id (students d))
            ∧ ¬ In (s_email s) (map s_email (students d))).
Proof.
  intros Hc R. unfold R. destruct method; [left; split; reflexivity|].
  rewrite register_post_run.
  destruct (Py.truthy (Some (stripped (rf_name form)))) eqn:Hn;
    cbn [negb orb]; [|left; split; reflexivity].
  destruct (Py.truthy (Some (Py.lower (stripped (rf_email form))))) eqn:He;
    cbn [negb orb]; [|left; split; reflexivity].
  destruct (negb _); [left; split; reflexivity|].
  destruct (find _ (students d)) eqn:Hfind; [left; split; reflexivity|].
  destruct (first_word_stripped _ Hn) as [word ->].
  destruct (handle_search_finds_free_handle_aux (map s_student_id (students d))
              (handle_base word (Py.lower (stripped (rf_email form))))
              (Py.text (Py.or_ (Some (handle_base word
                                        (Py.lower (stripped (rf_email form)))))
                               (Some "student"))))
    as (c & Hs & Hfree).
  rewrite length_map in Hs. rewrite Hs, Hc. right.
  split; [reflexivity|]. split; [reflexivity|].
  eexists. split; [reflexivity|].
  cbn [registered_student s_name s_email s_password s_is_blocked s_student_id].
  repeat split.
  - intros E. rewrite E in Hn. discriminate Hn.
  - intros E. rewrite E in He. discriminate He.
  - exact (proj1 Hfree).
  - exact (find_none_not_in_student_emails _ _ Hfind).
Qed.

(** The sample: the registration of a second Bob. *)
Lemma register_answers_every_request_witness :
  fst (fst (run (register no_op_faults "pbkdf2:1" POST
                   (mkRegisterForm (Some " Bob Ray ") (Some "Ray@X.com")
                                   (Some "secret"))) Sample.db))
  = Some (Redirect StudentLogin).
Proof.
  destruct (register_answers_every_request no_op_faults "pbkdf2:1" POST
              (mkRegisterForm (Some " Bob Ray ") (Some "Ray@X.com")
                              (Some "secret")) Sample.db eq_refl)
    as [[H _]|[H _]]; [discriminate H|exact H].
Defined.

(** ** Logging in *)

Lemma student_login_found xf chk dh sess form d s :
  find_student_by (identifier_of (lf_email form)) d = Some s →
  run_login (student_login xf chk dh sess POST form) d
  = login_answer chk sess form s d [].
Proof.
  intros Hf. unfold run_login, student_login, login_answer.
  unfold bind at 1, session_db at 1. cbn [pending]. rewrite Hf.
  unfold bind at 1, ret at 1.
  destruct (chk (s_password s) (lf_password form)) as [[|]|]; [|reflexivity..].
  destruct (s_is_blocked s); reflexivity.
Qed.

Lemma student_login_unknown xf chk dh sess form d :
  find_student_by (identifier_of (lf_email form)) d = None →
  identifier_of (lf_email form) ≠ "student" →
  run_login (student_login xf chk dh sess POST form) d
  = (Some (mkLoginResult sess (Render "student_login.html") 401), d,
     [EvFlash "Invalid email or student ID or password" "error"]).
Proof.
  intros Hf Hne. unfold run_login, student_login.
  unfold bind at 1, session_db at 1. cbn [pending]. rewrite Hf.
  destruct (String.eqb_spec (identifier_of (lf_email form)) "student");
    [contradiction|reflexivity].
Qed.

Lemma find_student_by_none x d :
  find_student_by x d = None →
  find (fun s => String.eqb (s_email s) x) (students d) = None
  ∧ find (fun s => String.eqb (s_student_id s) x) (students d) = None.
Proof.
  unfold find_student_by. destruct (find _ (students d)); [discriminate|].
  intros H. split; [reflexivity|exact H].
Qed.

(** The login under the handle ['student'] when no row answers to it. *)
Lemma student_login_default xf chk dh sess form d :
  find_student_by "student" d = None →
  identifier_of (lf_email form) = "student" →
  run_login (student_login xf chk dh sess POST form) d
  = if xf DefaultStudentLookup then
      (Some (mkLoginResult sess (Render "student_login.html") 401), d,
       [EvLogError "Error ensuring default student exists";
        EvFlash "Invalid email or student ID or password" "error"])
    else if xf DefaultStudentCommit then
      (Some (mkLoginResult sess (Render "student_login.html") 401), d,
       [EvCommit false; EvLogError "Error ensuring default student exists";
        EvFlash "Invalid email or student ID or password" "error"])
    else
      login_answer chk sess form (default_student dh (students d))
        (with_students (students d ++ [default_student dh (students d)]) d)
        [EvCommit true].
Proof.
  intros Hf Hi. destruct (find_student_by_none _ _ Hf) as [_ Hh].
  unfold run_login, student_login, login_answer. rewrite Hi.
  unfold bind at 1, session_db at 1. cbn [pending]. rewrite Hf.
  cbn [String.eqb Ascii.eqb Bool.eqb andb].
  unfold bind at 1, ensure_default_student, try_except.
  unfold bind at 1, op_call. destruct (xf DefaultStudentLookup); [reflexivity|].
  unfold bind at 1, session_db at 1. cbn [pending]. rewrite Hh.
  unfold bind at 1. unfold bind at 1, modify at 1. cbn [pending committed trace].
  unfold op_commit. destruct (xf DefaultStudentCommit); [reflexivity|].
  cbn [pending committed trace app ret].
  destruct (chk _ (lf_password form)) as [[|]|]; reflexivity.
Qed.

Lemma identifier_of_stripped x : identifier_of x = Py.lower (stripped x).
Proof. unfold identifier_of, stripped, Py.or_. destruct x as [[|c s]|]; reflexivity. Qed.

Lemma login_answer_db chk sess form s d tr :
  snd (fst (login_answer chk sess form s d tr)) = d.
Proof.
  unfold login_answer. destruct (chk _ _) as [[|]|]; [|reflexivity..].
  destruct (s_is_blocked s); reflexivity.
Qed.

(** X18. Whoever [register] sends on to the login page can log in. When
    a registration is answered with the redirect, a login with the same
    address field and a password that the stored hash accepts finds the
    new row, whatever else the table holds: the session is marked as
    logged in and carries the key of the new row, and the login stores
    nothing. *)
Theorem registered_student_can_log_in xf xf' chk hashed dh sess form p d :
  fst (fst (run (register xf hashed POST form) d)) = Some (Redirect StudentLogin) →
  chk hashed (Some p) = Some true →
  let d1 := db_of (run (register xf hashed POST form) d) in
  ∃ s, students d1 = students d ++ [s]
       ∧ run_login (student_login xf' chk dh sess POST
                      (mkLoginForm (rf_email form) (Some p))) d1
         = (Some (mkLoginResult
                    (mkSession true (Some (SInt (s_id s)))
                               (sess_admin_logged_in sess))
                    (Redirect StudentDashboard) 302),
            d1, [EvFlash "Logged in successfully" "success"]).
Proof.
  rewrite register_post_run. intros Hr Hp d1. unfold d1. clear d1.
  destruct (negb _ || negb _ || negb _); [discriminate Hr|].
  destruct (find _ (students d)) eqn:Hfind; [discriminate Hr|].
  destruct (first_word _) as [word|]; [|discriminate Hr].
  destruct (handle_search _ _ _ _ _) as [c|]; [|discriminate Hr].
  destruct (xf RegisterCommit); [discriminate Hr|]. clear Hr.
  cbn [db_of fst snd].
  set (email := Py.lower (stripped (rf_email form))) in *.
  set (s := registered_student c (stripped (rf_name form)) email hashed (students d)).
  exists s. split; [reflexivity|].
  rewrite (student_login_found xf' chk dh sess _ _ s).
  - unfold login_answer. cbn [lf_password s registered_student s_password
      s_is_blocked s_id]. rewrite Hp. reflexivity.
  - cbn [lf_email]. rewrite identifier_of_stripped. fold email.
    unfold find_student_by, with_students. cbn [students].
    rewrite find_app_none by (intros x Hx; exact (find_none _ _ Hfind x Hx)).
    cbn [find s registered_student s_email]. rewrite String.eqb_refl. reflexivity.
Qed.

(** The sample: a second Bob registers and logs in; the password check
    of the sample compares with the text behind the prefix. *)
Lemma registered_student_can_log_in_witness :
  let chk := fun h p => Some (bool_decide (Some h = option_map (String.append "plain:") p)) in
  let form := mkRegisterForm (Some " Bob Ray ") (Some "Ray@X.com") (Some "secret") in
  let d1 := db_of (run (register no_op_faults "plain:secret" POST form) Sample.db) in
  ∃ s, students d1 = students Sample.db ++ [s]
       ∧ run_login (student_login no_op_faults chk "plain:student123"
                      Sample.anonymous POST
                      (mkLoginForm (Some "Ray@X.com") (Some "secret"))) d1
         = (Some (mkLoginResult (mkSession true (Some (SInt (s_id s))) false)
                    (Redirect StudentDashboard) 302),
            d1, [EvFlash "Logged in successfully" "success"]).
Proof.
  intros chk form d1.
  exact (registered_student_can_log_in no_op_faults no_op_faults chk "plain:secret"
           "plain:student123" Sample.anonymous form "secret" Sample.db
           eq_refl eq_refl).
Defined.

(** X19. [student_login] changes the session only for a student who is
    not blocked. After any request the session is the one before, or it
    is a logged-in session that carries the key of a stored row which is
    not blocked, whose hash accepted the password and whose address or
    handle is the identifier entered; the admin flag of the session is
    never touched. *)
Theorem student_login_admits_unblocked_only xf chk dh sess method form d :
  let L := run_login (student_login xf chk dh sess method form) d in
  session_after sess L = sess
  ∨ ∃ s, In s (students (snd (fst L)))
         ∧ s_is_blocked s = false
         ∧ chk (s_password s) (lf_password form) = Some true
         ∧ (s_email s = identifier_of (lf_email form)
            ∨ s_student_id s = identifier_of (lf_email form))
         ∧ session_after sess L
           = mkSession true (Some (SInt (s_id s))) (sess_admin_logged_in sess).
Proof.
  intros L. unfold L. destruct method; [left; reflexivity|].
  assert (∀ s d' tr,
            In s (students d') →
            (s_email s = identifier_of (lf_email form)
             ∨ s_student_id s = identifier_of (lf_email form)) →
            let A := login_answer chk sess form s d' tr in
            session_after sess A = sess
            ∨ ∃ s, In s (students (snd (fst A)))
                   ∧ s_is_blocked s = false
                   ∧ chk (s_password s) (lf_password form) = Some true
                   ∧ (s_email s = identifier_of (lf_email form)
                      ∨ s_student_id s = identifier_of (lf_email form))
                   ∧ session_after sess A
                     = mkSession true (Some (SInt (s_id s)))
                                 (sess_admin_logged_in sess)) as Hans.
  { intros s d' tr Hin Hid A. unfold A, login_answer.
    destruct (chk (s_password s) (lf_password form)) as [[|]|] eqn:Hchk;
      [|left; reflexivity..].
    destruct (s_is_blocked s) eqn:Hb; [left; reflexivity|].
    right. exists s. repeat split; assumption. }
  destruct (find_student_by (identifier_of (lf_email form)) d) as [s|] eqn:Hf.
  - rewrite (student_login_found xf chk dh sess form d s Hf).
    apply Hans.
    + unfold find_student_by in Hf.
      destruct (find _ (students d)) eqn:E.
      * injection Hf as ->. exact (proj1 (find_some _ _ E)).
      * exact (proj1 (find_some _ _ Hf)).
    + unfold find_student_by in Hf.
      destruct (find _ (students d)) eqn:E.
      * injection Hf as ->. left. apply String.eqb_eq.
        exact (proj2 (find_some _ _ E)).
      * right. apply String.eqb_eq. exact (proj2 (find_some _ _ Hf)).
  - destruct (String.eqb_spec (identifier_of (lf_email form)) "student") as [Hi|Hi].
    + rewrite Hi in Hf. rewrite (student_login_default xf chk dh sess form d Hf Hi).
      destruct (xf DefaultStudentLookup); [left; reflexivity|].
      destruct (xf DefaultStudentCommit); [left; reflexivity|].
      apply Hans.
      * cbn [with_students students]. apply in_or_app. right. left. reflexivity.
      * right. rewrite Hi. reflexivity.
    + rewrite (student_login_unknown xf chk dh sess form d Hf Hi). left. reflexivity.
Qed.

Lemma find_in_some {A} (p : A → bool) l x :
  In x l → p x = true → ∃ y, find p l = Some y.
Proof.
  intros Hin Hp. destruct (find p l) eqn:E; [eexists; reflexivity|].
  rewrite (find_none _ _ E x Hin) in Hp. discriminate Hp.
Qed.

Lemma find_student_by_in x d s : find_student_by x d = Some s → In s (students d).
Proof.
  unfold find_student_by. destruct (find _ (students d)) eqn:E.
  - intros [= ->]. exact (proj1 (find_some _ _ E)).
  - intros H. exact (proj1 (find_some _ _ H)).
Qed.

Lemma find_student_by_update x k g d :
  (∀ s, s_email (g s) = s_email s) →
  (∀ s, s_student_id (g s) = s_student_id s) →
  find_student_by x (update_student k g d)
  = option_map (fun s => if s_id s =? k then g s else s) (find_student_by x d).
Proof.
  intros He Hh. unfold find_student_by, update_student, with_students.
  cbn [students].
  rewrite !find_map_same.
  - destruct (find _ (students d)); [reflexivity|].
    destruct (find _ (students d)); reflexivity.
  - intros a. destruct (s_id a =? k); [rewrite Hh|]; reflexivity.
  - intros a. destruct (s_id a =? k); [rewrite He|]; reflexivity.
Qed.

(** X20. A student blocked by [toggle_block_student] cannot log in any
    more. For the row an identifier leads to, not blocked so far: after
    the block every login with this identifier leaves the session as it
    was and stores nothing, and a login with the right password is
    answered with status 403 and the flash that the account is blocked,
    where the same login before the block was let in. *)
Theorem blocked_student_cannot_log_in xfa xf chk dh admin sess form d s :
  sess_admin_logged_in admin = true →
  find_student_by (identifier_of (lf_email form)) d = Some s →
  s_is_blocked s = false →
  xfa BlockStudentCommit = false →
  let d1 := db_of (run (toggle_block_student xfa admin (s_id s)) d) in
  let L := run_login (student_login xf chk dh sess POST form) d1 in
  session_after sess L = sess
  ∧ snd (fst L) = d1
  ∧ (chk (s_password s) (lf_password form) = Some true →
     L = (Some (mkLoginResult sess (Render "student_login.html") 403), d1,
          [EvFlash "Your account has been blocked" "error"])
     ∧ run_login (student_login xf chk dh sess POST form) d
       = (Some (mkLoginResult
                  (mkSession true (Some (SInt (s_id s))) (sess_admin_logged_in sess))
                  (Redirect StudentDashboard) 302),
          d, [EvFlash "Logged in successfully" "success"])).
Proof.
  intros Hadm Hf Hb Hc d1 L.
  pose proof (find_student_by_in _ _ _ Hf) as Hin.
  destruct (find_in_some (fun x => s_id x =? s_id s) (students d) s Hin
              (Z.eqb_refl _)) as [s0 Hget].
  assert (d1 = update_student (s_id s)
                 (fun s => set_blocked (negb (s_is_blocked s)) s) d) as Hd1.
  { unfold d1. rewrite (toggle_block_student_run xfa admin (s_id s) d s0 Hadm Hget Hc).
    reflexivity. }
  assert (find_student_by (identifier_of (lf_email form)) d1
          = Some (set_blocked true s)) as Hf1.
  { rewrite Hd1, find_student_by_update by (intros []; reflexivity).
    rewrite Hf. cbn [option_map]. rewrite Z.eqb_refl, Hb. reflexivity. }
  unfold L. rewrite (student_login_found xf chk dh sess form d1 _ Hf1).
  unfold login_answer. cbn [set_blocked s_password s_is_blocked].
  split; [|split].
  - destruct (chk _ _) as [[|]|]; reflexivity.
  - destruct (chk _ _) as [[|]|]; reflexivity.
  - intros Hchk. rewrite Hchk. split; [reflexivity|].
    rewrite (student_login_found xf chk dh sess form d s Hf).
    unfold login_answer. rewrite Hchk, Hb. reflexivity.
Qed.

(** The sample: Bob is blocked and tries to log in. *)
Lemma blocked_student_cannot_log_in_witness :
  let chk := fun h p => Some (bool_decide (Some h = p)) in
  let d1 := db_of (run (toggle_block_student no_op_faults Sample.as_admin 7)
                     Sample.db) in
  run_login (student_login no_op_faults chk "h" Sample.anonymous POST
               (mkLoginForm (Some " BOB@x.com") (Some "hash"))) d1
  = (Some (mkLoginResult Sample.anonymous (Render "student_login.html") 403), d1,
     [EvFlash "Your account has been blocked" "error"]).
Proof.
  intros chk d1.
  exact (proj1 (proj2 (proj2
           (blocked_student_cannot_log_in no_op_faults no_op_faults chk "h"
              Sample.as_admin Sample.anonymous
              (mkLoginForm (Some " BOB@x.com") (Some "hash")) Sample.db Sample.bob
              eq_refl eq_refl eq_refl eq_refl)) eq_refl)).
Defined.

(** X21. A login under the handle ['student'] creates the default
    account, also when the login fails. If no row has the address or the
    handle ['student'] and lookup and commit work, the request appends
    the default student to the table whatever password was sent; the
    session changes only when the given hash accepts the password. The
    same request sent again finds that row and stores nothing more. *)
Theorem login_creates_default_account xf chk dh sess form d :
  find_student_by "student" d = None →
  identifier_of (lf_email form) = "student" →
  xf DefaultStudentLookup = false →
  xf DefaultStudentCommit = false →
  let L := run_login (student_login xf chk dh sess POST form) d in
  let s := default_student dh (students d) in
  snd (fst L) = with_students (students d ++ [s]) d
  ∧ (chk dh (lf_password form) = Some true →
     session_after sess L
     = mkSession true (Some (SInt (s_id s))) (sess_admin_logged_in sess))
  ∧ (chk dh (lf_password form) ≠ Some true → session_after sess L = sess)
  ∧ snd (fst (run_login (student_login xf chk dh sess POST form) (snd (fst L))))
    = snd (fst L).
Proof.
  intros Hf Hi Hl Hc L s.
  assert (L = login_answer chk sess form s
                (with_students (students d ++ [s]) d) [EvCommit true]) as HL.
  { unfold L. rewrite (student_login_default xf chk dh sess form d Hf Hi), Hl, Hc.
    reflexivity. }
  rewrite HL, login_answer_db.
  split; [reflexivity|]. split; [|split].
  - intros Hchk. unfold login_answer. cbn [s default_student s_password s_is_blocked].
    rewrite Hchk. reflexivity.
  - intros Hchk. unfold login_answer. cbn [s default_student s_password s_is_blocked].
    destruct (chk dh (lf_password form)) as [[|]|]; [contradiction|reflexivity..].
  - destruct (find_student_by_none _ _ Hf) as [He Hh].
    rewrite (student_login_found xf chk dh sess form _ s); [apply login_answer_db|].
    rewrite Hi. unfold find_student_by, with_students. cbn [students].
    rewrite find_app_none by (intros x Hx; exact (find_none _ _ He x Hx)).
    cbn [find s default_student s_email].
    rewrite find_app_none by (intros x Hx; exact (find_none _ _ Hh x Hx)).
    reflexivity.
Qed.

(** The sample: a login as ['student'] with a wrong password. *)
Lemma login_creates_default_account_witness :
  let chk := fun h p => Some (bool_decide (Some h = p)) in
  let L := run_login (student_login no_op_faults chk "h" Sample.anonymous POST
                        (mkLoginForm (Some " Student ") (Some "guess"))) Sample.db in
  map s_student_id (students (snd (fst L))) = ["bob"; "eve"; "student"]
  ∧ session_after Sample.anonymous L = Sample.anonymous.
Proof.
  intros chk L.
  destruct (login_creates_default_account no_op_faults chk "h" Sample.anonymous
              (mkLoginForm (Some " Student ") (Some "guess")) Sample.db
              eq_refl eq_refl eq_refl eq_refl) as (Hdb & _ & Hs & _).
  split.
  - unfold L. rewrite Hdb. reflexivity.
  - apply Hs. discriminate.
Defined.
